(** * dariah_topics/visualization.py: a shallow embedding

    The module reshapes the output of a topic model into labelled tables and
    hands them to plotting calls.  The embedding keeps the Python data as it
    is: floats are binary64 values ([PrimFloat.float]), integers that are
    used as subscripts are [Z] with Python's negative subscripts written out,
    exceptions are values of [exn] carried by a result monad, and the objects
    that the code mutates (the pyplot figure registry, the logging output,
    the attributes of a [Visualization] instance) live in an explicit
    [world]. *)

From Stdlib Require Import ZArith Floats Lia Bool.
From Stdlib Require Import Decimal DecimalString DecimalZ.
From Stdlib Require Import Sorting.Sorted Sorting.Permutation.
From stdpp Require Import base list strings gmap.

Set Warnings "-inexact-float".

(** ** Python: exceptions, subscripts, slices *)

Inductive exn : Type :=
| IndexError (index : Z) (size : nat)
| KeyError (key : Z)
| AttributeError (attr : string)
| NameError (name : string)
| TypeError (msg : string)
| FileNotFoundError (path : string)
| OSError (msg : string).

Inductive result (A : Type) : Type :=
| Ok (a : A)
| Raise (e : exn).
Arguments Ok {A} a.
Arguments Raise {A} e.

#[export] Instance result_ret : MRet result := fun A a => Ok a.
#[export] Instance result_bind : MBind result := fun A B f m =>
  match m with
  | Ok a => f a
  | Raise e => Raise e
  end.

(** A [for] loop whose body may raise: the loop stops at the first exception. *)
Fixpoint for_each {A B : Type} (body : A -> B -> result A) (xs : list B) (acc : A)
  : result A :=
  match xs with
  | [] => Ok acc
  | x :: xs' => acc' ← body acc x; for_each body xs' acc'
  end.

(** [seq[i]] for a sequence of length [n]: [0 <= i < n] counts from the
    front, [-n <= i < 0] from the back, anything else is out of range. *)
Definition py_index (n : nat) (i : Z) : option nat :=
  if (0 <=? i)%Z then
    (if (i <? Z.of_nat n)%Z then Some (Z.to_nat i) else None)
  else
    (if (- Z.of_nat n <=? i)%Z then Some (Z.to_nat (i + Z.of_nat n)) else None).

(** [seq[0:k]] *)
Definition py_slice_to {A : Type} (k : Z) (l : list A) : list A :=
  if (0 <=? k)%Z then take (Z.to_nat k) l
  else take (length l - Z.to_nat (- k)) l.

(** [sep.join(words)] *)
Fixpoint join (sep : string) (words : list string) : string :=
  match words with
  | [] => ""
  | [w] => w
  | w :: ws => w +:+ sep +:+ join sep ws
  end.

(** ** binary64 comparisons

    [==], [!=] and [<=] on floats are the IEEE ones ([PrimFloat.eqb],
    [PrimFloat.leb]): every comparison with NaN is false.  pandas sorts put
    NaN last whatever the direction. *)

Definition fzero : float := 0%float.

Definition float_ne (x y : float) : bool := negb (x =? y)%float.

Definition asc_leb (x y : float) : bool :=
  is_nan y || (negb (is_nan x) && (x <=? y)%float).

Definition desc_leb (x y : float) : bool :=
  is_nan y || (negb (is_nan x) && (y <=? x)%float).

(** A stable sort: equal keys keep their input order. *)
Section StableSort.
Context {A : Type} (le : A -> A -> bool).

Fixpoint insert_sorted (x : A) (l : list A) : list A :=
  match l with
  | [] => [x]
  | y :: l' => if le x y then x :: y :: l' else y :: insert_sorted x l'
  end.

Definition stable_sort (l : list A) : list A := foldr insert_sorted [] l.
End StableSort.

(** The relation decided by a boolean comparison. *)
Definition holds {A : Type} (le : A -> A -> bool) : A -> A -> Prop :=
  fun x y => le x y = true.

(** ** numpy: two-dimensional arrays of floats *)

Abbreviation ndarray := (list (list float)) (only parsing).

(** [np.zeros((rows, cols))] *)
Definition np_zeros (rows cols : nat) : ndarray := replicate rows (replicate cols fzero).

(** [a[i][j] = w] with [i] drawn from [range(rows)] and [j] an arbitrary
    integer: [a[i]] is a view of row [i], and the store through it raises
    IndexError when [j] is out of range for the row. *)
Definition setitem2 (a : ndarray) (i : nat) (j : Z) (w : float) : result ndarray :=
  match a !! i with
  | None => Raise (IndexError (Z.of_nat i) (length a))
  | Some row =>
      match py_index (length row) j with
      | None => Raise (IndexError j (length row))
      | Some k => Ok (<[i := <[k := w]> row]> a)
      end
  end.

(** [np.arange(n) + off] *)
Definition arange_plus (n : nat) (off : float) : list float :=
  map (fun k => (PrimFloat.of_uint63 (Uint63.of_Z (Z.of_nat k)) + off)%float) (seq 0 n).

(** ** pandas: data frames and series *)

Record DataFrame : Type := mkDataFrame {
  values : ndarray;
  index : list string;
  columns : list string
}.

(** A series is a column with its row labels. *)
Abbreviation Series := (list (string * float)) (only parsing).

(** Column [j] of the array, one cell per row. *)
Definition array_column (a : ndarray) (j : nat) : list float :=
  map (fun row => default fzero (row !! j)) a.

(** [df.transpose()] *)
Definition transpose (df : DataFrame) : DataFrame :=
  {| values := map (array_column (values df)) (seq 0 (length (columns df)));
     index := columns df;
     columns := index df |}.

(** ** The topic model and the corpus

    The model is an object of the topic-modelling library; the module uses
    three things of it.  A document of the corpus is whatever the model's
    [__getitem__] accepts. *)

Record LdaModel (Doc : Type) : Type := mkLdaModel {
  num_topics : nat;
  getitem : Doc -> list (Z * float);
  show_topic : nat -> nat -> list (string * float)
}.
Arguments num_topics {Doc} _.
Arguments getitem {Doc} _ _.
Arguments show_topic {Doc} _ _ _.

Section DocTopic.
Context {Doc : Type}.

(** Lines 246-253: the zero matrix and the loop that fills it. *)
Definition fill_doc_topic (corpus : list Doc) (model : LdaModel Doc)
    (doc_labels : list string) : result ndarray :=
  let no_of_topics := num_topics model in
  let no_of_docs := length doc_labels in
  let doc_topic := np_zeros no_of_docs no_of_topics in
  for_each
    (fun doc_topic '(doc, i) =>
       let topic_dist := getitem model doc in
       for_each (fun doc_topic topic => setitem2 doc_topic i topic.1 topic.2)
                topic_dist doc_topic)
    (zip corpus (seq 0 no_of_docs)) doc_topic.

(** Lines 255-258 (and 134-137). *)
Definition make_topic_labels (model : LdaModel Doc) : list string :=
  map (fun i => join " " (map fst (show_topic model i 3)))
      (seq 0 (num_topics model)).

Definition create_doc_topic (corpus : list Doc) (model : LdaModel Doc)
    (doc_labels : list string) : result DataFrame :=
  doc_topic ← fill_doc_topic corpus model doc_labels;
  let topic_labels := make_topic_labels model in
  let doc_topic := mkDataFrame doc_topic doc_labels topic_labels in
  let doc_topic := transpose doc_topic in
  Ok doc_topic.
End DocTopic.

(** ** The Mallet word-weights table

    [pd.read_table(word_weights_file, header=None, sep="\t")] yields one row
    per line of the file, with the columns labelled 0 (topic id), 1 (word)
    and 2 (weight).  Reading the file is outside the embedding: the table is
    the argument. *)

(** What the word column holds once the file is read.  A token is kept as a
    string, except that [read_table] takes some tokens for a missing value
    (nan, NA, NULL, null, N/A, ...) and stores the float NaN in their place;
    and a column whose tokens are all numbers is read as numbers. *)
Inductive word_value : Type :=
| PyStr (s : string)
| PyFloat (x : float)
| PyInt (n : Z).

Record WordScore : Type := mkWordScore {
  col0 : Z;
  col1 : word_value;
  col2 : float
}.

(** The row order of [sort(columns=[0,2], ascending=[True, False])]. *)
Definition by_topic_then_weight (r s : WordScore) : bool :=
  (col0 r <? col0 s)%Z || ((col0 r =? col0 s)%Z && desc_leb (col2 r) (col2 s)).

(** [groupby(0)] keeps the frame and splits it on demand. *)
Record DataFrameGroupBy : Type := mkGroupBy {
  obj : list WordScore
}.

Definition has_topic (name : Z) (r : WordScore) : bool := (col0 r =? name)%Z.

(** [grouped.get_group(name)]: the rows of the group in frame order,
    KeyError when no row has the key. *)
Definition get_group (grouped : DataFrameGroupBy) (name : Z) : result (list WordScore) :=
  match List.filter (has_topic name) (obj grouped) with
  | [] => Raise (KeyError name)
  | rows => Ok rows
  end.

Definition read_mallet_word_weights (word_scores : list WordScore) : DataFrameGroupBy :=
  let word_scores := stable_sort by_topic_then_weight word_scores in
  let word_scores_grouped := mkGroupBy word_scores in
  word_scores_grouped.

(** [word + " "]: defined for a string only. *)
Definition add_space (word : word_value) : result string :=
  match word with
  | PyStr s => Ok (s +:+ " ")
  | PyFloat _ => Raise (TypeError "unsupported operand type(s) for +: 'float' and 'str'")
  | PyInt _ => Raise (TypeError "unsupported operand type(s) for +: 'int' and 'str'")
  end.

(** Line 413, the body of the loop. *)
Definition append_word (wordlewords : string) (word : word_value) : result string :=
  word_and_space ← add_space word;
  Ok (wordlewords +:+ word_and_space).

Definition get_wordlewords (word_scores_grouped : DataFrameGroupBy)
    (number_of_top_words : Z) (topic_nr : Z) : result string :=
  topic_word_scores ← get_group word_scores_grouped topic_nr;
  let top_topic_word_scores := py_slice_to number_of_top_words topic_word_scores in
  let topic_words := map col1 top_topic_word_scores in
  for_each append_word topic_words "".

(** ** Selecting one document of a document-topic frame (lines 302-306) *)

(** [list(doc_topic)[document_index]] *)
Definition column_label (df : DataFrame) (document_index : Z) : result string :=
  match py_index (length (columns df)) document_index with
  | None => Raise (IndexError document_index (length (columns df)))
  | Some j => Ok (default "" (columns df !! j))
  end.

(** The positions at which a label occurs among the column labels. *)
Definition label_positions (df : DataFrame) (label : string) : list nat :=
  List.filter (fun j => bool_decide (columns df !! j = Some label))
              (seq 0 (length (columns df))).

Definition column_series (df : DataFrame) (j : nat) : Series :=
  zip (index df) (array_column (values df) j).

(** [doc_topic[label].copy()], then [data[data != 0]] and [sort_values()].
    A label that names one column selects a series.  A label that names
    several columns selects a frame, on which the argument-free
    [sort_values()] is a TypeError. *)
Definition select_column (df : DataFrame) (label : string) : result Series :=
  match label_positions df label with
  | [j] => Ok (column_series df j)
  | _ => Raise (TypeError "sort_values() missing 1 required positional argument: 'by'")
  end.

Definition nonzero (entry : string * float) : bool := float_ne entry.2 fzero.

Definition by_value (p q : string * float) : bool := asc_leb p.2 q.2.

(** [Series.sort_values()]: ascending, NaN last.  The order of equal values
    is not fixed by pandas' default sort; here they keep their order. *)
Definition sort_values (data : Series) : Series := stable_sort by_value data.

Definition doc_topics_data (doc_topic : DataFrame) (document_index : Z) : result Series :=
  label ← column_label doc_topic document_index;
  data ← select_column doc_topic label;
  let data := List.filter nonzero data in
  let data := sort_values data in
  Ok data.

(** [df.sort_index()]: rows in ascending order of their labels. *)
Definition by_label (p q : string * list float) : bool := String.leb p.1 q.1.

Definition sort_index (df : DataFrame) : DataFrame :=
  let rows := stable_sort by_label (zip (index df) (values df)) in
  {| values := map snd rows; index := map fst rows; columns := columns df |}.

(** ** pyplot, logging, the file system and the module's globals *)

Inductive artist : Type :=
| AddSubplot (nrows ncols idx : nat)
| Pcolor (data : ndarray) (cmap : string)
| SetYTicks (positions : list float)
| SetYTickLabels (labels : list string)
| SetXTicks (positions : list float)
| SetXTickLabels (labels : list string) (rotation : string)
| InvertYAxis
| TightLayout
| Barh (y : list nat) (width : list float) (align : string) (alpha : float)
| YTicksAt (positions : list nat) (labels : list string)
| Title (text : string)
| XLabel (text : string)
| YLabel (text : string).

(** A figure: the size it was created with ([None] is matplotlib's default)
    and what was drawn on it, oldest first. *)
Record Figure : Type := mkFigure {
  figsize : option (Z * Z);
  drawn : list artist
}.

(** What the operating system answers: whether a path exists, and the
    exception, if any, that creating a directory or writing a file raises. *)
Record OS : Type := mkOS {
  path_exists : string -> bool;
  makedirs : string -> option exn;
  write_file : string -> option exn
}.

(** The third-party package behind the interactive visualization. *)
Inductive PreparedData : Type := prepared (id : nat).

Record PyLDAvis : Type := mkPyLDAvis {
  prepare : PreparedData;
  save_html : PreparedData -> string -> option exn;
  save_json : PreparedData -> string -> option exn;
  prepared_data_to_html : PreparedData -> option exn
}.

(** The mutable surroundings of a call.  [figures] is pyplot's registry: a
    figure is referred to by its position, the last one is the current
    figure.  [stderr] holds the records that pass the level set by
    [logging.basicConfig(level=logging.ERROR)].  [pyLDAvis] is the binding of
    that name in the module's globals. *)
Record world : Type := mkWorld {
  os : OS;
  pyLDAvis : option PyLDAvis;
  figures : list Figure;
  stderr : list string;
  written : list (string * nat * Z)
}.

(** The world after the module is imported: [import pyLDAvis.gensim] is
    commented out (line 31), so the name is unbound. *)
Definition import_world (env : OS) : world :=
  {| os := env; pyLDAvis := None; figures := []; stderr := []; written := [] |}.

Definition M (A : Type) : Type := world -> result A * world.

#[export] Instance M_ret : MRet M := fun A a w => (Ok a, w).
#[export] Instance M_bind : MBind M := fun A B f m w =>
  match m w with
  | (Ok a, w') => f a w'
  | (Raise e, w') => (Raise e, w')
  end.

Definition raise {A : Type} (e : exn) : M A := fun w => (Raise e, w).

Definition lift {A : Type} (r : result A) : M A := fun w => (r, w).

(** [try: body except ...: handler] *)
Definition try_except {A : Type} (body : M A) (handler : exn -> M A) : M A :=
  fun w =>
    match body w with
    | (Ok a, w') => (Ok a, w')
    | (Raise e, w') => handler e w'
    end.

(** [self.attr] for an attribute that may not have been assigned. *)
Definition getattr {A : Type} (name : string) (field : option A) : M A :=
  match field with
  | Some a => mret a
  | None => raise (AttributeError name)
  end.

(** [log.info] and [log.debug] are below the configured level. *)
Definition log_info (msg : string) : M unit := mret tt.
Definition log_debug (msg : string) : M unit := mret tt.

Definition logged (line : string) (w : world) : world :=
  {| os := os w; pyLDAvis := pyLDAvis w; figures := figures w;
     stderr := stderr w ++ [line]; written := written w |}.

(** [log.error] with the format ['%(levelname)s %(name)s: %(message)s']. *)
Definition log_error (msg : string) : M unit := fun w =>
  (Ok tt, logged ("ERROR visualization: " +:+ msg) w).

Definition set_figures (figs : list Figure) (w : world) : world :=
  {| os := os w; pyLDAvis := pyLDAvis w; figures := figs;
     stderr := stderr w; written := written w |}.

(** [plt.figure(figsize=...)]: a new figure, which becomes the current one. *)
Definition plt_figure (size : option (Z * Z)) : M nat := fun w =>
  (Ok (length (figures w)), set_figures (figures w ++ [mkFigure size []]) w).

(** [plt.gcf()]: the current figure, created when there is none. *)
Definition plt_gcf : M nat := fun w =>
  match figures w with
  | [] => plt_figure None w
  | figs => (Ok (length figs - 1)%nat, w)
  end.

(** Drawing calls on the figure [fig], in order. *)
Definition draw_all (fig : nat) (arts : list artist) : M unit := fun w =>
  (Ok tt,
   set_figures (alter (fun f => mkFigure (figsize f) (drawn f ++ arts)) fig (figures w)) w).

(** A [plt.*] drawing call acts on the current figure. *)
Definition plt_draw (arts : list artist) : M unit :=
  fig ← plt_gcf; draw_all fig arts.

Definition os_path_exists (path : string) : M bool := fun w => (Ok (path_exists (os w) path), w).

Definition os_makedirs (path : string) : M unit := fun w =>
  match makedirs (os w) path with
  | Some e => (Raise e, w)
  | None => (Ok tt, w)
  end.

(** [os.path.join(path, name)] for a relative [name]. *)
Definition os_path_join (path name : string) : string :=
  if bool_decide (path = "") then name
  else if String.eqb (String.substring (String.length path - 1) 1 path) "/" then path +:+ name
  else path +:+ "/" +:+ name.

(** [fig.savefig(fname, dpi=dpi)] *)
Definition savefig (fig : nat) (fname : string) (dpi : Z) : M unit := fun w =>
  match write_file (os w) fname with
  | Some e => (Raise e, w)
  | None => (Ok tt, {| os := os w; pyLDAvis := pyLDAvis w; figures := figures w;
                       stderr := stderr w; written := written w ++ [(fname, fig, dpi)] |})
  end.

(** Looking up the global name [pyLDAvis]. *)
Definition global_pyLDAvis : M PyLDAvis := fun w =>
  match pyLDAvis w with
  | Some lib => (Ok lib, w)
  | None => (Raise (NameError "pyLDAvis"), w)
  end.

Definition call (outcome : option exn) : M unit :=
  match outcome with
  | Some e => raise e
  | None => mret tt
  end.

(** ** class Visualization *)

Module Visualization.
Section Class.
Context {Doc Dict : Type}.

(** An instance: the attributes assigned by [__init__] and, once the make
    methods have run, the two visualizations.  An attribute that was never
    assigned is [None]; reading it raises AttributeError. *)
Record t : Type := mk {
  corpus : list Doc;
  model : LdaModel Doc;
  doc_labels : option (list string);
  dictionary : option Dict;
  heatmap_vis : option nat;
  interactive_vis : option PreparedData
}.

Definition init (lda_model : LdaModel Doc) (corpus : list Doc) (dictionary : Dict)
    (doc_labels : list string) (interactive : bool) : t :=
  {| corpus := corpus;
     model := lda_model;
     doc_labels := if interactive then None else Some doc_labels;
     dictionary := if interactive then Some dictionary else None;
     heatmap_vis := None;
     interactive_vis := None |}.

Definition set_heatmap_vis (self : t) (fig : nat) : t :=
  {| corpus := corpus self; model := model self; doc_labels := doc_labels self;
     dictionary := dictionary self; heatmap_vis := Some fig;
     interactive_vis := interactive_vis self |}.

Definition set_interactive_vis (self : t) (vis : PreparedData) : t :=
  {| corpus := corpus self; model := model self; doc_labels := doc_labels self;
     dictionary := dictionary self; heatmap_vis := heatmap_vis self;
     interactive_vis := Some vis |}.

(** Lines 122-154.  The loop of lines 127-130 is the one of
    [create_doc_topic]. *)
Definition make_heatmap (self : t) : M t :=
  let no_of_topics := num_topics (model self) in
  labels ← getattr "doc_labels" (doc_labels self);
  let no_of_docs := length labels in
  _ ← log_info "Accessing topic distribution and topic probability ...";
  doc_topic ← lift (fill_doc_topic (corpus self) (model self) labels);
  _ ← log_debug "Topic distribution and topic probability available.";
  _ ← log_info "Accessing plot labels ...";
  let topic_labels := make_topic_labels (model self) in
  _ ← log_debug "plot labels available.";
  _ ← log_info "Creating heatmap figure ...";
  if (20 <? no_of_docs)%nat || (20 <? no_of_topics)%nat then
    fig ← plt_figure (Some (20, 20)%Z);
    mret self
  else
    fig ← plt_figure None;
    _ ← draw_all fig
          [AddSubplot 1 1 1;
           Pcolor doc_topic "Reds";
           SetYTicks (arange_plus no_of_docs 1.0);
           SetYTickLabels labels;
           SetXTicks (arange_plus no_of_topics 0.5);
           SetXTickLabels topic_labels "90";
           InvertYAxis;
           TightLayout];
    let self := set_heatmap_vis self fig in
    _ ← log_debug "Heatmap figure available.";
    mret self.

(** Lines 171-181. *)
Definition save_heatmap (self : t) (path filename ext : string) (dpi : Z) : M unit :=
  _ ← log_info "Saving heatmap figure...";
  try_except
    (present ← os_path_exists path;
     _ ← (if negb present then os_makedirs path else mret tt);
     fig ← getattr "heatmap_vis" (heatmap_vis self);
     _ ← savefig fig (os_path_join path (filename +:+ "." +:+ ext)) dpi;
     log_debug "Heatmap figure available.")
    (fun e =>
       match e with
       | AttributeError _ =>
           _ ← log_error "Run make_heatmap() before save_heatmp()";
           raise e
       | FileNotFoundError _ => mret tt
       | _ => raise e
       end).

(** Lines 199-201. *)
Definition make_interactive (self : t) : M t :=
  _ ← log_info "Accessing model, corpus and dictionary ...";
  lib ← global_pyLDAvis;
  _ ← getattr "dictionary" (dictionary self);
  let self := set_interactive_vis self (prepare lib) in
  _ ← log_debug "Interactive visualization available.";
  mret self.

(** Lines 216-228. *)
Definition save_interactive (self : t) (path filename : string) : M unit :=
  try_except
    (present ← os_path_exists path;
     _ ← (if negb present then os_makedirs path else mret tt);
     _ ← log_info "Saving interactive visualization ...";
     lib ← global_pyLDAvis;
     vis ← getattr "interactive_vis" (interactive_vis self);
     _ ← call (save_html lib vis (os_path_join path "corpus_interactive.html"));
     lib ← global_pyLDAvis;
     vis ← getattr "interactive_vis" (interactive_vis self);
     _ ← call (save_json lib vis (os_path_join path "corpus_interactive.json"));
     lib ← global_pyLDAvis;
     vis ← getattr "interactive_vis" (interactive_vis self);
     _ ← call (prepared_data_to_html lib vis);
     log_debug "Interactive visualization available.")
    (fun e =>
       match e with
       | AttributeError _ =>
           _ ← log_error "Running make_interactive() before save_interactive() ...";
           raise e
       | FileNotFoundError _ => mret tt
       | _ => raise e
       end).
End Class.
Arguments t : clear implicits.
End Visualization.

(** ** The module-level plots *)

(** Lines 278-289. *)
Definition doc_topic_heatmap (data_frame : DataFrame) : M unit :=
  let data_frame := sort_index (transpose data_frame) in
  let doc_labels := index data_frame in
  let topic_labels := columns data_frame in
  _ ← (if (20 <? length doc_labels)%nat || (20 <? length topic_labels)%nat
       then (_ ← plt_figure (Some (20, 20)%Z); mret tt)
       else mret tt);
  _ ← plt_draw [Pcolor (values data_frame) "Reds"];
  _ ← plt_draw [SetYTicks (arange_plus (length doc_labels) 1.0);
                SetYTickLabels doc_labels];
  _ ← plt_draw [SetXTicks (arange_plus (length topic_labels) 0.5);
                SetXTickLabels topic_labels "90"];
  _ ← plt_draw [InvertYAxis];
  plt_draw [TightLayout].

(** Lines 302-314. *)
Definition plot_doc_topics (doc_topic : DataFrame) (document_index : Z) : M unit :=
  data ← lift (doc_topics_data doc_topic document_index);
  let values := map snd data in
  let labels := map fst data in
  _ ← plt_draw [Barh (seq 0 (length values)) values "center" 0.5];
  _ ← plt_draw [YTicksAt (seq 0 (length values)) labels];
  title ← lift (column_label doc_topic document_index);
  _ ← plt_draw [Title title];
  _ ← plt_draw [XLabel "Proportion"];
  _ ← plt_draw [YLabel "Topic"];
  plt_draw [TightLayout].

(** ** Vocabulary of the statements *)

(** An order-preserving key for the floats that are not NaN. *)
Definition SFkey (f : spec_float) : Z * Z * Z :=
  match f with
  | S754_zero _ => (0, 0, 0)
  | S754_infinity s => (if s then -2 else 2, 0, 0)
  | S754_nan => (3, 0, 0)
  | S754_finite s m e => if s then (-1, - e, - Z.pos m) else (1, e, Z.pos m)
  end%Z.

Definition key_le (k l : Z * Z * Z) : Prop :=
  (k.1.1 < l.1.1 \/ (k.1.1 = l.1.1 /\ (k.1.2 < l.1.2 \/ (k.1.2 = l.1.2 /\ k.2 <= l.2))))%Z.

(** The weight that a topic assignment gives to topic [t]: the weight of the
    last pair with that id, since a later pair overwrites an earlier one. *)
Fixpoint last_weight (topic_dist : list (Z * float)) (t : Z) : option float :=
  match topic_dist with
  | [] => None
  | (t', w) :: rest =>
      match last_weight rest t with
      | Some w' => Some w'
      | None => if (t' =? t)%Z then Some w else None
      end
  end.

(** One row after the inner loop has stored an assignment into it. *)
Fixpoint store_row (row : list float) (topic_dist : list (Z * float)) : list float :=
  match topic_dist with
  | [] => row
  | (t, w) :: rest =>
      match py_index (length row) t with
      | Some k => store_row (<[k := w]> row) rest
      | None => store_row row rest
      end
  end.

(** The cell [a[i][j]]. *)
Definition cell (a : ndarray) (i j : nat) : option float :=
  row ← a !! i; row !! j.

(** Every topic id of an assignment is a valid subscript of a row of [n] cells. *)
Definition ids_in_range (n : nat) (topic_dist : list (Z * float)) : Prop :=
  Forall (fun topic => py_index n topic.1 <> None) topic_dist.

(** The array after the outer loop: leading rows paired with documents. *)
Fixpoint store_rows {Doc : Type} (model : LdaModel Doc) (docs : list Doc) (a : ndarray)
  : ndarray :=
  match docs, a with
  | doc :: docs', row :: a' => store_row row (getitem model doc) :: store_rows model docs' a'
  | _, _ => a
  end.

(** Two documents on two topics, whose top terms are "a b c" and "d e f". *)
Definition scenario_model : LdaModel (list (Z * float)) :=
  {| num_topics := 2;
     getitem := fun doc => doc;
     show_topic := fun i topn =>
       take topn (if Nat.eqb i 0
                  then [("a", 0.5); ("b", 0.3); ("c", 0.2)]
                  else [("d", 0.5); ("e", 0.3); ("f", 0.2)])%float |}.

Definition scenario_corpus : list (list (Z * float)) :=
  [[(0%Z, 0.7%float); (1%Z, 0.3%float)]; [(1%Z, 1.0%float)]].

(** The positions at which [x] occurs in [l]. *)
Definition positions (l : list string) (x : string) : list nat :=
  List.filter (fun j => bool_decide (l !! j = Some x)) (seq 0 (length l)).

(** Adding artists to a figure. *)
Definition add_artists (arts : list artist) (f : Figure) : Figure :=
  mkFigure (figsize f) (drawn f ++ arts).

(** The registry after [plt.*] calls have drawn [arts] on the current figure. *)
Definition on_current (arts : list artist) (figs : list Figure) : list Figure :=
  match figs with
  | [] => [mkFigure None arts]
  | _ => alter (add_artists arts) (length figs - 1) figs
  end.

(** A document-topic frame in which two documents carry the same label. *)
Definition twin_labels : DataFrame :=
  {| values := [[0.7; 0.0]; [0.3; 1.0]]%float;
     index := ["a b c"; "d e f"];
     columns := ["doc"; "doc"] |}.

(** The output directory is there when the figure is about to be written:
    it exists, or [os.makedirs] creates it. *)
Definition directory_ready (env : OS) (path : string) : Prop :=
  path_exists env path = true \/ makedirs env path = None.

(** Twenty-one documents on one topic. *)
Definition large_model : LdaModel (list (Z * float)) :=
  {| num_topics := 1;
     getitem := fun doc => doc;
     show_topic := fun i topn => take topn [("a", 0.5); ("b", 0.3); ("c", 0.2)]%float |}.

Definition large_corpus : list (list (Z * float)) := replicate 21 [(0%Z, 1.0%float)].

Definition large_labels : list string := replicate 21 "doc".

Definition large_heatmap : Visualization.t (list (Z * float)) unit :=
  Visualization.init large_model large_corpus tt large_labels false.

(** A file system in which everything is in place. *)
Definition friendly_os : OS :=
  {| path_exists := fun _ => true; makedirs := fun _ => None; write_file := fun _ => None |}.

(** A file system in which the output directory is missing and cannot be
    created: [os.makedirs] raises FileNotFoundError. *)
Definition no_such_directory : OS :=
  {| path_exists := fun _ => false;
     makedirs := fun path => Some (FileNotFoundError path);
     write_file := fun path => Some (FileNotFoundError path) |}.

(** The words of a list, each followed by one space. *)
Definition spaced (words : list string) : string :=
  foldr (fun word rest => word +:+ " " +:+ rest) "" words.

(** The three-row table of the Mallet scenario. *)
Definition mallet_example : list WordScore :=
  [mkWordScore 0 (PyStr "cat") 0.9; mkWordScore 0 (PyStr "dog") 0.4;
   mkWordScore 1 (PyStr "fish") 0.2].

(** The table read from a file whose second line has the token null. *)
Definition mallet_null_word : list WordScore :=
  [mkWordScore 0 (PyStr "cat") 0.9; mkWordScore 0 (PyFloat nan) 0.4].

(** ** Integers as text *)

(** [str(n)] *)
Definition str (n : Z) : string := NilZero.string_of_int (Z.to_int n).

(** [int(s)] for a string of decimal digits with an optional minus sign. *)
Definition int_of_str (s : string) : option Z := option_map Z.of_int (NilZero.int_of_string s).

(** Zeros in front of the digits, up to [width] digits. *)
Definition zero_pad (width : nat) (d : uint) : uint := Nat.iter (width - nb_digits d) D0 d.

(** ["{:03d}".format(n)]: at least three characters, the sign included,
    with the zeros between the sign and the digits. *)
Definition format_03d (n : Z) : string :=
  match Z.to_int n with
  | Pos d => NilEmpty.string_of_uint (zero_pad 3 d)
  | Neg d => "-" +:+ NilEmpty.string_of_uint (zero_pad 2 d)
  end.

(** ** Word clouds from Mallet output (lines 444-460) *)

(** Lines 448 and 458. *)
Definition figure_title (topic_nr : Z) : string := "topic " +:+ str topic_nr.

Definition figure_filename (topic_nr : Z) : string :=
  "wordle_tp" +:+ format_03d topic_nr +:+ ".png".

(** A [WordCloud] object: how it was configured ([None] is the package's
    default) and the text it was generated from. *)
Record WordCloud : Type := mkWordCloud {
  wc_width : option Z;
  wc_height : option Z;
  wc_background_color : option string;
  wc_margin : option Z;
  wc_text : string
}.

(** The calls of the word-cloud plots that put something on a figure. *)
Inductive cloud_artist : Type :=
| ImshowArray (cloud : WordCloud)
| ImshowCloud (cloud : WordCloud)
| TitleSized (text : string) (fontsize : Z)
| AxisOff.

(** pyplot with the images shown on its figures: besides the [world], what
    the word-cloud plots drew, each call with the number of its figure. *)
Record canvas : Type := mkCanvas {
  pyplot : world;
  shown : list (nat * cloud_artist)
}.

Definition CM (A : Type) : Type := canvas -> result A * canvas.

#[export] Instance CM_ret : MRet CM := fun A a c => (Ok a, c).
#[export] Instance CM_bind : MBind CM := fun A B f m c =>
  match m c with
  | (Ok a, c') => f a c'
  | (Raise e, c') => (Raise e, c')
  end.

(** An action on the [world] as an action on the canvas. *)
Definition in_world {A : Type} (m : M A) : CM A := fun c =>
  let '(r, w) := m (pyplot c) in (r, mkCanvas w (shown c)).

Definition show_on (fig : nat) (a : cloud_artist) : CM unit := fun c =>
  (Ok tt, mkCanvas (pyplot c) (shown c ++ [(fig, a)])).

(** A [plt.*] image call acts on the current figure. *)
Definition plt_show (a : cloud_artist) : CM unit :=
  fig ← in_world plt_gcf; show_on fig a.

(** [plt.savefig(fname, dpi=dpi)] saves the current figure. *)
Definition plt_savefig (fname : string) (dpi : Z) : CM unit :=
  fig ← in_world plt_gcf;
  in_world (savefig fig fname dpi).

(** [WordCloud(...).generate(text)]; [generate] is the package's, and
    [rejects] is the exception, if any, that it raises on a text. *)
Definition generate (rejects : string -> option exn) (cloud : WordCloud) : CM WordCloud :=
  match rejects (wc_text cloud) with
  | Some e => in_world (raise e)
  | None => mret cloud
  end.

Definition plot_wordle_from_mallet (rejects : string -> option exn)
    (word_weights_file : list WordScore) (topic_nr number_of_top_words : Z)
    (outfolder : string) (dpi : Z) : CM unit :=
  let word_scores_grouped := read_mallet_word_weights word_weights_file in
  text ← in_world (lift (get_wordlewords word_scores_grouped number_of_top_words topic_nr));
  wordcloud ← generate rejects (mkWordCloud (Some 600%Z) (Some 400%Z) (Some "white") (Some 4%Z) text);
  let figure_title := figure_title topic_nr in
  _ ← plt_show (ImshowArray wordcloud);
  _ ← plt_show (ImshowCloud wordcloud);
  _ ← plt_show (TitleSized figure_title 30);
  _ ← plt_show AxisOff;
  present ← in_world (os_path_exists outfolder);
  _ ← (if negb present then in_world (os_makedirs outfolder) else mret tt);
  let figure_filename := figure_filename topic_nr in
  plt_savefig (outfolder +:+ figure_filename) dpi.

(** The canvas right after the module is imported. *)
Definition import_canvas (env : OS) : canvas := mkCanvas (import_world env) [].

(** The character of a decimal digit, and the three digits of a number
    below 1000. *)
Definition digit (k : nat) : Ascii.ascii := Ascii.ascii_of_nat (48 + k).

Definition three_digits (n : nat) : string :=
  String (digit (n / 100)) (String (digit (n / 10 mod 10)) (String (digit (n mod 10)) "")).

Definition formats_as_three_digits (n : nat) : bool :=
  String.eqb (format_03d (Z.of_nat n)) (three_digits n).

(** The number of pyplot's current figure, and the registry once a current
    figure is sure to exist. *)
Definition current_figure (w : world) : nat :=
  match figures w with
  | [] => 0
  | figs => length figs - 1
  end.

Definition ensure_figure (w : world) : world :=
  match figures w with
  | [] => set_figures [mkFigure None []] w
  | _ => w
  end.

(** ** Word clouds from an lda model (lines 462-468) *)

(** [seq[:stop:-1]]: from the last element down to, and not including, the
    one at [stop]; a negative [stop] counts from the end, and bounds beyond
    either end are clipped. *)
Definition py_slice_rev_to {A : Type} (stop : Z) (l : list A) : list A :=
  let n := Z.of_nat (length l) in
  let bound := if (stop <? 0)%Z then Z.max (stop + n) (-1) else Z.min stop (n - 1) in
  reverse (drop (Z.to_nat (bound + 1)) l).

Definition by_weight (p q : nat * float) : bool := asc_leb p.2 q.2.

(** [np.argsort(a)]: the positions of [a] in ascending order of value, NaN
    last.  numpy's default sort does not order the positions of equal
    values; here they keep their order. *)
Definition argsort (a : list float) : list nat :=
  map fst (stable_sort by_weight (zip (seq 0 (length a)) a)).

(** [np.array(vocab)[positions]] *)
Fixpoint take_positions (vocab : list string) (positions : list nat)
  : result (list string) :=
  match positions with
  | [] => Ok []
  | i :: rest =>
      match vocab !! i with
      | None => Raise (IndexError (Z.of_nat i) (length vocab))
      | Some token => tokens ← take_positions vocab rest; Ok (token :: tokens)
      end
  end.

(** The model of the lda package: one row of word weights per topic. *)
Record LdaFit : Type := mkLdaFit {
  topic_word_ : list (list float)
}.

(** [model.topic_word_[topic_nr]] *)
Definition topic_row (model : LdaFit) (topic_nr : Z) : result (list float) :=
  match py_index (length (topic_word_ model)) topic_nr with
  | None => Raise (IndexError topic_nr (length (topic_word_ model)))
  | Some i => Ok (default [] (topic_word_ model !! i))
  end.

(** What is handed to the word-cloud package: the settings of the
    [WordCloud] and the dictionary given to [fit_words]. *)
Record FittedWordCloud : Type := mkFittedWordCloud {
  fit_background_color : string;
  fit_height : Z;
  fit_width : Z;
  fit_frequencies : gmap string float
}.

(** Lines 465-467: the loop that fills the dictionary, a later pair
    replacing an earlier one with the same token. *)
Definition token_value_loop (pairs : list (string * float)) : gmap string float :=
  foldl (fun token_value '(token, value) => <[token := value]> token_value) ∅ pairs.

(** [WordCloud(...).fit_words(frequencies)]; [fit_words] is the package's,
    and [rejects] is the exception, if any, that it raises on a dictionary. *)
Definition fit_words (rejects : gmap string float -> option exn)
    (cloud : FittedWordCloud) : result FittedWordCloud :=
  match rejects (fit_frequencies cloud) with
  | Some e => Raise e
  | None => Ok cloud
  end.

Definition plot_wordle_from_lda (rejects : gmap string float -> option exn)
    (model : LdaFit) (vocab : list string)
    (topic_nr words height width : Z) : result FittedWordCloud :=
  topic_dist ← topic_row model topic_nr;
  topic_words ← (ranked ← take_positions vocab (argsort topic_dist);
                 Ok (py_slice_rev_to (- words) ranked));
  let token_value :=
    token_value_loop (zip topic_words (py_slice_rev_to (- words) topic_dist)) in
  fit_words rejects (mkFittedWordCloud "white" height width token_value).

(** The positions of a distribution from the largest weight down. *)
Definition descending_positions (a : list float) : list nat := reverse (argsort a).

(** The weight at a position. *)
Definition weight_at (a : list float) (i : nat) : float := default fzero (a !! i).

(** How many tokens a request for [words] words selects among [n]. *)
Definition selected_count (n : nat) (words : Z) : nat :=
  Z.to_nat (if (1 <=? words)%Z then Z.min (words - 1) (Z.of_nat n)
            else Z.of_nat n - 1 + words).

(** A topic whose weights are not stored in ascending order. *)
Definition lda_example : LdaFit := mkLdaFit [[0.5; 0.1; 0.4]%float].

(** ** More instances for the statements *)

(** The instance of the two-document scenario, built for the heatmap. *)
Definition small_heatmap : Visualization.t (list (Z * float)) unit :=
  Visualization.init scenario_model scenario_corpus tt ["doc1"; "doc2"] false.

(** A pyLDAvis whose calls all succeed, and the module with its import
    line restored. *)
Definition working_pyLDAvis : PyLDAvis :=
  {| prepare := prepared 0;
     save_html := fun _ _ => None;
     save_json := fun _ _ => None;
     prepared_data_to_html := fun _ => None |}.

Definition world_with_pyLDAvis : world :=
  {| os := friendly_os; pyLDAvis := Some working_pyLDAvis; figures := []; stderr := [];
     written := [] |}.

(** A file system on which nothing can be created. *)
Definition read_only_os : OS :=
  {| path_exists := fun _ => false;
     makedirs := fun _ => Some (OSError "Permission denied");
     write_file := fun _ => Some (OSError "Permission denied") |}.

(** * Properties *)

(** ** The order of binary64 values *)

Lemma SFleb_key f g :
  SFleb f g = true <-> f <> S754_nan /\ g <> S754_nan /\ key_le (SFkey f) (SFkey g).
Proof.
  unfold SFleb, key_le.
  destruct f as [s1| s1 | | s1 m1 e1], g as [s2 | s2 | | s2 m2 e2];
    try (split; [discriminate | intros (? & ? & ?); congruence]).
  all: try destruct s1; try destruct s2; simpl.
  all: try change (Pos.compare_cont Eq m1 m2) with (Pos.compare m1 m2).
  all: try destruct (Z.compare_spec e1 e2); try destruct (Pos.compare_spec m1 m2); simpl.
  all: (split; [ intros ?; try discriminate; (split; [discriminate|]); (split; [discriminate|]); lia
               | intros (_ & _ & ?); try reflexivity; lia ]).
Qed.

Lemma key_le_total k l : key_le k l \/ key_le l k.
Proof. destruct k as [[a b] c], l as [[a' b'] c']. unfold key_le; simpl. lia. Qed.

Lemma key_le_trans k l m : key_le k l -> key_le l m -> key_le k m.
Proof.
  destruct k as [[a b] c], l as [[a' b'] c'], m as [[a'' b''] c''].
  unfold key_le; simpl. lia.
Qed.

Lemma is_nan_spec (x : float) : is_nan x = true <-> Prim2SF x = S754_nan.
Proof.
  unfold is_nan. rewrite FloatAxioms.eqb_spec. unfold SFeqb.
  destruct (Prim2SF x) as [s | s | | s m e]; simpl.
  - split; discriminate.
  - destruct s; simpl; split; discriminate.
  - split; reflexivity.
  - rewrite Z.compare_refl, Pos.compare_cont_refl. destruct s; simpl; split; discriminate.
Qed.

Lemma is_nan_false (x : float) : is_nan x = false <-> Prim2SF x <> S754_nan.
Proof. rewrite <- is_nan_spec. destruct (is_nan x); split; congruence. Qed.

Lemma float_leb_total (x y : float) :
  is_nan x = false -> is_nan y = false -> (x <=? y)%float = true \/ (y <=? x)%float = true.
Proof.
  rewrite !is_nan_false, !leb_spec, !SFleb_key. intros Hx Hy.
  destruct (key_le_total (SFkey (Prim2SF x)) (SFkey (Prim2SF y))); auto.
Qed.

Lemma float_leb_trans (x y z : float) :
  (x <=? y)%float = true -> (y <=? z)%float = true -> (x <=? z)%float = true.
Proof.
  rewrite !leb_spec, !SFleb_key. intros (? & ? & ?) (? & ? & ?).
  eauto using key_le_trans.
Qed.

Lemma asc_leb_total (x y : float) : asc_leb x y = true \/ asc_leb y x = true.
Proof.
  unfold asc_leb. destruct (is_nan y) eqn:Hy; [left; reflexivity|].
  destruct (is_nan x) eqn:Hx; [right; reflexivity|]. simpl.
  apply float_leb_total; assumption.
Qed.

Lemma asc_leb_trans (x y z : float) :
  asc_leb x y = true -> asc_leb y z = true -> asc_leb x z = true.
Proof.
  unfold asc_leb. destruct (is_nan z) eqn:Hz; [reflexivity|]. simpl.
  destruct (is_nan y) eqn:Hy; simpl; [discriminate|].
  destruct (is_nan x) eqn:Hx; simpl; [discriminate|].
  apply float_leb_trans.
Qed.

Lemma desc_leb_total (x y : float) : desc_leb x y = true \/ desc_leb y x = true.
Proof.
  unfold desc_leb. destruct (is_nan y) eqn:Hy; [left; reflexivity|].
  destruct (is_nan x) eqn:Hx; [right; reflexivity|]. simpl.
  apply float_leb_total; assumption.
Qed.

Lemma desc_leb_trans (x y z : float) :
  desc_leb x y = true -> desc_leb y z = true -> desc_leb x z = true.
Proof.
  unfold desc_leb. destruct (is_nan z) eqn:Hz; [reflexivity|]. simpl.
  destruct (is_nan y) eqn:Hy; simpl; [discriminate|].
  destruct (is_nan x) eqn:Hx; simpl; [discriminate|].
  intros ? ?. eapply float_leb_trans; eassumption.
Qed.

Lemma asc_leb_no_nan (x y : float) :
  is_nan x = false -> is_nan y = false -> asc_leb x y = (x <=? y)%float.
Proof. unfold asc_leb. intros -> ->. reflexivity. Qed.

Lemma desc_leb_no_nan (x y : float) :
  is_nan x = false -> is_nan y = false -> desc_leb x y = (y <=? x)%float.
Proof. unfold desc_leb. intros -> ->. reflexivity. Qed.

(** ** The stable sort *)

Section StableSortFacts.
Context {A : Type} (le : A -> A -> bool).
Hypothesis le_total : forall x y, le x y = true \/ le y x = true.
Hypothesis le_trans : forall x y z, le x y = true -> le y z = true -> le x z = true.

Lemma insert_sorted_perm (x : A) (l : list A) : Permutation (insert_sorted le x l) (x :: l).
Proof.
  induction l as [|y l IH]; simpl; [reflexivity|].
  destruct (le x y); [reflexivity|].
  rewrite IH. apply perm_swap.
Qed.

Lemma stable_sort_perm (l : list A) : Permutation (stable_sort le l) l.
Proof.
  induction l as [|x l IH]; simpl; [reflexivity|].
  unfold stable_sort in *. simpl. rewrite insert_sorted_perm. auto.
Qed.

Lemma insert_sorted_strongly (x : A) (l : list A) :
  StronglySorted (holds le) l -> StronglySorted (holds le) (insert_sorted le x l).
Proof.
  induction 1 as [|y l Hl IH Hy]; simpl.
  - constructor; constructor.
  - destruct (le x y) eqn:E.
    + constructor; [constructor; assumption|].
      constructor; [exact E|].
      eapply List.Forall_impl; [|exact Hy]. intros z Hz. exact (le_trans _ _ _ E Hz).
    + constructor; [exact IH|].
      eapply Permutation_Forall; [symmetry; apply insert_sorted_perm|].
      constructor; [|exact Hy].
      destruct (le_total x y) as [H|H]; [congruence|exact H].
Qed.

Lemma stable_sort_strongly (l : list A) : StronglySorted (holds le) (stable_sort le l).
Proof.
  induction l as [|x l IH]; [constructor|].
  apply insert_sorted_strongly. exact IH.
Qed.
End StableSortFacts.

Lemma StronglySorted_filter {A : Type} (R : A -> A -> Prop) (p : A -> bool) (l : list A) :
  StronglySorted R l -> StronglySorted R (List.filter p l).
Proof.
  induction 1 as [|x l Hl IH Hx]; simpl; [constructor|].
  destruct (p x); [|exact IH].
  constructor; [exact IH|].
  rewrite List.Forall_forall in *. intros y Hy. apply Hx.
  apply List.filter_In in Hy. tauto.
Qed.

Lemma Permutation_list_filter {A : Type} (p : A -> bool) (l l' : list A) :
  Permutation l l' -> Permutation (List.filter p l) (List.filter p l').
Proof.
  induction 1 as [|x l l' _ IH|x y l|l l' l'' _ IH1 _ IH2]; simpl.
  - reflexivity.
  - destruct (p x); [constructor|]; exact IH.
  - destruct (p x), (p y); try reflexivity. apply perm_swap.
  - etransitivity; eassumption.
Qed.

Lemma StronglySorted_impl {A : Type} (R S : A -> A -> Prop) (l : list A) :
  (forall x y, In x l -> In y l -> R x y -> S x y) ->
  StronglySorted R l -> StronglySorted S l.
Proof.
  intros HRS H. induction H as [|x l Hl IH Hx]; [constructor|].
  constructor.
  - apply IH. intros y z Hy Hz. apply HRS; right; assumption.
  - rewrite List.Forall_forall in *. intros y Hy. apply HRS; [left; reflexivity|right; exact Hy|].
    apply Hx, Hy.
Qed.

(** ** The matrix builder *)

Lemma py_index_lt (n : nat) (t : Z) (k : nat) : py_index n t = Some k -> k < n.
Proof.
  unfold py_index.
  destruct (Z.leb_spec 0 t); [destruct (Z.ltb_spec t (Z.of_nat n))|
                              destruct (Z.leb_spec (- Z.of_nat n) t)];
    intros [= <-]; lia.
Qed.

Lemma py_index_nonneg (n : nat) (t : Z) :
  (0 <= t < Z.of_nat n)%Z -> py_index n t = Some (Z.to_nat t).
Proof.
  intros H. unfold py_index.
  destruct (Z.leb_spec 0 t); [|lia]. destruct (Z.ltb_spec t (Z.of_nat n)); [reflexivity|lia].
Qed.

Lemma py_index_too_large (n : nat) (t : Z) : (Z.of_nat n <= t)%Z -> py_index n t = None.
Proof.
  intros H. unfold py_index.
  destruct (Z.leb_spec 0 t); [|lia]. destruct (Z.ltb_spec t (Z.of_nat n)); [lia|reflexivity].
Qed.

Lemma length_store_row (topic_dist : list (Z * float)) (row : list float) :
  length (store_row row topic_dist) = length row.
Proof.
  revert row. induction topic_dist as [|[t w] rest IH]; intros row; simpl; [reflexivity|].
  destruct (py_index (length row) t); rewrite IH; [apply length_insert|reflexivity].
Qed.

Lemma store_row_lookup (topic_dist : list (Z * float)) (row : list float) (j : nat) :
  (forall t w, In (t, w) topic_dist -> (0 <= t < Z.of_nat (length row))%Z) ->
  j < length row ->
  store_row row topic_dist !! j =
    match last_weight topic_dist (Z.of_nat j) with
    | Some w => Some w
    | None => row !! j
    end.
Proof.
  revert row. induction topic_dist as [|[t w] rest IH]; intros row Hrange Hj; simpl; [reflexivity|].
  rewrite py_index_nonneg by (eapply Hrange; left; reflexivity).
  rewrite IH.
  - destruct (last_weight rest (Z.of_nat j)); [reflexivity|].
    destruct (Z.eqb_spec t (Z.of_nat j)) as [->|Hne].
    + rewrite Nat2Z.id. apply list_lookup_insert_eq. exact Hj.
    + apply list_lookup_insert_ne. intros Heq. apply Hne. rewrite <- Heq.
      symmetry. apply Z2Nat.id. eapply (Hrange t w). left; reflexivity.
  - intros t' w' Hin. rewrite length_insert. eapply Hrange. right; exact Hin.
  - rewrite length_insert. exact Hj.
Qed.

Lemma setitem2_ok (a : ndarray) (i : nat) (row : list float) (t : Z) (k : nat) (w : float) :
  a !! i = Some row -> py_index (length row) t = Some k ->
  setitem2 a i t w = Ok (<[i := <[k := w]> row]> a).
Proof. intros Ha Hk. unfold setitem2. rewrite Ha, Hk. reflexivity. Qed.

Lemma setitem2_raises (a : ndarray) (i : nat) (row : list float) (t : Z) (w : float) :
  a !! i = Some row -> py_index (length row) t = None ->
  setitem2 a i t w = Raise (IndexError t (length row)).
Proof. intros Ha Hk. unfold setitem2. rewrite Ha, Hk. reflexivity. Qed.

Lemma inner_loop_ok (i : nat) (topic_dist : list (Z * float)) (a : ndarray) (row : list float) :
  a !! i = Some row ->
  ids_in_range (length row) topic_dist ->
  for_each (fun doc_topic topic => setitem2 doc_topic i topic.1 topic.2) topic_dist a
  = Ok (<[i := store_row row topic_dist]> a).
Proof.
  revert a row. induction topic_dist as [|[t w] rest IH]; intros a row Ha Hrange;
    cbn [for_each store_row fst snd].
  - rewrite list_insert_id by exact Ha. reflexivity.
  - destruct (py_index (length row) t) as [k|] eqn:Hk;
      [|exfalso; inversion Hrange as [|? ? Ht _]; exact (Ht Hk)].
    rewrite (setitem2_ok _ _ _ _ _ _ Ha Hk). cbn [mbind result_bind].
    rewrite (IH _ (<[k := w]> row)).
    + rewrite list_insert_insert_eq. reflexivity.
    + apply list_lookup_insert_eq. eapply lookup_lt_Some, Ha.
    + rewrite length_insert. inversion Hrange; assumption.
Qed.

Lemma inner_loop_raises (i : nat) (topic_dist : list (Z * float)) (a : ndarray) (row : list float) :
  a !! i = Some row ->
  ~ ids_in_range (length row) topic_dist ->
  exists t w, In (t, w) topic_dist /\ py_index (length row) t = None /\
    for_each (fun doc_topic topic => setitem2 doc_topic i topic.1 topic.2) topic_dist a
    = Raise (IndexError t (length row)).
Proof.
  revert a row. induction topic_dist as [|[t w] rest IH]; intros a row Ha Hbad;
    cbn [for_each fst snd].
  - exfalso. apply Hbad. constructor.
  - destruct (py_index (length row) t) as [k|] eqn:Hk.
    + rewrite (setitem2_ok _ _ _ _ _ _ Ha Hk). cbn [mbind result_bind].
      destruct (IH (<[i := <[k := w]> row]> a) (<[k := w]> row)) as (t' & w' & Hin & Hnone & Hr).
      * apply list_lookup_insert_eq. eapply lookup_lt_Some, Ha.
      * rewrite length_insert. intros Hrest. apply Hbad.
        constructor; [simpl; congruence|exact Hrest].
      * rewrite length_insert in Hnone, Hr.
        exists t', w'. split; [right; exact Hin|]. split; [exact Hnone|exact Hr].
    + rewrite (setitem2_raises _ _ _ _ _ Ha Hk).
      exists t, w. split; [left; reflexivity|]. split; [exact Hk|reflexivity].
Qed.

Lemma store_rows_lookup {Doc : Type} (model : LdaModel Doc) (docs : list Doc) (a : ndarray)
    (i : nat) :
  store_rows model docs a !! i =
    match docs !! i with
    | Some doc => (fun row => store_row row (getitem model doc)) <$> a !! i
    | None => a !! i
    end.
Proof.
  revert a i. induction docs as [|doc docs IH]; intros a i.
  - destruct a; reflexivity.
  - destruct a as [|row a].
    + cbn [store_rows]. rewrite lookup_nil. destruct ((doc :: docs) !! i); reflexivity.
    + destruct i as [|i]; [reflexivity|]. cbn [store_rows]. rewrite !lookup_cons. apply IH.
Qed.

Lemma length_store_rows {Doc : Type} (model : LdaModel Doc) (docs : list Doc) (a : ndarray) :
  length (store_rows model docs a) = length a.
Proof.
  revert a. induction docs as [|doc docs IH]; intros [|row a]; simpl; try reflexivity.
  rewrite IH. reflexivity.
Qed.

Lemma store_rows_widths {Doc : Type} (model : LdaModel Doc) (n : nat) (docs : list Doc)
    (a : ndarray) :
  Forall (fun row => length row = n) a ->
  Forall (fun row => length row = n) (store_rows model docs a).
Proof.
  intros H. revert docs. induction H as [|row a Hrow Ha IH]; intros docs.
  - destruct docs; constructor.
  - destruct docs as [|doc docs]; cbn [store_rows].
    + constructor; assumption.
    + constructor; [rewrite length_store_row; exact Hrow|apply IH].
Qed.

Section OuterLoop.
Context {Doc : Type} (model : LdaModel Doc) (n : nat).

Lemma outer_loop_ok (docs : list Doc) (k m : nat) (a : ndarray) :
  k + m <= length a ->
  Forall (fun row => length row = n) a ->
  Forall (fun doc => ids_in_range n (getitem model doc)) (take m docs) ->
  for_each
    (fun doc_topic '(doc, i) =>
       for_each (fun doc_topic topic => setitem2 doc_topic i topic.1 topic.2)
                (getitem model doc) doc_topic)
    (zip docs (seq k m)) a
  = Ok (take k a ++ store_rows model (take m docs) (drop k a)).
Proof.
  revert k m a. induction docs as [|doc docs IH]; intros k m a Hlen Hwidth Hrange.
  - rewrite take_nil. simpl. rewrite take_drop. reflexivity.
  - destruct m as [|m]; [simpl; rewrite take_drop; reflexivity|].
    cbn [zip zip_with seq for_each take].
    destruct (lookup_lt_is_Some_2 a k ltac:(lia)) as [row Hrow].
    assert (length row = n) as Hn by (eapply Forall_lookup_1 in Hwidth; eauto).
    apply Forall_cons in Hrange as [Hdoc Hrest].
    rewrite (inner_loop_ok k _ a row Hrow) by (rewrite Hn; exact Hdoc).
    cbn [mbind result_bind].
    rewrite IH.
    + f_equal. rewrite (drop_S _ _ _ Hrow). cbn [store_rows].
      rewrite (take_S_r _ _ (store_row row (getitem model doc))).
      * rewrite take_insert_ge by lia. rewrite drop_insert_lt by lia.
        rewrite <- app_assoc. reflexivity.
      * apply list_lookup_insert_eq. lia.
    + rewrite length_insert. lia.
    + apply Forall_insert; [exact Hwidth|]. rewrite length_store_row. exact Hn.
    + exact Hrest.
Qed.

Lemma outer_loop_raises (docs : list Doc) (k m : nat) (a : ndarray) :
  k + m <= length a ->
  Forall (fun row => length row = n) a ->
  ~ Forall (fun doc => ids_in_range n (getitem model doc)) (take m docs) ->
  exists doc t w, In doc (take m docs) /\ In (t, w) (getitem model doc) /\
    py_index n t = None /\
    for_each
      (fun doc_topic '(doc, i) =>
         for_each (fun doc_topic topic => setitem2 doc_topic i topic.1 topic.2)
                  (getitem model doc) doc_topic)
      (zip docs (seq k m)) a
    = Raise (IndexError t n).
Proof.
  revert k m a. induction docs as [|doc docs IH]; intros k m a Hlen Hwidth Hbad.
  - exfalso. apply Hbad. rewrite take_nil. constructor.
  - destruct m as [|m]; [exfalso; apply Hbad; constructor|].
    cbn [zip zip_with seq for_each take].
    destruct (lookup_lt_is_Some_2 a k ltac:(lia)) as [row Hrow].
    assert (length row = n) as Hn by (eapply Forall_lookup_1 in Hwidth; eauto).
    destruct (decide (ids_in_range n (getitem model doc))) as [Hdoc|Hdoc].
    + rewrite (inner_loop_ok k _ a row Hrow) by (rewrite Hn; exact Hdoc).
      cbn [mbind result_bind].
      destruct (IH (S k) m (<[k := store_row row (getitem model doc)]> a))
        as (doc' & t & w & Hin & Hw & Ht & Hr).
      * rewrite length_insert. lia.
      * apply Forall_insert; [exact Hwidth|]. rewrite length_store_row. exact Hn.
      * intros Hrest. apply Hbad. constructor; assumption.
      * exists doc', t, w. split; [right; exact Hin|]. auto.
    + destruct (inner_loop_raises k (getitem model doc) a row Hrow) as (t & w & Hin & Ht & Hr);
        [rewrite Hn; exact Hdoc|].
      rewrite Hr, Hn in *. exists doc, t, w. split; [left; reflexivity|]. auto.
Qed.
End OuterLoop.

Lemma np_zeros_widths (rows cols : nat) :
  Forall (fun row => length row = cols) (np_zeros rows cols).
Proof. apply Forall_replicate, length_replicate. Qed.

Section FillDocTopic.
Context {Doc : Type} (corpus : list Doc) (model : LdaModel Doc) (doc_labels : list string).

Lemma fill_doc_topic_ok :
  Forall (fun doc => ids_in_range (num_topics model) (getitem model doc))
         (take (length doc_labels) corpus) ->
  fill_doc_topic corpus model doc_labels
  = Ok (store_rows model (take (length doc_labels) corpus)
                   (np_zeros (length doc_labels) (num_topics model))).
Proof.
  intros Hrange. unfold fill_doc_topic.
  rewrite (outer_loop_ok model (num_topics model)).
  - reflexivity.
  - unfold np_zeros. rewrite length_replicate. lia.
  - apply np_zeros_widths.
  - exact Hrange.
Qed.

Lemma fill_doc_topic_raises :
  ~ Forall (fun doc => ids_in_range (num_topics model) (getitem model doc))
           (take (length doc_labels) corpus) ->
  exists doc t w, In doc (take (length doc_labels) corpus) /\
    In (t, w) (getitem model doc) /\ py_index (num_topics model) t = None /\
    fill_doc_topic corpus model doc_labels = Raise (IndexError t (num_topics model)).
Proof.
  intros Hbad. unfold fill_doc_topic.
  apply (outer_loop_raises model (num_topics model)).
  - unfold np_zeros. rewrite length_replicate. lia.
  - apply np_zeros_widths.
  - exact Hbad.
Qed.
End FillDocTopic.

Lemma last_weight_In (topic_dist : list (Z * float)) (t : Z) (w : float) :
  last_weight topic_dist t = Some w -> In (t, w) topic_dist.
Proof.
  induction topic_dist as [|[t' w'] rest IH]; simpl; [discriminate|].
  destruct (last_weight rest t) as [w''|].
  - intros [= ->]. right. apply IH. reflexivity.
  - destruct (Z.eqb_spec t' t) as [->|]; [|discriminate].
    intros [= ->]. left. reflexivity.
Qed.

Lemma last_weight_None (topic_dist : list (Z * float)) (t : Z) :
  last_weight topic_dist t = None <-> forall w, ~ In (t, w) topic_dist.
Proof.
  induction topic_dist as [|[t' w'] rest IH]; simpl; [tauto|].
  destruct (last_weight rest t) as [w''|] eqn:E.
  - split; [discriminate|]. intros H. destruct (H w''). right. apply last_weight_In, E.
  - destruct (Z.eqb_spec t' t) as [->|Hne].
    + split; [discriminate|]. intros H. destruct (H w'). left. reflexivity.
    + split; [|reflexivity]. intros _ w [[= ? ?]|Hin]; [congruence|].
      destruct IH as [IH _]. exact (IH eq_refl w Hin).
Qed.

Lemma last_weight_unique (topic_dist : list (Z * float)) (t : Z) (w : float) :
  NoDup (map fst topic_dist) -> In (t, w) topic_dist -> last_weight topic_dist t = Some w.
Proof.
  induction topic_dist as [|[t' w'] rest IH]; simpl; [tauto|].
  intros Hnd [[= -> ->]|Hin]; apply NoDup_cons in Hnd as [Hfresh Hnd].
  - assert (last_weight rest t = None) as ->.
    { apply last_weight_None. intros w'' Hin. apply Hfresh, list_elem_of_In.
      apply (in_map fst) in Hin. exact Hin. }
    rewrite Z.eqb_refl. reflexivity.
  - rewrite (IH Hnd Hin). reflexivity.
Qed.

(** C1. For a corpus with as many documents as labels whose topic ids are
    topic indices below [num_topics], the array that [create_doc_topic]
    fills (and returns, labelled and transposed) has one row per document
    and one column per topic; cell [i][j] is the weight that document [i]'s
    assignment gives to topic [j] (the last one if the id is repeated) and
    [0.0] when the assignment does not mention topic [j]. *)
Theorem create_doc_topic_dense {Doc : Type} (corpus : list Doc) (model : LdaModel Doc)
    (doc_labels : list string) :
  length corpus = length doc_labels ->
  (forall doc t w, In doc corpus -> In (t, w) (getitem model doc) ->
     (0 <= t < Z.of_nat (num_topics model))%Z) ->
  exists doc_topic : ndarray,
    fill_doc_topic corpus model doc_labels = Ok doc_topic /\
    create_doc_topic corpus model doc_labels
    = Ok (transpose (mkDataFrame doc_topic doc_labels (make_topic_labels model))) /\
    length doc_topic = length corpus /\
    Forall (fun row => length row = num_topics model) doc_topic /\
    (forall i doc j, corpus !! i = Some doc -> j < num_topics model ->
       cell doc_topic i j
       = Some (default fzero (last_weight (getitem model doc) (Z.of_nat j)))) /\
    (forall i doc t w, corpus !! i = Some doc ->
       NoDup (map fst (getitem model doc)) -> In (t, w) (getitem model doc) ->
       cell doc_topic i (Z.to_nat t) = Some w) /\
    (forall i doc j, corpus !! i = Some doc -> j < num_topics model ->
       (forall w, ~ In (Z.of_nat j, w) (getitem model doc)) ->
       cell doc_topic i j = Some fzero).
Proof.
  intros Hlen Hids.
  assert (Forall (fun doc => ids_in_range (num_topics model) (getitem model doc))
                 (take (length doc_labels) corpus)) as Hrange.
  { rewrite <- Hlen, firstn_all. apply Forall_forall. intros doc Hdoc.
    apply Forall_forall. intros [t w] Hin. simpl.
    rewrite py_index_nonneg; [discriminate|].
    apply (Hids doc t w); apply list_elem_of_In; assumption. }
  pose proof (fill_doc_topic_ok corpus model doc_labels Hrange) as Hfill.
  rewrite <- Hlen, firstn_all in Hfill.
  assert (forall i doc j, corpus !! i = Some doc -> j < num_topics model ->
            cell (store_rows model corpus (np_zeros (length corpus) (num_topics model))) i j
            = Some (default fzero (last_weight (getitem model doc) (Z.of_nat j)))) as Hcell.
  { intros i doc j Hdoc Hj. unfold cell. rewrite store_rows_lookup, Hdoc.
    unfold np_zeros. rewrite lookup_replicate_2 by (eapply lookup_lt_Some, Hdoc).
    cbn [fmap option_fmap option_map mbind option_bind].
    rewrite store_row_lookup.
    - destruct (last_weight (getitem model doc) (Z.of_nat j)); [reflexivity|].
      apply lookup_replicate_2, Hj.
    - intros t w Hin. rewrite length_replicate. apply (Hids doc t w); [|exact Hin].
      apply list_elem_of_In. eapply list_elem_of_lookup_2, Hdoc.
    - rewrite length_replicate. exact Hj. }
  eexists. split; [exact Hfill|]. split; [|split; [|split; [|split; [exact Hcell|split]]]].
  - unfold create_doc_topic. rewrite Hfill. reflexivity.
  - rewrite length_store_rows. unfold np_zeros. apply length_replicate.
  - apply store_rows_widths, np_zeros_widths.
  - intros i doc t w Hdoc Hnd Hin.
    assert (0 <= t < Z.of_nat (num_topics model))%Z as Ht.
    { apply (Hids doc t w); [|exact Hin].
      apply list_elem_of_In. eapply list_elem_of_lookup_2, Hdoc. }
    rewrite (Hcell i doc (Z.to_nat t) Hdoc) by lia.
    rewrite Z2Nat.id by lia. rewrite (last_weight_unique _ _ _ Hnd Hin). reflexivity.
  - intros i doc j Hdoc Hj Habsent. rewrite (Hcell i doc j Hdoc Hj).
    destruct (last_weight_None (getitem model doc) (Z.of_nat j)) as [_ ->]; [reflexivity|].
    exact Habsent.
Qed.

Lemma create_doc_topic_dense_witness :
  exists doc_topic : ndarray,
    fill_doc_topic scenario_corpus scenario_model ["doc1"; "doc2"] = Ok doc_topic /\
    length doc_topic = 2 /\
    cell doc_topic 1 0 = Some fzero.
Proof.
  destruct (create_doc_topic_dense scenario_corpus scenario_model ["doc1"; "doc2"])
    as (doc_topic & Hfill & _ & Hlen & _ & Hcell & _).
  - reflexivity.
  - intros doc t w [<-|[<-|[]]] Hin; simpl in Hin;
      repeat (destruct Hin as [[= <- <-]|Hin]; [simpl; lia|]); destruct Hin.
  - exists doc_topic. split; [exact Hfill|]. split; [exact Hlen|].
    apply (Hcell 1 [(1%Z, 1.0%float)] 0); [reflexivity|simpl; lia].
Defined.

(** Beyond topic indices: a negative id is a subscript counted from the end
    of the row, and an id below [-num_topics] is out of range like one that
    is too large. *)
Lemma fill_doc_topic_negative_id :
  fill_doc_topic [[((-1)%Z, 0.5%float)]] scenario_model ["doc1"] = Ok [[0.0; 0.5]]%float /\
  fill_doc_topic [[((-3)%Z, 0.5%float)]] scenario_model ["doc1"] = Raise (IndexError (-3) 2).
Proof. split; vm_compute; reflexivity. Qed.

(** C2 (as amended). On the scenario of the specification the filled array
    is [[0.7, 0.3], [0.0, 1.0]], rows for "doc1", "doc2" and columns for
    "a b c", "d e f"; what [create_doc_topic] returns is the transpose of
    that frame: rows "a b c", "d e f", columns "doc1", "doc2", values
    [[0.7, 0.0], [0.3, 1.0]]. *)
Theorem create_doc_topic_scenario :
  fill_doc_topic scenario_corpus scenario_model ["doc1"; "doc2"]
  = Ok [[0.7; 0.3]; [0.0; 1.0]]%float /\
  create_doc_topic scenario_corpus scenario_model ["doc1"; "doc2"]
  = Ok {| values := [[0.7; 0.0]; [0.3; 1.0]]%float;
          index := ["a b c"; "d e f"];
          columns := ["doc1"; "doc2"] |}.
Proof. split; vm_compute; reflexivity. Qed.

(** C2 as stated fails: the frame returned is not the one whose rows are the
    documents. *)
Lemma create_doc_topic_scenario_not_by_document :
  create_doc_topic scenario_corpus scenario_model ["doc1"; "doc2"]
  <> Ok {| values := [[0.7; 0.3]; [0.0; 1.0]]%float;
           index := ["doc1"; "doc2"];
           columns := ["a b c"; "d e f"] |}.
Proof. vm_compute. intros [= H]. Qed.

(** C3 (as amended). A topic id [>= num_topics] in one of the documents that
    the loop visits (the first [len(doc_labels)] ones) makes
    [create_doc_topic] raise numpy's IndexError, which names an
    out-of-range index and the number of topics.  When all visited ids are
    valid subscripts nothing is raised, whatever the two lengths: documents
    beyond the labels are not visited, and labels beyond the documents keep
    all-zero rows. *)
Theorem create_doc_topic_errors {Doc : Type} (corpus : list Doc) (model : LdaModel Doc)
    (doc_labels : list string) :
  let n := num_topics model in
  let visited := take (length doc_labels) corpus in
  ((exists doc t w, In doc visited /\ In (t, w) (getitem model doc) /\ (Z.of_nat n <= t)%Z) ->
   exists t', py_index n t' = None /\
     create_doc_topic corpus model doc_labels = Raise (IndexError t' n)) /\
  (Forall (fun doc => ids_in_range n (getitem model doc)) visited ->
   exists doc_topic : ndarray,
     create_doc_topic corpus model doc_labels
     = Ok (transpose (mkDataFrame doc_topic doc_labels (make_topic_labels model))) /\
     doc_topic = store_rows model visited (np_zeros (length doc_labels) n) /\
     length doc_topic = length doc_labels /\
     forall i, length corpus <= i < length doc_labels ->
       doc_topic !! i = Some (replicate n fzero)).
Proof.
  intros n visited. subst n visited. split.
  - intros (doc & t & w & Hdoc & Hin & Ht).
    destruct (fill_doc_topic_raises corpus model doc_labels) as (doc' & t' & w' & _ & _ & Ht' & Hr).
    + intros Hall. apply Forall_forall with (x := doc) in Hall; [|apply list_elem_of_In, Hdoc].
      apply Forall_forall with (x := (t, w)) in Hall; [|apply list_elem_of_In, Hin].
      apply Hall. apply py_index_too_large. exact Ht.
    + exists t'. split; [exact Ht'|]. unfold create_doc_topic. rewrite Hr. reflexivity.
  - intros Hrange. pose proof (fill_doc_topic_ok corpus model doc_labels Hrange) as Hfill.
    eexists. split; [unfold create_doc_topic; rewrite Hfill; reflexivity|].
    split; [reflexivity|]. split.
    + rewrite length_store_rows. apply length_replicate.
    + intros i [Hlo Hhi]. rewrite store_rows_lookup.
      rewrite (lookup_ge_None_2 (take (length doc_labels) corpus) i).
      * apply lookup_replicate_2, Hhi.
      * rewrite length_take. lia.
Qed.

Lemma create_doc_topic_errors_witness :
  (exists t', py_index 2 t' = None /\
     create_doc_topic [[(2%Z, 1.0%float)]] scenario_model ["doc1"] = Raise (IndexError t' 2)) /\
  (exists doc_topic : ndarray,
     create_doc_topic scenario_corpus scenario_model ["doc1"; "doc2"; "doc3"]
     = Ok (transpose (mkDataFrame doc_topic ["doc1"; "doc2"; "doc3"]
                                  (make_topic_labels scenario_model))) /\
     doc_topic !! 2 = Some [fzero; fzero]).
Proof.
  split.
  - apply (create_doc_topic_errors [[(2%Z, 1.0%float)]] scenario_model ["doc1"]).
    exists [(2%Z, 1.0%float)], 2%Z, 1.0%float. simpl. split; [left; reflexivity|].
    split; [left; reflexivity|lia].
  - destruct (create_doc_topic_errors scenario_corpus scenario_model ["doc1"; "doc2"; "doc3"])
      as [_ H].
    destruct H as (doc_topic & Hr & _ & _ & Hz).
    + repeat constructor; simpl; discriminate.
    + exists doc_topic. split; [exact Hr|]. apply (Hz 2). simpl. lia.
Defined.

(** C3 as stated fails: two documents and one label are accepted, and the
    second document is dropped without any error. *)
Lemma create_doc_topic_count_mismatch_silent :
  length scenario_corpus <> length ["doc1"] /\
  create_doc_topic scenario_corpus scenario_model ["doc1"]
  = Ok {| values := [[0.7]; [0.3]]%float;
          index := ["a b c"; "d e f"];
          columns := ["doc1"] |}.
Proof. split; [simpl; lia|vm_compute; reflexivity]. Qed.

(** ** The Mallet adapter *)

Lemma by_topic_then_weight_total (r s : WordScore) :
  by_topic_then_weight r s = true \/ by_topic_then_weight s r = true.
Proof.
  unfold by_topic_then_weight.
  destruct (Z.ltb_spec (col0 r) (col0 s)); [left; reflexivity|].
  destruct (Z.ltb_spec (col0 s) (col0 r)); [right; reflexivity|].
  assert (col0 r = col0 s) as -> by lia. rewrite Z.eqb_refl. simpl.
  apply desc_leb_total.
Qed.

Lemma by_topic_then_weight_trans (r s u : WordScore) :
  by_topic_then_weight r s = true -> by_topic_then_weight s u = true ->
  by_topic_then_weight r u = true.
Proof.
  unfold by_topic_then_weight.
  rewrite !orb_true_iff, !andb_true_iff, !Z.ltb_lt, !Z.eqb_eq.
  intros [?|[? ?]] [?|[? ?]]; try (left; lia).
  right. split; [lia|]. eapply desc_leb_trans; eassumption.
Qed.

Lemma by_topic_then_weight_same (t : Z) (r s : WordScore) :
  has_topic t r = true -> has_topic t s = true ->
  by_topic_then_weight r s = true -> desc_leb (col2 r) (col2 s) = true.
Proof.
  unfold has_topic, by_topic_then_weight.
  rewrite !Z.eqb_eq, orb_true_iff, andb_true_iff, Z.ltb_lt. intros -> ->.
  intros [?|[_ ?]]; [lia|assumption].
Qed.

Lemma append_assoc (s1 s2 s3 : string) : (s1 +:+ s2) +:+ s3 = s1 +:+ (s2 +:+ s3).
Proof.
  induction s1 as [|c s1 IH]; [reflexivity|].
  change (String c ((s1 +:+ s2) +:+ s3) = String c (s1 +:+ (s2 +:+ s3))).
  rewrite IH. reflexivity.
Qed.

Lemma append_empty_r (s : string) : s +:+ "" = s.
Proof.
  induction s as [|c s IH]; [reflexivity|].
  change (String c (s +:+ "") = String c s). rewrite IH. reflexivity.
Qed.

Lemma wordle_loop (words : list string) (acc : string) :
  for_each append_word (map PyStr words) acc = Ok (acc +:+ spaced words).
Proof.
  revert acc. induction words as [|w ws IH]; intros acc; simpl.
  - rewrite append_empty_r. reflexivity.
  - rewrite IH, !append_assoc. reflexivity.
Qed.

(** The string only grows in the loop. *)
Lemma wordle_loop_grows (cells : list word_value) (acc s : string) :
  for_each append_word cells acc = Ok s -> exists more, s = acc +:+ more.
Proof.
  revert acc. induction cells as [|c cells IH]; intros acc; cbn [for_each].
  - intros [= <-]. exists "". rewrite append_empty_r. reflexivity.
  - destruct c as [w| |]; cbn; try discriminate.
    intros H. destruct (IH _ H) as [more ->]. exists ((w +:+ " ") +:+ more).
    rewrite append_assoc. reflexivity.
Qed.

(** The loop over more words: it first does what it does over fewer. *)
Lemma wordle_loop_app_ok (cells more_cells : list word_value) (acc s' : string) :
  for_each append_word (cells ++ more_cells) acc = Ok s' ->
  exists s, for_each append_word cells acc = Ok s /\
            for_each append_word more_cells s = Ok s'.
Proof.
  revert acc. induction cells as [|c cells IH]; intros acc; cbn [app for_each].
  - intros H. exists acc. split; [reflexivity|exact H].
  - destruct c as [w| |]; cbn; try discriminate. apply IH.
Qed.

Lemma wordle_loop_app (cells more_cells : list word_value) (acc s : string) :
  for_each append_word cells acc = Ok s ->
  for_each append_word (cells ++ more_cells) acc = for_each append_word more_cells s.
Proof.
  revert acc. induction cells as [|c cells IH]; intros acc; cbn [app for_each].
  - intros [= <-]. reflexivity.
  - destruct c as [w| |]; cbn; try discriminate. apply IH.
Qed.

Lemma wordle_loop_app_raises (cells more_cells : list word_value) (acc : string) (e : exn) :
  for_each append_word cells acc = Raise e ->
  for_each append_word (cells ++ more_cells) acc = Raise e.
Proof.
  revert acc. induction cells as [|c cells IH]; intros acc; cbn [app for_each].
  - discriminate.
  - destruct c as [w| |]; cbn; try (intros H; exact H). apply IH.
Qed.

Lemma get_group_sorted (word_scores : list WordScore) (topic_nr : Z) :
  let group := List.filter (has_topic topic_nr) (obj (read_mallet_word_weights word_scores)) in
  Permutation group (List.filter (has_topic topic_nr) word_scores) /\
  StronglySorted (fun r s => desc_leb (col2 r) (col2 s) = true) group.
Proof.
  simpl. split.
  - apply Permutation_list_filter, stable_sort_perm.
  - eapply StronglySorted_impl;
      [|apply StronglySorted_filter, stable_sort_strongly;
        [exact by_topic_then_weight_total|exact by_topic_then_weight_trans]].
    intros r s Hr Hs. apply List.filter_In in Hr, Hs.
    apply (by_topic_then_weight_same topic_nr); tauto.
Qed.

Lemma get_group_present (grouped : DataFrameGroupBy) (topic_nr : Z) :
  (exists r, In r (obj grouped) /\ col0 r = topic_nr) ->
  get_group grouped topic_nr = Ok (List.filter (has_topic topic_nr) (obj grouped)).
Proof.
  intros (r & Hr & Ht). unfold get_group.
  destruct (List.filter (has_topic topic_nr) (obj grouped)) as [|x l] eqn:E; [|reflexivity].
  assert (In r []) as []. rewrite <- E. apply List.filter_In. split; [exact Hr|].
  unfold has_topic. apply Z.eqb_eq, Ht.
Qed.

Lemma get_group_absent (grouped : DataFrameGroupBy) (topic_nr : Z) :
  (forall r, In r (obj grouped) -> col0 r <> topic_nr) ->
  get_group grouped topic_nr = Raise (KeyError topic_nr).
Proof.
  intros H. unfold get_group.
  destruct (List.filter (has_topic topic_nr) (obj grouped)) as [|x l] eqn:E; [reflexivity|].
  assert (In x (List.filter (has_topic topic_nr) (obj grouped))) as Hx by (rewrite E; left; reflexivity).
  apply List.filter_In in Hx. destruct Hx as [Hx Ht]. apply Z.eqb_eq in Ht.
  destruct (H x Hx Ht).
Qed.

(** C4. [read_mallet_word_weights] orders the rows by ascending topic id and,
    within a topic, by descending weight (NaN weights last), keeping every
    row; for a topic id of the table and [K >= 0], when the words of the
    first [min K n] rows of that topic's [n] rows in that order were read as
    strings, [get_wordlewords] returns these [min K n] words in that order,
    each followed by a space. *)
Theorem mallet_top_words (word_scores : list WordScore) (K topic_nr : Z) :
  (exists r, In r word_scores /\ col0 r = topic_nr) ->
  (0 <= K)%Z ->
  let grouped := read_mallet_word_weights word_scores in
  Permutation (obj grouped) word_scores /\
  StronglySorted (holds by_topic_then_weight) (obj grouped) /\
  exists group : list WordScore,
    Permutation group (List.filter (has_topic topic_nr) word_scores) /\
    StronglySorted (fun r s => desc_leb (col2 r) (col2 s) = true) group /\
    ((forall r, In r word_scores -> is_nan (col2 r) = false) ->
     StronglySorted (fun r s => (col2 s <=? col2 r)%float = true) group) /\
    (forall words : list string,
       map col1 (take (Z.to_nat K) group) = map PyStr words ->
       get_wordlewords grouped K topic_nr = Ok (spaced words) /\
       length words = Nat.min (Z.to_nat K) (length group)) /\
    length (take (Z.to_nat K) group) = Nat.min (Z.to_nat K) (length group).
Proof.
  intros (r & Hr & Ht) HK grouped.
  split; [apply stable_sort_perm|].
  split; [apply stable_sort_strongly;
          [exact by_topic_then_weight_total|exact by_topic_then_weight_trans]|].
  destruct (get_group_sorted word_scores topic_nr) as [Hperm Hsorted]. simpl in Hperm, Hsorted.
  exists (List.filter (has_topic topic_nr) (obj grouped)).
  split; [exact Hperm|]. split; [exact Hsorted|]. split; [|split].
  - intros Hnan. eapply StronglySorted_impl; [|exact Hsorted].
    intros x y Hx Hy. simpl.
    assert (forall z, In z (List.filter (has_topic topic_nr) (obj grouped)) -> is_nan (col2 z) = false) as Hz.
    { intros z Hin. apply Hnan. eapply Permutation_in; [apply stable_sort_perm|].
      apply List.filter_In in Hin. apply Hin. }
    rewrite desc_leb_no_nan by auto. trivial.
  - intros words Hwords. split.
    + unfold get_wordlewords. rewrite get_group_present.
      * cbn [mbind result_bind]. unfold py_slice_to. destruct (Z.leb_spec 0 K); [|lia].
        rewrite Hwords. apply wordle_loop.
      * exists r. split; [|exact Ht].
        eapply Permutation_in; [symmetry; apply stable_sort_perm|exact Hr].
    + apply (f_equal (@length _)) in Hwords. rewrite !length_map in Hwords.
      rewrite <- Hwords. apply length_take.
  - apply length_take.
Qed.

(** The two rows of topic 0 of the example, in the order of the sorted
    table. *)
Lemma mallet_example_group (group : list WordScore) :
  Permutation group (List.filter (has_topic 0) mallet_example) ->
  StronglySorted (fun r s => desc_leb (col2 r) (col2 s) = true) group ->
  group = [mkWordScore 0 (PyStr "cat") 0.9; mkWordScore 0 (PyStr "dog") 0.4].
Proof.
  intros Hperm Hsorted. cbn in Hperm. symmetry in Hperm.
  apply Permutation_length_2_inv in Hperm as [->| ->]; [reflexivity|].
  apply StronglySorted_inv in Hsorted as [_ Hhd].
  apply Forall_cons in Hhd as [Hhd _]. vm_compute in Hhd. discriminate.
Qed.

Lemma mallet_top_words_witness :
  get_wordlewords (read_mallet_word_weights mallet_example) 1 0 = Ok (spaced ["cat"]) /\
  length ["cat"] = Nat.min 1 2.
Proof.
  destruct (mallet_top_words mallet_example 1 0) as (_ & _ & group & Hp & Hs & _ & Hw & _).
  - exists (mkWordScore 0 (PyStr "cat") 0.9). split; [left; reflexivity|reflexivity].
  - lia.
  - rewrite (mallet_example_group group Hp Hs) in Hw.
    apply (Hw ["cat"]). reflexivity.
Defined.

(** A token that [read_table] takes for a missing value is not a string any
    more, and the loop fails on it: the second word of topic 0 is asked
    for, and no string is returned. *)
Lemma mallet_top_words_null_word :
  (exists r, In r mallet_null_word /\ col0 r = 0%Z) /\
  (0 <= 2)%Z /\
  get_wordlewords (read_mallet_word_weights mallet_null_word) 2 0
  = Raise (TypeError "unsupported operand type(s) for +: 'float' and 'str'").
Proof.
  split; [|split; [lia|vm_compute; reflexivity]].
  eexists. split; [left; reflexivity|reflexivity].
Qed.

(** C5. The three-row table of the scenario: the top word of topic 0 is
    ["cat"], returned with its trailing space. *)
Theorem mallet_scenario :
  get_wordlewords (read_mallet_word_weights mallet_example) 1 0 = Ok "cat ".
Proof. vm_compute. reflexivity. Qed.

(** C6. For any grouped table, a topic id that no row carries makes
    [get_wordlewords] raise the KeyError of [get_group], which names the
    requested key; no string, empty or not, is returned.  This holds
    whatever the number of words asked for. *)
Theorem get_wordlewords_unknown_topic (word_scores_grouped : DataFrameGroupBy)
    (number_of_top_words topic_nr : Z) :
  (forall r, In r (obj word_scores_grouped) -> col0 r <> topic_nr) ->
  get_wordlewords word_scores_grouped number_of_top_words topic_nr
  = Raise (KeyError topic_nr).
Proof.
  intros H. unfold get_wordlewords. rewrite get_group_absent; [reflexivity|exact H].
Qed.

Lemma get_wordlewords_unknown_topic_witness :
  get_wordlewords (read_mallet_word_weights mallet_example) 1 2 = Raise (KeyError 2).
Proof.
  apply get_wordlewords_unknown_topic.
  intros r [<-|[<-|[<-|[]]]]; simpl; lia.
Defined.

(** The rows of the grouped table are those of the file, so a topic id that
    is not in the file is not in the grouped table either. *)
Lemma read_mallet_word_weights_topics (word_scores : list WordScore) (topic_nr : Z) :
  (forall r, In r word_scores -> col0 r <> topic_nr) ->
  forall r, In r (obj (read_mallet_word_weights word_scores)) -> col0 r <> topic_nr.
Proof.
  intros H r Hr. apply H. eapply Permutation_in; [apply stable_sort_perm|exact Hr].
Qed.

(** ** The per-document bar chart *)

Lemma by_value_total (p q : string * float) : by_value p q = true \/ by_value q p = true.
Proof. apply asc_leb_total. Qed.

Lemma by_value_trans (p q r : string * float) :
  by_value p q = true -> by_value q r = true -> by_value p r = true.
Proof. apply asc_leb_trans. Qed.

Lemma positions_cons (y : string) (l : list string) (x : string) :
  positions (y :: l) x = (if bool_decide (y = x) then [0] else []) ++ map S (positions l x).
Proof.
  unfold positions. cbn [length]. rewrite <- cons_seq, <- seq_shift. cbn [List.filter lookup list_lookup].
  rewrite filter_map_swap.
  assert (bool_decide (Some y = Some x) = bool_decide (y = x)) as ->.
  { apply bool_decide_ext. split; [intros [= ->]; reflexivity|intros ->; reflexivity]. }
  destruct (bool_decide (y = x)); reflexivity.
Qed.

Lemma positions_absent (l : list string) (x : string) : ~ In x l -> positions l x = [].
Proof.
  induction l as [|y l IH]; intros Hx; [reflexivity|].
  rewrite positions_cons, IH by (intros ?; apply Hx; right; assumption).
  rewrite bool_decide_eq_false_2; [reflexivity|]. intros ->. apply Hx. left; reflexivity.
Qed.

Lemma positions_unique (l : list string) (x : string) (j : nat) :
  NoDup l -> l !! j = Some x -> positions l x = [j].
Proof.
  intros Hnd. revert j. induction Hnd as [|y l Hy Hnd IH]; intros j Hj; [discriminate|].
  rewrite positions_cons. destruct j as [|j]; simpl in Hj.
  - injection Hj as ->. rewrite bool_decide_eq_true_2 by reflexivity.
    rewrite positions_absent; [reflexivity|]. intros Hin. apply Hy, list_elem_of_In, Hin.
  - rewrite bool_decide_eq_false_2.
    + rewrite (IH j Hj). reflexivity.
    + intros ->. apply Hy. eapply list_elem_of_lookup_2, Hj.
Qed.

Lemma column_label_ok (df : DataFrame) (document_index : Z) (j : nat) :
  py_index (length (columns df)) document_index = Some j ->
  exists label, columns df !! j = Some label /\ column_label df document_index = Ok label.
Proof.
  intros Hj. unfold column_label. rewrite Hj.
  destruct (lookup_lt_is_Some_2 (columns df) j (py_index_lt _ _ _ Hj)) as [label Hl].
  exists label. rewrite Hl. split; reflexivity.
Qed.

Lemma doc_topics_data_ok (df : DataFrame) (document_index : Z) (j : nat) :
  py_index (length (columns df)) document_index = Some j ->
  NoDup (columns df) ->
  doc_topics_data df document_index
  = Ok (sort_values (List.filter nonzero (column_series df j))).
Proof.
  intros Hj Hnd. destruct (column_label_ok df document_index j Hj) as (label & Hl & Hc).
  unfold doc_topics_data. rewrite Hc. cbn [mbind result_bind].
  unfold select_column, label_positions.
  change (List.filter _ (seq 0 (length (columns df)))) with (positions (columns df) label).
  rewrite (positions_unique _ _ j Hnd Hl). reflexivity.
Qed.

(** ** Drawing on the current figure *)

Lemma on_current_snoc (arts : list artist) (figs : list Figure) (f : Figure) :
  on_current arts (figs ++ [f]) = figs ++ [add_artists arts f].
Proof.
  unfold on_current. destruct (figs ++ [f]) eqn:E; [destruct figs; discriminate|].
  rewrite <- E, length_app. cbn [length].
  replace (length figs + 1 - 1) with (length figs + 0) by lia.
  rewrite alter_app_r. reflexivity.
Qed.

Lemma on_current_last (arts : list artist) (figs : list Figure) :
  exists init f, on_current arts figs = init ++ [f] /\
    exists before, drawn f = before ++ arts.
Proof.
  destruct (last figs) as [f|] eqn:E.
  - apply last_Some in E as [init ->]. rewrite on_current_snoc.
    exists init, (add_artists arts f). split; [reflexivity|]. exists (drawn f). reflexivity.
  - apply last_None in E as ->. exists [], (mkFigure None arts).
    split; [reflexivity|]. exists []. reflexivity.
Qed.

Lemma on_current_twice (a b : list artist) (figs : list Figure) :
  on_current b (on_current a figs) = on_current (a ++ b) figs.
Proof.
  destruct (last figs) as [f|] eqn:E.
  - apply last_Some in E as [init ->]. rewrite !on_current_snoc.
    unfold add_artists. cbn [figsize drawn]. rewrite app_assoc. reflexivity.
  - apply last_None in E as ->. reflexivity.
Qed.

Lemma plt_draw_spec (arts : list artist) (w : world) :
  plt_draw arts w = (Ok tt, set_figures (on_current arts (figures w)) w).
Proof.
  unfold plt_draw, mbind, M_bind, plt_gcf, on_current.
  destruct (figures w) as [|f figs] eqn:E.
  - unfold plt_figure, draw_all. rewrite E. reflexivity.
  - unfold draw_all. rewrite E. reflexivity.
Qed.

Lemma plot_doc_topics_draws (doc_topic : DataFrame) (document_index : Z) (data : Series)
    (label : string) (w : world) :
  doc_topics_data doc_topic document_index = Ok data ->
  column_label doc_topic document_index = Ok label ->
  plot_doc_topics doc_topic document_index w
  = (Ok tt,
     set_figures
       (on_current
          [Barh (seq 0 (length data)) (map snd data) "center" 0.5;
           YTicksAt (seq 0 (length data)) (map fst data);
           Title label; XLabel "Proportion"; YLabel "Topic"; TightLayout]
          (figures w)) w).
Proof.
  intros Hdata Hlabel. unfold plot_doc_topics, mbind, M_bind, lift.
  rewrite Hdata, Hlabel. rewrite !length_map.
  repeat (rewrite plt_draw_spec; cbn [figures set_figures]).
  rewrite !on_current_twice. reflexivity.
Qed.

(** C7 (as amended). For a frame whose column (document) labels are pairwise
    distinct and a valid document index, the data of the bar chart are the
    entries of that document's column whose value differs from zero, in
    ascending order of value (NaN last; plain [<=] when the column has no
    NaN), and these are the bars and tick labels that [plot_doc_topics]
    draws on the current figure. *)
Theorem plot_doc_topics_data (doc_topic : DataFrame) (document_index : Z) (j : nat)
    (w : world) :
  py_index (length (columns doc_topic)) document_index = Some j ->
  NoDup (columns doc_topic) ->
  let column := column_series doc_topic j in
  exists data : Series,
    doc_topics_data doc_topic document_index = Ok data /\
    Permutation data (List.filter nonzero column) /\
    Forall (fun entry => (entry.2 =? 0)%float = false) data /\
    StronglySorted (holds by_value) data /\
    (Forall (fun entry => is_nan entry.2 = false) column ->
     StronglySorted (fun p q => (p.2 <=? q.2)%float = true) data) /\
    exists w' init fig before,
      plot_doc_topics doc_topic document_index w = (Ok tt, w') /\
      figures w' = init ++ [fig] /\
      drawn fig = before ++
        [Barh (seq 0 (length data)) (map snd data) "center" 0.5;
         YTicksAt (seq 0 (length data)) (map fst data)] ++
        [Title (default "" (columns doc_topic !! j));
         XLabel "Proportion"; YLabel "Topic"; TightLayout].
Proof.
  intros Hj Hnd column.
  pose proof (doc_topics_data_ok doc_topic document_index j Hj Hnd) as Hdata.
  fold column in Hdata.
  assert (Permutation (sort_values (List.filter nonzero column)) (List.filter nonzero column))
    as Hperm by apply stable_sort_perm.
  assert (StronglySorted (holds by_value) (sort_values (List.filter nonzero column))) as Hsorted
    by (apply stable_sort_strongly; [exact by_value_total|exact by_value_trans]).
  exists (sort_values (List.filter nonzero column)).
  split; [exact Hdata|]. split; [exact Hperm|]. split; [|split; [exact Hsorted|split]].
  - eapply Permutation_Forall; [symmetry; exact Hperm|].
    apply List.Forall_forall. intros entry Hin. apply List.filter_In in Hin as [_ Hnz].
    unfold nonzero, float_ne, fzero in Hnz. apply negb_true_iff in Hnz. exact Hnz.
  - intros Hnan. eapply StronglySorted_impl; [|exact Hsorted].
    assert (forall e, In e (sort_values (List.filter nonzero column)) -> is_nan e.2 = false) as Hn.
    { intros e He. eapply Permutation_in in He; [|exact Hperm].
      apply List.filter_In in He as [He _].
      rewrite List.Forall_forall in Hnan. apply Hnan, He. }
    intros p q Hp Hq. unfold holds, by_value. rewrite asc_leb_no_nan by auto. trivial.
  - destruct (column_label_ok doc_topic document_index j Hj) as (label & Hl & Hc).
    rewrite (plot_doc_topics_draws _ _ _ label w Hdata Hc).
    destruct (on_current_last
                [Barh (seq 0 (length (sort_values (List.filter nonzero column))))
                      (map snd (sort_values (List.filter nonzero column))) "center" 0.5;
                 YTicksAt (seq 0 (length (sort_values (List.filter nonzero column))))
                          (map fst (sort_values (List.filter nonzero column)));
                 Title label; XLabel "Proportion"; YLabel "Topic"; TightLayout]
                (figures w)) as (init & fig & Hfigs & before & Hdrawn).
    eexists _, init, fig, before. split; [reflexivity|].
    split; [exact Hfigs|]. rewrite Hl. exact Hdrawn.
Qed.

Lemma plot_doc_topics_data_witness :
  exists data : Series,
    doc_topics_data {| values := [[0.7; 0.0]; [0.3; 1.0]]%float;
                       index := ["a b c"; "d e f"];
                       columns := ["doc1"; "doc2"] |} (-1) = Ok data /\
    Permutation data [("d e f", 1.0%float)].
Proof.
  destruct (plot_doc_topics_data
              {| values := [[0.7; 0.0]; [0.3; 1.0]]%float;
                 index := ["a b c"; "d e f"];
                 columns := ["doc1"; "doc2"] |} (-1) 1
              (import_world friendly_os))
    as (data & Hdata & Hperm & _).
  - reflexivity.
  - simpl. repeat constructor; rewrite ?list_elem_of_In; simpl; intuition discriminate.
  - exists data. split; [exact Hdata|exact Hperm].
Defined.

(** C7 as stated fails: two documents with the same label select a frame,
    not a series, and the call ends in a TypeError. *)
Lemma plot_doc_topics_twin_labels :
  create_doc_topic scenario_corpus scenario_model ["doc"; "doc"] = Ok twin_labels /\
  py_index (length (columns twin_labels)) 0 = Some 0 /\
  doc_topics_data twin_labels 0
  = Raise (TypeError "sort_values() missing 1 required positional argument: 'by'") /\
  forall w, fst (plot_doc_topics twin_labels 0 w)
  = Raise (TypeError "sort_values() missing 1 required positional argument: 'by'").
Proof. repeat split; vm_compute; reflexivity. Qed.

(** ** Heatmaps *)

Section Heatmap.
Context {Doc Dict : Type}.
Implicit Types self : Visualization.t Doc Dict.

Lemma save_heatmap_unfold self (path filename ext : string) (dpi : Z) (w : world) :
  Visualization.save_heatmap self path filename ext dpi w =
  match path_exists (os w) path, makedirs (os w) path with
  | false, Some (FileNotFoundError _) => (Ok tt, w)
  | false, Some (AttributeError a) =>
      (Raise (AttributeError a),
       logged "ERROR visualization: Run make_heatmap() before save_heatmp()" w)
  | false, Some e => (Raise e, w)
  | _, _ =>
      match Visualization.heatmap_vis self with
      | None =>
          (Raise (AttributeError "heatmap_vis"),
           logged "ERROR visualization: Run make_heatmap() before save_heatmp()" w)
      | Some fig =>
          match savefig fig (os_path_join path (filename +:+ "." +:+ ext)) dpi w with
          | (Raise (FileNotFoundError _), w') => (Ok tt, w')
          | (Raise (AttributeError a), w') =>
              (Raise (AttributeError a),
               logged "ERROR visualization: Run make_heatmap() before save_heatmp()" w')
          | other => other
          end
      end
  end.
Proof.
  unfold Visualization.save_heatmap, try_except, mbind, M_bind, log_info, log_debug,
    os_path_exists, os_makedirs, getattr, raise, mret, M_ret, log_error.
  destruct (path_exists (os w) path); cbn [negb].
  - destruct (Visualization.heatmap_vis self) as [fig|]; [|reflexivity].
    destruct (savefig _ _ _ w) as [[[]|e] w']; [reflexivity|]. destruct e; reflexivity.
  - destruct (makedirs (os w) path) as [e|]; [destruct e; reflexivity|].
    destruct (Visualization.heatmap_vis self) as [fig|]; [|reflexivity].
    destruct (savefig _ _ _ w) as [[[]|e] w']; [reflexivity|]. destruct e; reflexivity.
Qed.

Lemma save_heatmap_before_make self (path filename ext : string) (dpi : Z) (w : world) :
  directory_ready (os w) path ->
  Visualization.heatmap_vis self = None ->
  Visualization.save_heatmap self path filename ext dpi w
  = (Raise (AttributeError "heatmap_vis"),
     logged "ERROR visualization: Run make_heatmap() before save_heatmp()" w).
Proof.
  intros Hdir Hvis. rewrite save_heatmap_unfold, Hvis.
  destruct (path_exists (os w) path) eqn:E; [reflexivity|].
  destruct Hdir as [?| ->]; [congruence|reflexivity].
Qed.

Lemma make_heatmap_large self (labels : list string) (w : world) :
  Visualization.doc_labels self = Some labels ->
  20 < length labels \/ 20 < num_topics (Visualization.model self) ->
  Forall (fun doc => ids_in_range (num_topics (Visualization.model self))
                                  (getitem (Visualization.model self) doc))
         (take (length labels) (Visualization.corpus self)) ->
  Visualization.make_heatmap self w
  = (Ok self, set_figures (figures w ++ [mkFigure (Some (20, 20)%Z) []]) w).
Proof.
  intros Hlabels Hlarge Hrange.
  unfold Visualization.make_heatmap, mbind, M_bind, getattr, lift, log_info, log_debug,
    mret, M_ret.
  rewrite Hlabels. rewrite (fill_doc_topic_ok _ _ _ Hrange).
  assert ((20 <? length labels) || (20 <? num_topics (Visualization.model self)) = true) as ->.
  { apply orb_true_iff. rewrite !Nat.ltb_lt. exact Hlarge. }
  reflexivity.
Qed.
End Heatmap.

(** ** Where the heatmap is drawn *)

(** The module-level [doc_topic_heatmap] draws the grid whatever the size;
    a large frame gets a new (20, 20) figure first. *)
Lemma doc_topic_heatmap_draws (data_frame : DataFrame) (w : world) :
  let frame := sort_index (transpose data_frame) in
  let arts :=
    [Pcolor (values frame) "Reds";
     SetYTicks (arange_plus (length (index frame)) 1.0);
     SetYTickLabels (index frame);
     SetXTicks (arange_plus (length (columns frame)) 0.5);
     SetXTickLabels (columns frame) "90";
     InvertYAxis; TightLayout] in
  doc_topic_heatmap data_frame w
  = (Ok tt,
     set_figures
       (if (20 <? length (index frame))%nat || (20 <? length (columns frame))%nat
        then figures w ++ [mkFigure (Some (20, 20)%Z) arts]
        else on_current arts (figures w)) w).
Proof.
  intros frame arts. unfold doc_topic_heatmap. fold frame.
  unfold mbind, M_bind, mret, M_ret, plt_figure.
  destruct ((20 <? length (index frame))%nat || (20 <? length (columns frame))%nat).
  - repeat (rewrite plt_draw_spec; cbn [figures set_figures]).
    rewrite !on_current_twice, on_current_snoc. reflexivity.
  - repeat (rewrite plt_draw_spec; cbn [figures set_figures]).
    rewrite !on_current_twice. reflexivity.
Qed.

Lemma alter_new_figure (g : Figure -> Figure) (figs : list Figure) (f : Figure) :
  alter g (length figs) (figs ++ [f]) = figs ++ [g f].
Proof.
  replace (length figs) with (length figs + 0) by lia. rewrite alter_app_r. reflexivity.
Qed.

(** [make_heatmap] draws the grid and keeps the figure when there are at
    most 20 documents and 20 topics. *)
Lemma make_heatmap_small {Doc Dict : Type} (self : Visualization.t Doc Dict)
    (labels : list string) (w : world) :
  Visualization.doc_labels self = Some labels ->
  length labels <= 20 -> num_topics (Visualization.model self) <= 20 ->
  Forall (fun doc => ids_in_range (num_topics (Visualization.model self))
                                  (getitem (Visualization.model self) doc))
         (take (length labels) (Visualization.corpus self)) ->
  exists doc_topic,
    fill_doc_topic (Visualization.corpus self) (Visualization.model self) labels = Ok doc_topic /\
    Visualization.make_heatmap self w
    = (Ok (Visualization.set_heatmap_vis self (length (figures w))),
       set_figures
         (figures w ++
          [mkFigure None
             [AddSubplot 1 1 1;
              Pcolor doc_topic "Reds";
              SetYTicks (arange_plus (length labels) 1.0);
              SetYTickLabels labels;
              SetXTicks (arange_plus (num_topics (Visualization.model self)) 0.5);
              SetXTickLabels (make_topic_labels (Visualization.model self)) "90";
              InvertYAxis; TightLayout]]) w).
Proof.
  intros Hlabels Hdocs Htopics Hrange.
  eexists. split; [apply (fill_doc_topic_ok _ _ _ Hrange)|].
  unfold Visualization.make_heatmap, mbind, M_bind, getattr, lift, log_info, log_debug,
    mret, M_ret.
  rewrite Hlabels. rewrite (fill_doc_topic_ok _ _ _ Hrange).
  assert ((20 <? length labels) || (20 <? num_topics (Visualization.model self)) = false) as ->.
  { apply orb_false_iff. rewrite !Nat.ltb_ge. split; assumption. }
  unfold plt_figure, draw_all. cbn [figures set_figures].
  rewrite alter_new_figure. reflexivity.
Qed.

(** C10. When the instance has more than 20 document labels or its model
    more than 20 topics (and the topic ids of the visited documents are
    valid subscripts, so that the fill loop completes), [make_heatmap]
    returns normally having only created an empty figure of size (20, 20):
    nothing is drawn on it and no attribute of the instance changes.  If
    [heatmap_vis] was not set before, a following [save_heatmap] whose
    output directory exists or is created logs its message and raises
    AttributeError. *)
Theorem make_heatmap_large_then_save {Doc Dict : Type} (self : Visualization.t Doc Dict)
    (labels : list string) (w : world) (path filename ext : string) (dpi : Z) :
  Visualization.doc_labels self = Some labels ->
  20 < length labels \/ 20 < num_topics (Visualization.model self) ->
  Forall (fun doc => ids_in_range (num_topics (Visualization.model self))
                                  (getitem (Visualization.model self) doc))
         (take (length labels) (Visualization.corpus self)) ->
  Visualization.heatmap_vis self = None ->
  directory_ready (os w) path ->
  exists w1,
    Visualization.make_heatmap self w = (Ok self, w1) /\
    figures w1 = figures w ++ [mkFigure (Some (20, 20)%Z) []] /\
    Visualization.save_heatmap self path filename ext dpi w1
    = (Raise (AttributeError "heatmap_vis"),
       logged "ERROR visualization: Run make_heatmap() before save_heatmp()" w1).
Proof.
  intros Hlabels Hlarge Hrange Hvis Hdir.
  eexists. split; [apply (make_heatmap_large self labels w Hlabels Hlarge Hrange)|].
  split; [reflexivity|].
  apply save_heatmap_before_make; [exact Hdir|exact Hvis].
Qed.

Lemma make_heatmap_large_then_save_witness :
  exists w1,
    Visualization.make_heatmap large_heatmap (import_world friendly_os) = (Ok large_heatmap, w1) /\
    figures w1 = [mkFigure (Some (20, 20)%Z) []] /\
    Visualization.save_heatmap large_heatmap "out" "heatmap" "png" 200 w1
    = (Raise (AttributeError "heatmap_vis"),
       logged "ERROR visualization: Run make_heatmap() before save_heatmp()" w1).
Proof.
  apply (make_heatmap_large_then_save large_heatmap large_labels (import_world friendly_os)).
  - reflexivity.
  - left. simpl. lia.
  - vm_compute. repeat constructor; discriminate.
  - reflexivity.
  - left. reflexivity.
Defined.

(** Without the directory the save does not get as far as the attribute:
    after [make_heatmap] on the large instance, a [save_heatmap] whose
    [os.makedirs] raises FileNotFoundError returns normally, with nothing
    logged and nothing raised. *)
Lemma make_heatmap_large_then_save_no_directory :
  20 < length large_labels /\
  Visualization.heatmap_vis large_heatmap = None /\
  exists w1,
    Visualization.make_heatmap large_heatmap (import_world no_such_directory)
    = (Ok large_heatmap, w1) /\
    Visualization.save_heatmap large_heatmap "" "heatmap" "png" 200 w1 = (Ok tt, w1).
Proof.
  split; [simpl; lia|]. split; [reflexivity|].
  eexists. split; vm_compute; reflexivity.
Qed.

(** C8 at the failing input: with 21 documents [make_heatmap] leaves an
    empty (20, 20) figure behind and sets no [heatmap_vis], whereas
    [doc_topic_heatmap], given the frame of the same documents, draws the
    21 rows on its (20, 20) figure. *)
Theorem make_heatmap_21_documents_blank :
  (exists self w,
     Visualization.make_heatmap large_heatmap (import_world friendly_os) = (Ok self, w) /\
     Visualization.heatmap_vis self = None /\
     figures w = [mkFigure (Some (20, 20)%Z) []]) /\
  (exists data_frame w data rest,
     create_doc_topic large_corpus large_model large_labels = Ok data_frame /\
     doc_topic_heatmap data_frame (import_world friendly_os) = (Ok tt, w) /\
     figures w = [mkFigure (Some (20, 20)%Z) (Pcolor data "Reds" :: rest)] /\
     length data = 21).
Proof.
  split.
  - eexists _, _. split; [vm_compute; reflexivity|]. split; reflexivity.
  - eexists _, _, _, _. split; [vm_compute; reflexivity|].
    split; [vm_compute; reflexivity|]. split; reflexivity.
Qed.

(** ** Saving *)

Ltac enter_directory Hdir :=
  match goal with
  | |- context [path_exists ?env ?path] => destruct (path_exists env path) eqn:?
  end;
  cbn;
  [|destruct Hdir as [?|Hdir]; [congruence|rewrite ?Hdir; cbn]].

Section Saving.
Context {Doc Dict : Type}.
Implicit Types self : Visualization.t Doc Dict.

Lemma save_heatmap_no_directory self (path filename ext missing : string) (dpi : Z) (w : world) :
  path_exists (os w) path = false ->
  makedirs (os w) path = Some (FileNotFoundError missing) ->
  Visualization.save_heatmap self path filename ext dpi w = (Ok tt, w).
Proof. intros He Hm. rewrite save_heatmap_unfold, He, Hm. reflexivity. Qed.

Lemma save_heatmap_write_fails self (path filename ext missing : string) (dpi : Z)
    (fig : nat) (w : world) :
  directory_ready (os w) path ->
  Visualization.heatmap_vis self = Some fig ->
  write_file (os w) (os_path_join path (filename +:+ "." +:+ ext))
  = Some (FileNotFoundError missing) ->
  Visualization.save_heatmap self path filename ext dpi w = (Ok tt, w).
Proof.
  intros Hdir Hvis Hw. rewrite save_heatmap_unfold, Hvis. unfold savefig. rewrite Hw.
  destruct (path_exists (os w) path) eqn:E; [reflexivity|].
  destruct Hdir as [?| ->]; [congruence|reflexivity].
Qed.

Lemma save_interactive_no_directory self (path filename missing : string) (w : world) :
  path_exists (os w) path = false ->
  makedirs (os w) path = Some (FileNotFoundError missing) ->
  Visualization.save_interactive self path filename w = (Ok tt, w).
Proof.
  intros He Hm.
  unfold Visualization.save_interactive, try_except, mbind, M_bind, os_path_exists, os_makedirs.
  rewrite He. cbn. rewrite Hm. reflexivity.
Qed.

Lemma save_interactive_unbound self (path filename : string) (w : world) :
  directory_ready (os w) path ->
  pyLDAvis w = None ->
  Visualization.save_interactive self path filename w = (Raise (NameError "pyLDAvis"), w).
Proof.
  intros Hdir Hlib.
  unfold Visualization.save_interactive, try_except, mbind, M_bind, os_path_exists,
    os_makedirs, log_info, global_pyLDAvis, mret, M_ret.
  enter_directory Hdir; rewrite ?Hlib; reflexivity.
Qed.

Lemma save_interactive_before_make self (path filename : string) (lib : PyLDAvis) (w : world) :
  directory_ready (os w) path ->
  pyLDAvis w = Some lib ->
  Visualization.interactive_vis self = None ->
  Visualization.save_interactive self path filename w
  = (Raise (AttributeError "interactive_vis"),
     logged "ERROR visualization: Running make_interactive() before save_interactive() ..." w).
Proof.
  intros Hdir Hlib Hvis.
  unfold Visualization.save_interactive, try_except, mbind, M_bind, os_path_exists,
    os_makedirs, log_info, global_pyLDAvis, getattr, raise, mret, M_ret.
  enter_directory Hdir; rewrite ?Hlib, ?Hvis; reflexivity.
Qed.

Lemma save_interactive_write_fails self (path filename missing : string) (lib : PyLDAvis)
    (vis : PreparedData) (w : world) :
  directory_ready (os w) path ->
  pyLDAvis w = Some lib ->
  Visualization.interactive_vis self = Some vis ->
  save_html lib vis (os_path_join path "corpus_interactive.html")
  = Some (FileNotFoundError missing) ->
  Visualization.save_interactive self path filename w = (Ok tt, w).
Proof.
  intros Hdir Hlib Hvis Hw.
  unfold Visualization.save_interactive, try_except, mbind, M_bind, os_path_exists,
    os_makedirs, log_info, global_pyLDAvis, getattr, call, raise, mret, M_ret.
  enter_directory Hdir; rewrite ?Hlib, ?Hvis, ?Hw; reflexivity.
Qed.
End Saving.

(** C9 (as amended).  With the output directory in place (it exists or is
    created): [save_heatmap] on an instance without [heatmap_vis] logs
    "Run make_heatmap() before save_heatmp()" and raises the AttributeError;
    [save_interactive] on an instance without [interactive_vis] does the
    like when the name [pyLDAvis] is bound, and raises NameError, with no
    message, when it is unbound as in the module as written.  A
    FileNotFoundError raised by [os.makedirs] or by the write is swallowed:
    the call returns normally and leaves no trace; raised by [os.makedirs],
    it is swallowed before the attribute is looked at. *)
Theorem save_error_policy {Doc Dict : Type} (self : Visualization.t Doc Dict)
    (path filename ext : string) (dpi : Z) (w : world) :
  (directory_ready (os w) path ->
   Visualization.heatmap_vis self = None ->
   Visualization.save_heatmap self path filename ext dpi w
   = (Raise (AttributeError "heatmap_vis"),
      logged "ERROR visualization: Run make_heatmap() before save_heatmp()" w)) /\
  (directory_ready (os w) path ->
   Visualization.interactive_vis self = None ->
   forall lib, pyLDAvis w = Some lib ->
   Visualization.save_interactive self path filename w
   = (Raise (AttributeError "interactive_vis"),
      logged "ERROR visualization: Running make_interactive() before save_interactive() ..." w)) /\
  (directory_ready (os w) path ->
   pyLDAvis w = None ->
   Visualization.save_interactive self path filename w = (Raise (NameError "pyLDAvis"), w)) /\
  (forall missing,
   path_exists (os w) path = false ->
   makedirs (os w) path = Some (FileNotFoundError missing) ->
   Visualization.save_heatmap self path filename ext dpi w = (Ok tt, w) /\
   Visualization.save_interactive self path filename w = (Ok tt, w)) /\
  (forall missing fig,
   directory_ready (os w) path ->
   Visualization.heatmap_vis self = Some fig ->
   write_file (os w) (os_path_join path (filename +:+ "." +:+ ext))
   = Some (FileNotFoundError missing) ->
   Visualization.save_heatmap self path filename ext dpi w = (Ok tt, w)) /\
  (forall missing lib vis,
   directory_ready (os w) path ->
   pyLDAvis w = Some lib ->
   Visualization.interactive_vis self = Some vis ->
   save_html lib vis (os_path_join path "corpus_interactive.html")
   = Some (FileNotFoundError missing) ->
   Visualization.save_interactive self path filename w = (Ok tt, w)).
Proof.
  repeat split.
  - apply save_heatmap_before_make.
  - intros Hdir Hvis lib Hlib. eapply save_interactive_before_make; eassumption.
  - apply save_interactive_unbound.
  - eapply save_heatmap_no_directory; eassumption.
  - eapply save_interactive_no_directory; eassumption.
  - intros missing fig. apply save_heatmap_write_fails.
  - intros missing lib vis. apply save_interactive_write_fails.
Qed.

Lemma save_error_policy_witness :
  Visualization.save_heatmap large_heatmap "out" "heatmap" "png" 200 (import_world friendly_os)
  = (Raise (AttributeError "heatmap_vis"),
     logged "ERROR visualization: Run make_heatmap() before save_heatmp()"
            (import_world friendly_os)) /\
  Visualization.save_interactive large_heatmap "out" "corpus_interactive"
                                 (import_world friendly_os)
  = (Raise (NameError "pyLDAvis"), import_world friendly_os) /\
  Visualization.save_heatmap large_heatmap "out" "heatmap" "png" 200
                             (import_world no_such_directory)
  = (Ok tt, import_world no_such_directory).
Proof.
  destruct (save_error_policy large_heatmap "out" "heatmap" "png" 200 (import_world friendly_os))
    as (H1 & _ & H3 & _).
  destruct (save_error_policy large_heatmap "out" "heatmap" "png" 200
                              (import_world no_such_directory))
    as (_ & _ & _ & H4 & _).
  split; [apply H1; [left; reflexivity|reflexivity]|].
  split; [apply H3; [left; reflexivity|reflexivity]|].
  apply (H4 "out"); reflexivity.
Defined.

(** C9 as stated fails: a save on an instance that was never built returns
    normally when [os.makedirs] raises FileNotFoundError, and
    [save_interactive] reports the unbound name, not the missing build
    step. *)
Lemma save_before_make_not_reported :
  Visualization.heatmap_vis large_heatmap = None /\
  Visualization.interactive_vis large_heatmap = None /\
  Visualization.save_heatmap large_heatmap "" "heatmap" "png" 200
                             (import_world no_such_directory)
  = (Ok tt, import_world no_such_directory) /\
  Visualization.save_interactive large_heatmap "out" "corpus_interactive"
                                 (import_world friendly_os)
  = (Raise (NameError "pyLDAvis"), import_world friendly_os).
Proof. repeat split; vm_compute; reflexivity. Qed.

(** ** The returned frame *)

Lemma array_column_lookup (a : ndarray) (j i : nat) :
  array_column a j !! i = (fun row => default fzero (row !! j)) <$> a !! i.
Proof. unfold array_column. apply list_lookup_fmap. Qed.

Lemma length_array_column (a : ndarray) (j : nat) : length (array_column a j) = length a.
Proof. unfold array_column. apply length_map. Qed.

Lemma transpose_cell (df : DataFrame) (i j : nat) :
  i < length (values df) -> j < length (columns df) ->
  cell (values (transpose df)) j i = Some (default fzero (cell (values df) i j)).
Proof.
  intros Hi Hj. unfold cell, transpose. cbn [values].
  rewrite list_lookup_fmap, lookup_seq_lt by exact Hj. cbn.
  rewrite array_column_lookup.
  destruct (lookup_lt_is_Some_2 (values df) i Hi) as [row ->]. cbn.
  destruct (row !! j); reflexivity.
Qed.

Lemma transpose_involutive (df : DataFrame) :
  length (values df) = length (index df) ->
  Forall (fun row => length row = length (columns df)) (values df) ->
  transpose (transpose df) = df.
Proof.
  destruct df as [v idx cols]. cbn. intros Hrows Hwidth. unfold transpose. cbn. f_equal.
  apply list_eq. intros i. rewrite list_lookup_fmap.
  destruct (decide (i < length idx)) as [Hi|Hi].
  - rewrite lookup_seq_lt by exact Hi. cbn.
    destruct (lookup_lt_is_Some_2 v i ltac:(lia)) as [row Hrow]. rewrite Hrow. f_equal.
    assert (length row = length cols) as Hlen by (eapply Forall_lookup_1 in Hwidth; eauto).
    apply list_eq. intros j. rewrite array_column_lookup, list_lookup_fmap.
    destruct (decide (j < length cols)) as [Hj|Hj].
    + rewrite lookup_seq_lt by exact Hj. cbn. rewrite array_column_lookup, Hrow. cbn.
      destruct (lookup_lt_is_Some_2 row j ltac:(lia)) as [x ->]. reflexivity.
    + rewrite lookup_seq_ge by lia. cbn. symmetry. apply lookup_ge_None_2. lia.
  - rewrite lookup_seq_ge by lia. cbn. symmetry. apply lookup_ge_None_2. lia.
Qed.

Lemma length_make_topic_labels {Doc : Type} (model : LdaModel Doc) :
  length (make_topic_labels model) = num_topics model.
Proof. unfold make_topic_labels. rewrite length_map. apply length_seq. Qed.

Lemma fill_doc_topic_shape {Doc : Type} (corpus : list Doc) (model : LdaModel Doc)
    (doc_labels : list string) (doc_topic : ndarray) :
  fill_doc_topic corpus model doc_labels = Ok doc_topic ->
  Forall (fun doc => ids_in_range (num_topics model) (getitem model doc))
         (take (length doc_labels) corpus) /\
  doc_topic = store_rows model (take (length doc_labels) corpus)
                         (np_zeros (length doc_labels) (num_topics model)) /\
  length doc_topic = length doc_labels /\
  Forall (fun row => length row = num_topics model) doc_topic.
Proof.
  intros Hfill.
  destruct (decide (Forall (fun doc => Forall (fun topic => py_index (num_topics model) topic.1 <> None)
                                              (getitem model doc))
                           (take (length doc_labels) corpus))) as [Hrange|Hbad].
  - split; [exact Hrange|].
    rewrite (fill_doc_topic_ok corpus model doc_labels Hrange) in Hfill.
    injection Hfill as <-. split; [reflexivity|]. split.
    + rewrite length_store_rows. apply length_replicate.
    + apply store_rows_widths, np_zeros_widths.
  - destruct (fill_doc_topic_raises corpus model doc_labels Hbad) as (? & ? & ? & _ & _ & _ & Hr).
    congruence.
Qed.

(** The returned frame is the transpose of the labelled array, and
    transposing it gives the labelled array back. *)
Lemma create_doc_topic_transposed {Doc : Type} (corpus : list Doc) (model : LdaModel Doc)
    (doc_labels : list string) (df : DataFrame) :
  create_doc_topic corpus model doc_labels = Ok df ->
  exists doc_topic : ndarray,
    fill_doc_topic corpus model doc_labels = Ok doc_topic /\
    df = transpose (mkDataFrame doc_topic doc_labels (make_topic_labels model)) /\
    transpose df = mkDataFrame doc_topic doc_labels (make_topic_labels model).
Proof.
  unfold create_doc_topic. intros Hdf.
  destruct (fill_doc_topic corpus model doc_labels) as [doc_topic|e] eqn:Hfill; [|discriminate].
  cbn in Hdf. injection Hdf as <-.
  destruct (fill_doc_topic_shape _ _ _ _ Hfill) as (_ & _ & Hlen & Hwidth).
  exists doc_topic. split; [reflexivity|]. split; [reflexivity|].
  apply transpose_involutive; cbn; [exact Hlen|].
  rewrite length_make_topic_labels. exact Hwidth.
Qed.

(** X1. Whenever [create_doc_topic] returns, the frame has one row per topic,
    labelled with the topic's top terms, and one column per document label;
    the cell in row [j], column [i] is the cell [i][j] of the filled array,
    and transposing the frame gives the filled array back with documents as
    rows. *)
Theorem create_doc_topic_orientation {Doc : Type} (corpus : list Doc) (model : LdaModel Doc)
    (doc_labels : list string) (df : DataFrame) :
  create_doc_topic corpus model doc_labels = Ok df ->
  index df = make_topic_labels model /\
  columns df = doc_labels /\
  length (values df) = num_topics model /\
  Forall (fun row => length row = length doc_labels) (values df) /\
  exists doc_topic : ndarray,
    fill_doc_topic corpus model doc_labels = Ok doc_topic /\
    transpose df = mkDataFrame doc_topic doc_labels (make_topic_labels model) /\
    forall i j, i < length doc_labels -> j < num_topics model ->
      is_Some (cell doc_topic i j) /\ cell (values df) j i = cell doc_topic i j.
Proof.
  intros Hdf.
  destruct (create_doc_topic_transposed _ _ _ _ Hdf) as (doc_topic & Hfill & -> & Htr).
  destruct (fill_doc_topic_shape _ _ _ _ Hfill) as (_ & _ & Hlen & Hwidth).
  split; [reflexivity|]. split; [reflexivity|].
  split; [cbn; rewrite length_map, length_seq; apply length_make_topic_labels|].
  split.
  { cbn. apply Forall_fmap, Forall_forall. intros j _. cbn.
    rewrite length_array_column. exact Hlen. }
  exists doc_topic. split; [exact Hfill|]. split; [exact Htr|].
  intros i j Hi Hj.
  assert (is_Some (cell doc_topic i j)) as Hcell.
  { unfold cell. destruct (lookup_lt_is_Some_2 doc_topic i ltac:(lia)) as [row Hrow].
    rewrite Hrow. cbn. apply lookup_lt_is_Some.
    eapply Forall_lookup_1 in Hwidth; [|exact Hrow]. cbn in Hwidth. lia. }
  split; [exact Hcell|].
  rewrite transpose_cell; cbn; [|lia|rewrite length_make_topic_labels; exact Hj].
  destruct Hcell as [x ->]. reflexivity.
Qed.

Lemma create_doc_topic_orientation_witness :
  exists df, create_doc_topic scenario_corpus scenario_model ["doc1"; "doc2"] = Ok df /\
    index df = ["a b c"; "d e f"] /\ columns df = ["doc1"; "doc2"] /\
    cell (values df) 1 0 = Some 0.3%float.
Proof.
  eexists. split; [vm_compute; reflexivity|].
  destruct (create_doc_topic_orientation scenario_corpus scenario_model ["doc1"; "doc2"] _
              ltac:(vm_compute; reflexivity)) as (Hi & Hc & _ & _ & _).
  split; [exact Hi|]. split; [exact Hc|]. reflexivity.
Defined.

(** ** From the builder to the plots *)

Section StableSortLocal.
Context {A : Type} (le : A -> A -> bool).
Hypothesis le_total : forall x y, le x y = true \/ le y x = true.

Lemma insert_sorted_HdRel (y x : A) (l : list A) :
  le y x = true -> HdRel (holds le) y l -> HdRel (holds le) y (insert_sorted le x l).
Proof.
  intros Hyx Hhd. destruct l as [|z l]; simpl; [constructor; exact Hyx|].
  destruct (le x z); constructor; [exact Hyx|].
  inversion Hhd; assumption.
Qed.

Lemma insert_sorted_locally (x : A) (l : list A) :
  Sorted (holds le) l -> Sorted (holds le) (insert_sorted le x l).
Proof.
  induction 1 as [|y l Hl IH Hy]; simpl.
  - constructor; constructor.
  - destruct (le x y) eqn:E.
    + constructor; [constructor; assumption|]. constructor. exact E.
    + constructor; [exact IH|]. apply insert_sorted_HdRel; [|exact Hy].
      destruct (le_total x y) as [H|H]; [congruence|exact H].
Qed.

Lemma stable_sort_locally (l : list A) : Sorted (holds le) (stable_sort le l).
Proof.
  induction l as [|x l IH]; [constructor|]. apply insert_sorted_locally. exact IH.
Qed.
End StableSortLocal.

Lemma by_label_total (p q : string * list float) :
  by_label p q = true \/ by_label q p = true.
Proof. apply String.leb_total. Qed.

Lemma sort_index_rows (df : DataFrame) :
  length (index df) = length (values df) ->
  let rows := stable_sort by_label (zip (index df) (values df)) in
  sort_index df = mkDataFrame (map snd rows) (map fst rows) (columns df) /\
  Permutation rows (zip (index df) (values df)) /\
  Sorted (holds by_label) rows /\
  length rows = length (index df).
Proof.
  intros Hlen rows. split; [reflexivity|].
  assert (Permutation rows (zip (index df) (values df))) as Hperm by apply stable_sort_perm.
  split; [exact Hperm|]. split; [apply stable_sort_locally, by_label_total|].
  rewrite (Permutation_length Hperm), length_zip. lia.
Qed.

(** X2. Drawing the frame returned by [create_doc_topic] with
    [doc_topic_heatmap] puts the filled array on the current figure with
    documents as rows in ascending order of their labels: each row of
    colours is the filled row of the document whose label is its tick
    label, and the column ticks carry the topic labels. *)
Theorem heatmap_of_created_frame {Doc : Type} (corpus : list Doc) (model : LdaModel Doc)
    (doc_labels : list string) (df : DataFrame) (w : world) :
  create_doc_topic corpus model doc_labels = Ok df ->
  exists (doc_topic : ndarray) (rows : list (string * list float)) w' init fig before,
    fill_doc_topic corpus model doc_labels = Ok doc_topic /\
    Permutation rows (zip doc_labels doc_topic) /\
    Sorted (holds by_label) rows /\
    doc_topic_heatmap df w = (Ok tt, w') /\
    figures w' = init ++ [fig] /\
    drawn fig = before ++
      [Pcolor (map snd rows) "Reds";
       SetYTicks (arange_plus (length doc_labels) 1.0);
       SetYTickLabels (map fst rows);
       SetXTicks (arange_plus (num_topics model) 0.5);
       SetXTickLabels (make_topic_labels model) "90";
       InvertYAxis; TightLayout] /\
    (20 < length doc_labels \/ 20 < num_topics model ->
     init = figures w /\ figsize fig = Some (20, 20)%Z /\ before = []).
Proof.
  intros Hdf.
  destruct (create_doc_topic_transposed _ _ _ _ Hdf) as (doc_topic & Hfill & _ & Htr).
  destruct (fill_doc_topic_shape _ _ _ _ Hfill) as (_ & _ & Hlen & _).
  pose proof (doc_topic_heatmap_draws df w) as Hdraw. cbv zeta in Hdraw.
  rewrite Htr in Hdraw.
  destruct (sort_index_rows (mkDataFrame doc_topic doc_labels (make_topic_labels model)))
    as (Hsort & Hperm & Hsorted & Hrows); [cbn; lia|].
  cbn [index values columns] in Hsort, Hperm, Hsorted, Hrows.
  set (rows := stable_sort by_label (zip doc_labels doc_topic)) in *.
  rewrite Hsort in Hdraw. cbn [index values columns] in Hdraw.
  rewrite !length_map, Hrows, length_make_topic_labels in Hdraw.
  exists doc_topic, rows.
  destruct ((20 <? length doc_labels)%nat || (20 <? num_topics model)%nat) eqn:Hbig.
  - eexists _, (figures w), _, []. split; [exact Hfill|]. split; [exact Hperm|].
    split; [exact Hsorted|]. split; [exact Hdraw|]. split; [reflexivity|].
    split; [reflexivity|]. intros _. split; [reflexivity|]. split; reflexivity.
  - destruct (on_current_last
                [Pcolor (map snd rows) "Reds";
                 SetYTicks (arange_plus (length doc_labels) 1.0);
                 SetYTickLabels (map fst rows);
                 SetXTicks (arange_plus (num_topics model) 0.5);
                 SetXTickLabels (make_topic_labels model) "90";
                 InvertYAxis; TightLayout] (figures w))
      as (init & fig & Hfigs & before & Hdrawn).
    eexists _, init, fig, before. split; [exact Hfill|]. split; [exact Hperm|].
    split; [exact Hsorted|]. split; [exact Hdraw|]. split; [exact Hfigs|].
    split; [exact Hdrawn|]. intros Hlarge. exfalso.
    apply orb_false_iff in Hbig as [H1 H2]. apply Nat.ltb_ge in H1, H2. lia.
Qed.

Lemma heatmap_of_created_frame_witness :
  exists (rows : list (string * list float)) w' fig,
    Permutation rows [("doc1", [0.7; 0.3]); ("doc2", [0.0; 1.0])]%float /\
    doc_topic_heatmap
      {| values := [[0.7; 0.0]; [0.3; 1.0]]%float;
         index := ["a b c"; "d e f"]; columns := ["doc1"; "doc2"] |}
      (import_world friendly_os) = (Ok tt, w') /\
    last (figures w') = Some fig.
Proof.
  destruct (heatmap_of_created_frame scenario_corpus scenario_model ["doc1"; "doc2"] _
              (import_world friendly_os) ltac:(vm_compute; reflexivity))
    as (doc_topic & rows & w' & init & fig & before & Hfill & Hperm & _ & Hdraw & Hfigs & _).
  exists rows, w', fig.
  assert (doc_topic = [[0.7; 0.3]; [0.0; 1.0]]%float) as ->
    by (vm_compute in Hfill; congruence).
  split; [exact Hperm|]. split; [exact Hdraw|]. rewrite Hfigs. apply last_snoc.
Defined.

Lemma transpose_column (df : DataFrame) (i : nat) (row : list float) :
  values df !! i = Some row ->
  length row = length (columns df) ->
  array_column (values (transpose df)) i = row.
Proof.
  intros Hrow Hlen. unfold transpose. cbn [values].
  apply list_eq. intros j. rewrite array_column_lookup, list_lookup_fmap.
  destruct (decide (j < length (columns df))) as [Hj|Hj].
  - rewrite lookup_seq_lt by exact Hj. cbn. rewrite array_column_lookup, Hrow. cbn.
    destruct (lookup_lt_is_Some_2 row j ltac:(lia)) as [x ->]. reflexivity.
  - rewrite lookup_seq_ge by lia. cbn. symmetry. apply lookup_ge_None_2. lia.
Qed.

Lemma store_row_weights (topic_dist : list (Z * float)) (n : nat) :
  (forall t w, In (t, w) topic_dist -> (0 <= t < Z.of_nat n)%Z) ->
  store_row (replicate n fzero) topic_dist
  = map (fun j => default fzero (last_weight topic_dist (Z.of_nat j))) (seq 0 n).
Proof.
  intros Hids. apply list_eq. intros j. rewrite list_lookup_fmap.
  destruct (decide (j < n)) as [Hj|Hj].
  - rewrite lookup_seq_lt by exact Hj. cbn. rewrite store_row_lookup.
    + destruct (last_weight topic_dist (Z.of_nat j)); [reflexivity|].
      apply lookup_replicate_2, Hj.
    + intros t w Hin. rewrite length_replicate. eapply Hids, Hin.
    + rewrite length_replicate. exact Hj.
  - rewrite lookup_seq_ge by lia. cbn. apply lookup_ge_None_2.
    rewrite length_store_row, length_replicate. lia.
Qed.

(** X3. [plot_doc_topics] on the frame returned by [create_doc_topic], with
    pairwise distinct document labels: for a document of the corpus whose
    topic ids are non-negative, the bars are the topics to which its
    assignment gives a non-zero weight, each under the label of its topic,
    in ascending order of weight. *)
Theorem bars_of_created_frame {Doc : Type} (corpus : list Doc) (model : LdaModel Doc)
    (doc_labels : list string) (df : DataFrame) (document_index : Z) (i : nat) (doc : Doc) :
  create_doc_topic corpus model doc_labels = Ok df ->
  NoDup doc_labels ->
  py_index (length doc_labels) document_index = Some i ->
  corpus !! i = Some doc ->
  (forall t w, In (t, w) (getitem model doc) -> (0 <= t)%Z) ->
  exists data : Series,
    doc_topics_data df document_index = Ok data /\
    Permutation data
      (List.filter nonzero
         (zip (make_topic_labels model)
              (map (fun j => default fzero (last_weight (getitem model doc) (Z.of_nat j)))
                   (seq 0 (num_topics model))))) /\
    StronglySorted (holds by_value) data.
Proof.
  intros Hdf Hnd Hidx Hdoc Hpos.
  destruct (create_doc_topic_transposed _ _ _ _ Hdf) as (doc_topic & Hfill & Hdf' & Htr).
  assert (index df = make_topic_labels model) as Hindex by (rewrite Hdf'; reflexivity).
  assert (columns df = doc_labels) as Hcols by (rewrite Hdf'; reflexivity).
  destruct (fill_doc_topic_shape _ _ _ _ Hfill) as (Hrange & Hclosed & Hlen & Hwidth).
  pose proof (py_index_lt _ _ _ Hidx) as Hi.
  assert (doc_topic !! i
          = Some (map (fun j => default fzero (last_weight (getitem model doc) (Z.of_nat j)))
                      (seq 0 (num_topics model)))) as Hrow.
  { rewrite Hclosed, store_rows_lookup, lookup_take.
    destruct (decide (i < length doc_labels)) as [_|]; [|lia]. rewrite Hdoc.
    unfold np_zeros. rewrite lookup_replicate_2 by exact Hi. cbn. f_equal.
    apply store_row_weights. intros t w Hin. split; [eapply Hpos, Hin|].
    assert (In doc (take (length doc_labels) corpus)) as Hvisited.
    { apply list_elem_of_In. apply list_elem_of_lookup. exists i.
      rewrite lookup_take. destruct (decide (i < length doc_labels)); [exact Hdoc|lia]. }
    apply list_elem_of_In in Hvisited.
    apply Forall_forall with (x := doc) in Hrange; [|exact Hvisited].
    apply Forall_forall with (x := (t, w)) in Hrange; [|apply list_elem_of_In, Hin].
    cbn in Hrange. destruct (Z.lt_ge_cases t (Z.of_nat (num_topics model))) as [|Hge]; [assumption|].
    destruct Hrange. apply py_index_too_large. exact Hge. }
  assert (column_series df i
          = zip (make_topic_labels model)
                (map (fun j => default fzero (last_weight (getitem model doc) (Z.of_nat j)))
                     (seq 0 (num_topics model)))) as Hcol.
  { unfold column_series. rewrite Hindex. f_equal.
    rewrite Hdf'.
    apply transpose_column; cbn [values columns]; [exact Hrow|].
    rewrite length_map, length_seq, length_make_topic_labels. reflexivity. }
  rewrite (doc_topics_data_ok df document_index i); [|rewrite Hcols; exact Hidx|rewrite Hcols; exact Hnd].
  rewrite Hcol. eexists. split; [reflexivity|]. split.
  - apply stable_sort_perm.
  - apply stable_sort_strongly; [exact by_value_total|exact by_value_trans].
Qed.

Lemma bars_of_created_frame_witness :
  exists data : Series,
    doc_topics_data {| values := [[0.7; 0.0]; [0.3; 1.0]]%float;
                       index := ["a b c"; "d e f"]; columns := ["doc1"; "doc2"] |} 1 = Ok data /\
    Permutation data [("d e f", 1.0%float)].
Proof.
  destruct (bars_of_created_frame scenario_corpus scenario_model ["doc1"; "doc2"] _ 1 1
              [(1%Z, 1.0%float)] ltac:(vm_compute; reflexivity))
    as (data & Hdata & Hperm & _).
  - repeat constructor; rewrite ?list_elem_of_In; simpl; intuition discriminate.
  - reflexivity.
  - reflexivity.
  - intros t w [[= <- <-]|[]]. lia.
  - exists data. split; [exact Hdata|exact Hperm].
Defined.

(** ** The life of a heatmap *)

(** X4. With at most 20 document labels and 20 topics, valid topic ids, the
    output directory in place and a write that succeeds, [make_heatmap]
    followed by [save_heatmap] writes exactly one file: [path/filename.ext],
    holding the figure that [make_heatmap] created and on which the filled
    array is drawn, at the requested resolution; nothing is logged. *)
Theorem make_then_save_heatmap {Doc Dict : Type} (self : Visualization.t Doc Dict)
    (labels : list string) (w : world) (path filename ext : string) (dpi : Z) :
  Visualization.doc_labels self = Some labels ->
  length labels <= 20 -> num_topics (Visualization.model self) <= 20 ->
  Forall (fun doc => ids_in_range (num_topics (Visualization.model self))
                                  (getitem (Visualization.model self) doc))
         (take (length labels) (Visualization.corpus self)) ->
  directory_ready (os w) path ->
  write_file (os w) (os_path_join path (filename +:+ "." +:+ ext)) = None ->
  exists self' w1 w2 fig doc_topic,
    Visualization.make_heatmap self w = (Ok self', w1) /\
    Visualization.heatmap_vis self' = Some (length (figures w)) /\
    figures w1 !! length (figures w) = Some fig /\
    figsize fig = None /\
    fill_doc_topic (Visualization.corpus self) (Visualization.model self) labels
    = Ok doc_topic /\
    In (Pcolor doc_topic "Reds") (drawn fig) /\
    Visualization.save_heatmap self' path filename ext dpi w1 = (Ok tt, w2) /\
    written w2
    = written w ++ [(os_path_join path (filename +:+ "." +:+ ext), length (figures w), dpi)] /\
    figures w2 = figures w1 /\
    stderr w2 = stderr w.
Proof.
  intros Hlabels Hdocs Htopics Hrange Hdir Hwrite.
  destruct (make_heatmap_small self labels w Hlabels Hdocs Htopics Hrange)
    as (doc_topic & Hfill & Hmake).
  eexists _, _, _, _, doc_topic. split; [exact Hmake|]. split; [reflexivity|].
  split; [cbn [figures set_figures]; apply list_lookup_middle; reflexivity|].
  split; [reflexivity|]. split; [exact Hfill|]. split; [cbn; auto|].
  rewrite save_heatmap_unfold. cbn [Visualization.heatmap_vis Visualization.set_heatmap_vis].
  unfold savefig. cbn [os set_figures]. rewrite Hwrite.
  destruct (path_exists (os w) path) eqn:E.
  - split; [reflexivity|]. split; [reflexivity|]. split; reflexivity.
  - destruct Hdir as [?|Hdir]; [congruence|]. rewrite Hdir.
    split; [reflexivity|]. split; [reflexivity|]. split; reflexivity.
Qed.

Lemma make_then_save_heatmap_witness :
  exists self' w1 w2,
    Visualization.make_heatmap small_heatmap (import_world friendly_os) = (Ok self', w1) /\
    Visualization.save_heatmap self' "out" "heatmap" "png" 200 w1 = (Ok tt, w2) /\
    written w2 = [("out/heatmap.png", 0, 200%Z)].
Proof.
  destruct (make_then_save_heatmap small_heatmap ["doc1"; "doc2"] (import_world friendly_os)
              "out" "heatmap" "png" 200)
    as (self' & w1 & w2 & _ & _ & Hmake & _ & _ & _ & _ & _ & Hsave & Hwritten & _).
  - reflexivity.
  - simpl. lia.
  - simpl. lia.
  - vm_compute. repeat constructor; discriminate.
  - left. reflexivity.
  - reflexivity.
  - exists self', w1, w2. split; [exact Hmake|]. split; [exact Hsave|exact Hwritten].
Defined.

(** X5. The [interactive] flag of the constructor decides which of the two
    visualizations an instance can make.  Built with [interactive=True] it
    has no [doc_labels], and [make_heatmap] raises AttributeError for that
    attribute; built with [interactive=False] it has no [dictionary], and
    [make_interactive], once the name [pyLDAvis] is bound, raises
    AttributeError for that one.  In both cases pyplot, the log and the
    files are left as they were. *)
Theorem init_flag_selects_visualization {Doc Dict : Type} (lda_model : LdaModel Doc)
    (corpus : list Doc) (dictionary : Dict) (doc_labels : list string) (w : world) :
  Visualization.make_heatmap
    (Visualization.init lda_model corpus dictionary doc_labels true) w
  = (Raise (AttributeError "doc_labels"), w) /\
  (forall lib, pyLDAvis w = Some lib ->
     Visualization.make_interactive
       (Visualization.init lda_model corpus dictionary doc_labels false) w
     = (Raise (AttributeError "dictionary"), w)) /\
  (forall lib, pyLDAvis w = Some lib ->
     exists self,
       Visualization.make_interactive
         (Visualization.init lda_model corpus dictionary doc_labels true) w
       = (Ok self, w) /\
       Visualization.interactive_vis self = Some (prepare lib)).
Proof.
  split; [reflexivity|]. split.
  - intros lib Hlib.
    unfold Visualization.make_interactive, mbind, M_bind, log_info, global_pyLDAvis, mret, M_ret.
    rewrite Hlib. reflexivity.
  - intros lib Hlib. eexists.
    unfold Visualization.make_interactive, mbind, M_bind, log_info, log_debug, global_pyLDAvis,
      mret, M_ret.
    rewrite Hlib. split; reflexivity.
Qed.

Lemma init_flag_selects_visualization_witness :
  Visualization.make_interactive small_heatmap world_with_pyLDAvis
  = (Raise (AttributeError "dictionary"), world_with_pyLDAvis).
Proof.
  destruct (init_flag_selects_visualization scenario_model scenario_corpus tt ["doc1"; "doc2"]
              world_with_pyLDAvis) as (_ & H & _).
  apply (H working_pyLDAvis). reflexivity.
Defined.

(** X6. A topic id that is not a valid subscript, in a document that the
    loop visits, makes [make_heatmap] raise IndexError before any figure is
    created: pyplot, the log and the files are as they were, and no
    instance with a [heatmap_vis] comes back. *)
Theorem make_heatmap_bad_topic_id {Doc Dict : Type} (self : Visualization.t Doc Dict)
    (labels : list string) (w : world) :
  Visualization.doc_labels self = Some labels ->
  ~ Forall (fun doc => ids_in_range (num_topics (Visualization.model self))
                                    (getitem (Visualization.model self) doc))
           (take (length labels) (Visualization.corpus self)) ->
  exists t, py_index (num_topics (Visualization.model self)) t = None /\
    Visualization.make_heatmap self w
    = (Raise (IndexError t (num_topics (Visualization.model self))), w).
Proof.
  intros Hlabels Hbad.
  destruct (fill_doc_topic_raises _ _ labels Hbad) as (doc & t & x & _ & _ & Ht & Hr).
  exists t. split; [exact Ht|].
  unfold Visualization.make_heatmap, mbind, M_bind, getattr, lift, log_info, mret, M_ret.
  rewrite Hlabels, Hr. reflexivity.
Qed.

Lemma make_heatmap_bad_topic_id_witness :
  exists t,
    Visualization.make_heatmap
      (Visualization.init scenario_model [[(5%Z, 1.0%float)]] tt ["doc1"] false)
      (import_world friendly_os)
    = (Raise (IndexError t 2), import_world friendly_os).
Proof.
  destruct (make_heatmap_bad_topic_id
              (Visualization.init scenario_model [[(5%Z, 1.0%float)]] tt ["doc1"] false)
              ["doc1"] (import_world friendly_os)) as (t & _ & H).
  - reflexivity.
  - intros H. apply Forall_cons in H as [H _]. apply Forall_cons in H as [H _].
    apply H. reflexivity.
  - exists t. exact H.
Defined.

(** ** What a save can and cannot do *)

(** X7. Whatever the instance and the file system, [save_heatmap] leaves the
    figure registry alone; it writes at most one file, and only on a normal
    return, namely the instance's figure under [path/filename.ext]; it logs
    only when it raises AttributeError. *)
Theorem save_heatmap_footprint {Doc Dict : Type} (self : Visualization.t Doc Dict)
    (path filename ext : string) (dpi : Z) (w : world) :
  exists r w',
    Visualization.save_heatmap self path filename ext dpi w = (r, w') /\
    figures w' = figures w /\
    os w' = os w /\
    (written w' = written w \/
     exists fig, r = Ok tt /\ Visualization.heatmap_vis self = Some fig /\
       written w' = written w ++ [(os_path_join path (filename +:+ "." +:+ ext), fig, dpi)]) /\
    (stderr w' = stderr w \/ exists attr, r = Raise (AttributeError attr)).
Proof.
  rewrite save_heatmap_unfold. unfold savefig.
  destruct (path_exists (os w) path);
    [|destruct (makedirs (os w) path) as [[]|]];
    try (eexists _, _; split; [reflexivity|]; cbn; repeat split; eauto; fail);
    (destruct (Visualization.heatmap_vis self) as [fig|];
     [destruct (write_file (os w) (os_path_join path (filename +:+ "." +:+ ext))) as [[]|]|];
     eexists _, _; (split; [reflexivity|]); cbn; repeat split; eauto).
Qed.

(** X8. An exception of the file system other than FileNotFoundError (and
    AttributeError) reaches the caller of [save_heatmap] as it is, without
    a log record and without a file, whether [os.makedirs] raises it or the
    write does. *)
Theorem save_heatmap_os_error {Doc Dict : Type} (self : Visualization.t Doc Dict)
    (path filename ext : string) (dpi : Z) (w : world) (msg : string) :
  (path_exists (os w) path = false -> makedirs (os w) path = Some (OSError msg) ->
   Visualization.save_heatmap self path filename ext dpi w = (Raise (OSError msg), w)) /\
  (forall fig, directory_ready (os w) path ->
   Visualization.heatmap_vis self = Some fig ->
   write_file (os w) (os_path_join path (filename +:+ "." +:+ ext)) = Some (OSError msg) ->
   Visualization.save_heatmap self path filename ext dpi w = (Raise (OSError msg), w)).
Proof.
  split.
  - intros He Hm. rewrite save_heatmap_unfold, He, Hm. reflexivity.
  - intros fig Hdir Hvis Hw. rewrite save_heatmap_unfold, Hvis. unfold savefig. rewrite Hw.
    destruct (path_exists (os w) path) eqn:E; [reflexivity|].
    destruct Hdir as [?|Hdir]; [congruence|]. rewrite Hdir. reflexivity.
Qed.

Lemma save_heatmap_os_error_witness :
  Visualization.save_heatmap small_heatmap "out" "heatmap" "png" 200 (import_world read_only_os)
  = (Raise (OSError "Permission denied"), import_world read_only_os).
Proof.
  destruct (save_heatmap_os_error small_heatmap "out" "heatmap" "png" 200
              (import_world read_only_os) "Permission denied") as [H _].
  apply H; reflexivity.
Defined.

(** X9. In the module as it is imported, where the name [pyLDAvis] is
    unbound: [make_interactive] raises NameError for every instance and
    changes nothing, so no instance ever gets an [interactive_vis]; and
    [save_interactive] returns normally only when the output directory is
    missing and [os.makedirs] raises FileNotFoundError. *)
Theorem interactive_unavailable {Doc Dict : Type} (self : Visualization.t Doc Dict)
    (path filename : string) (w : world) :
  pyLDAvis w = None ->
  Visualization.make_interactive self w = (Raise (NameError "pyLDAvis"), w) /\
  forall w',
    Visualization.save_interactive self path filename w = (Ok tt, w') ->
    w' = w /\
    path_exists (os w) path = false /\
    exists missing, makedirs (os w) path = Some (FileNotFoundError missing).
Proof.
  intros Hlib. split.
  - unfold Visualization.make_interactive, mbind, M_bind, log_info, global_pyLDAvis, mret, M_ret.
    rewrite Hlib. reflexivity.
  - intros w'.
    unfold Visualization.save_interactive, try_except, mbind, M_bind, os_path_exists,
      os_makedirs, log_info, global_pyLDAvis, mret, M_ret, raise, log_error.
    destruct (path_exists (os w) path); cbn.
    + rewrite Hlib. discriminate.
    + destruct (makedirs (os w) path) as [e|]; cbn.
      * destruct e; cbn; try discriminate.
        intros [= <-]. split; [reflexivity|]. split; [reflexivity|]. eauto.
      * rewrite Hlib. discriminate.
Qed.

Lemma interactive_unavailable_witness :
  Visualization.make_interactive small_heatmap (import_world friendly_os)
  = (Raise (NameError "pyLDAvis"), import_world friendly_os).
Proof.
  destruct (interactive_unavailable small_heatmap "out" "corpus_interactive"
              (import_world friendly_os)) as [H _]; [reflexivity|exact H].
Defined.

(** ** More on the bar chart *)

Lemma py_index_None (n : nat) (i : Z) :
  py_index n i = None <-> (i < - Z.of_nat n \/ Z.of_nat n <= i)%Z.
Proof.
  unfold py_index.
  destruct (Z.leb_spec 0 i); [destruct (Z.ltb_spec i (Z.of_nat n))|
                              destruct (Z.leb_spec (- Z.of_nat n) i)];
    split; try discriminate; try reflexivity; lia.
Qed.

(** X10. A document index outside [-n, n), for a frame of [n] columns, makes
    [plot_doc_topics] raise IndexError before anything is drawn. *)
Theorem plot_doc_topics_bad_index (doc_topic : DataFrame) (document_index : Z) (w : world) :
  (document_index < - Z.of_nat (length (columns doc_topic)) \/
   Z.of_nat (length (columns doc_topic)) <= document_index)%Z ->
  plot_doc_topics doc_topic document_index w
  = (Raise (IndexError document_index (length (columns doc_topic))), w).
Proof.
  intros Hout. apply py_index_None in Hout.
  unfold plot_doc_topics, mbind, M_bind, lift, doc_topics_data, column_label.
  rewrite Hout. reflexivity.
Qed.

Lemma plot_doc_topics_bad_index_witness :
  plot_doc_topics twin_labels 2 (import_world friendly_os)
  = (Raise (IndexError 2 2), import_world friendly_os).
Proof. apply (plot_doc_topics_bad_index twin_labels 2). right. simpl. lia. Defined.

(** X11. [plot_doc_topics] never opens a figure of its own.  When pyplot has
    a current figure, the bars, ticks, title and axis labels are added to
    it, after what it already shows, and every other figure is untouched;
    only when there is no figure at all is one created, with the default
    size. *)
Theorem plot_doc_topics_on_current_figure (doc_topic : DataFrame) (document_index : Z)
    (data : Series) (label : string) (w : world) :
  doc_topics_data doc_topic document_index = Ok data ->
  column_label doc_topic document_index = Ok label ->
  let arts :=
    [Barh (seq 0 (length data)) (map snd data) "center" 0.5;
     YTicksAt (seq 0 (length data)) (map fst data);
     Title label; XLabel "Proportion"; YLabel "Topic"; TightLayout] in
  exists w',
    plot_doc_topics doc_topic document_index w = (Ok tt, w') /\
    (figures w = [] -> figures w' = [mkFigure None arts]) /\
    (forall init f, figures w = init ++ [f] ->
       figures w' = init ++ [mkFigure (figsize f) (drawn f ++ arts)]).
Proof.
  intros Hdata Hlabel arts.
  rewrite (plot_doc_topics_draws _ _ _ _ w Hdata Hlabel). fold arts.
  eexists. split; [reflexivity|]. cbn [figures set_figures]. split.
  - intros ->. reflexivity.
  - intros init f ->. apply on_current_snoc.
Qed.

Lemma plot_doc_topics_on_current_figure_witness :
  exists w',
    plot_doc_topics
      {| values := [[0.7; 0.0]; [0.3; 1.0]]%float;
         index := ["a b c"; "d e f"]; columns := ["doc1"; "doc2"] |} 1
      (import_world friendly_os) = (Ok tt, w') /\
    figures w'
    = [mkFigure None
         [Barh [0] [1.0%float] "center" 0.5; YTicksAt [0] ["d e f"];
          Title "doc2"; XLabel "Proportion"; YLabel "Topic"; TightLayout]].
Proof.
  destruct (plot_doc_topics_on_current_figure
              {| values := [[0.7; 0.0]; [0.3; 1.0]]%float;
                 index := ["a b c"; "d e f"]; columns := ["doc1"; "doc2"] |} 1
              [("d e f", 1.0%float)] "doc2" (import_world friendly_os))
    as (w' & Hplot & Hnew & _); [reflexivity|reflexivity|].
  exists w'. split; [exact Hplot|]. apply Hnew. reflexivity.
Defined.

(** X12. With pairwise distinct column labels and a valid index, the chart
    has no bar exactly when every entry of the document's column compares
    equal to zero. *)
Theorem plot_doc_topics_empty_iff (doc_topic : DataFrame) (document_index : Z) (j : nat) :
  py_index (length (columns doc_topic)) document_index = Some j ->
  NoDup (columns doc_topic) ->
  exists data : Series,
    doc_topics_data doc_topic document_index = Ok data /\
    (data = [] <->
     Forall (fun entry => (entry.2 =? 0)%float = true) (column_series doc_topic j)).
Proof.
  intros Hj Hnd. rewrite (doc_topics_data_ok _ _ j Hj Hnd). eexists. split; [reflexivity|].
  assert (Permutation (sort_values (List.filter nonzero (column_series doc_topic j)))
                      (List.filter nonzero (column_series doc_topic j))) as Hperm
    by apply stable_sort_perm.
  split.
  - intros Hnil. rewrite Hnil in Hperm. apply Permutation_nil in Hperm.
    apply List.Forall_forall. intros entry Hin.
    destruct (entry.2 =? 0)%float eqn:E; [reflexivity|].
    assert (In entry (List.filter nonzero (column_series doc_topic j))) as Hf.
    { apply List.filter_In. split; [exact Hin|]. unfold nonzero, float_ne, fzero.
      rewrite E. reflexivity. }
    rewrite Hperm in Hf. destruct Hf.
  - intros Hall.
    assert (List.filter nonzero (column_series doc_topic j) = []) as Hnil.
    { destruct (List.filter nonzero (column_series doc_topic j)) as [|entry l] eqn:E;
        [reflexivity|].
      assert (In entry (List.filter nonzero (column_series doc_topic j))) as Hf
        by (rewrite E; left; reflexivity).
      apply List.filter_In in Hf as [Hin Hnz].
      rewrite List.Forall_forall in Hall. specialize (Hall entry Hin).
      unfold nonzero, float_ne, fzero in Hnz. rewrite Hall in Hnz. discriminate. }
    rewrite Hnil. reflexivity.
Qed.

Lemma plot_doc_topics_empty_iff_witness :
  exists data : Series,
    doc_topics_data {| values := [[0.0; 0.5]; [(-0.0); 0.5]]%float;
                       index := ["a b c"; "d e f"]; columns := ["doc1"; "doc2"] |} 0 = Ok data /\
    data = [].
Proof.
  destruct (plot_doc_topics_empty_iff
              {| values := [[0.0; 0.5]; [(-0.0); 0.5]]%float;
                 index := ["a b c"; "d e f"]; columns := ["doc1"; "doc2"] |} 0 0)
    as (data & Hdata & Hiff).
  - reflexivity.
  - simpl. repeat constructor; rewrite ?list_elem_of_In; simpl; intuition discriminate.
  - exists data. split; [exact Hdata|]. apply Hiff. repeat constructor.
Defined.

(** ** More on the Mallet adapter *)

Lemma spaced_app (ws vs : list string) : spaced (ws ++ vs) = spaced ws +:+ spaced vs.
Proof.
  induction ws as [|w ws IH]; [reflexivity|].
  cbn [app spaced foldr]. fold (spaced (ws ++ vs)). fold (spaced ws).
  rewrite IH, !append_assoc. reflexivity.
Qed.

Lemma get_wordlewords_of_group (grouped : DataFrameGroupBy) (K topic_nr : Z)
    (rows : list WordScore) :
  get_group grouped topic_nr = Ok rows ->
  get_wordlewords grouped K topic_nr
  = for_each append_word (map col1 (py_slice_to K rows)) "".
Proof. intros Hg. unfold get_wordlewords. rewrite Hg. reflexivity. Qed.

(** X13. A negative number of top words is a slice bound counted from the
    end: for a topic of the table, [get_wordlewords] then leaves out the
    [|K|] rows of lowest weight (all of them when the topic has fewer) and,
    when the words of the other rows were read as strings, returns these in
    descending order of weight. *)
Theorem get_wordlewords_negative_count (word_scores : list WordScore) (K topic_nr : Z) :
  (exists r, In r word_scores /\ col0 r = topic_nr) ->
  (K < 0)%Z ->
  exists kept dropped : list WordScore,
    Permutation (kept ++ dropped) (List.filter (has_topic topic_nr) word_scores) /\
    StronglySorted (fun r s => desc_leb (col2 r) (col2 s) = true) (kept ++ dropped) /\
    length dropped = Nat.min (Z.to_nat (- K)) (length (kept ++ dropped)) /\
    forall words : list string,
      map col1 kept = map PyStr words ->
      get_wordlewords (read_mallet_word_weights word_scores) K topic_nr
      = Ok (spaced words).
Proof.
  intros (r & Hr & Ht) HK.
  destruct (get_group_sorted word_scores topic_nr) as [Hperm Hsorted]. cbv zeta in Hperm, Hsorted.
  set (group := List.filter (has_topic topic_nr) (obj (read_mallet_word_weights word_scores))) in *.
  exists (take (length group - Z.to_nat (- K)) group),
         (drop (length group - Z.to_nat (- K)) group).
  rewrite take_drop. split; [exact Hperm|]. split; [exact Hsorted|]. split.
  - rewrite length_drop. lia.
  - intros words Hwords. rewrite (get_wordlewords_of_group _ _ _ group).
    + unfold py_slice_to. destruct (Z.leb_spec 0 K); [lia|].
      rewrite Hwords. apply wordle_loop.
    + apply get_group_present. exists r. split; [|exact Ht].
      eapply Permutation_in; [symmetry; apply stable_sort_perm|exact Hr].
Qed.

Lemma get_wordlewords_negative_count_witness :
  get_wordlewords (read_mallet_word_weights mallet_example) (-1) 0 = Ok (spaced ["cat"]).
Proof.
  destruct (get_wordlewords_negative_count mallet_example (-1) 0)
    as (kept & dropped & Hperm & Hsorted & Hlen & H).
  - exists (mkWordScore 0 (PyStr "cat") 0.9). split; [left; reflexivity|reflexivity].
  - lia.
  - pose proof (mallet_example_group _ Hperm Hsorted) as Hgroup.
    rewrite Hgroup in Hlen. cbn in Hlen.
    destruct kept as [|r1 [|r2 kept]]; cbn in Hgroup.
    + subst dropped. discriminate.
    + injection Hgroup as -> _. apply (H ["cat"]). reflexivity.
    + injection Hgroup as _ _ Hrest. apply (f_equal (@length _)) in Hrest.
      rewrite length_app in Hrest. cbn in Hrest. lia.
Defined.

(** X14. Asking for more words only extends the answer.  For
    [0 <= K <= K']: when the call for [K'] returns a string, the call for
    [K] returns a prefix of it; an exception raised for [K] is raised for
    [K'] as well; and when the call for [K] returns and the words of the
    rows from [K] to [K'] were read as strings, the call for [K'] returns
    the same string followed by these words. *)
Theorem get_wordlewords_prefix (grouped : DataFrameGroupBy) (K K' topic_nr : Z) :
  (0 <= K <= K')%Z ->
  (forall s', get_wordlewords grouped K' topic_nr = Ok s' ->
     exists s more, get_wordlewords grouped K topic_nr = Ok s /\ s' = s +:+ more) /\
  (forall e, get_wordlewords grouped K topic_nr = Raise e ->
     get_wordlewords grouped K' topic_nr = Raise e) /\
  (forall rows s words,
     get_group grouped topic_nr = Ok rows ->
     get_wordlewords grouped K topic_nr = Ok s ->
     map col1 (drop (Z.to_nat K) (take (Z.to_nat K') rows)) = map PyStr words ->
     get_wordlewords grouped K' topic_nr = Ok (s +:+ spaced words)).
Proof.
  intros HK.
  destruct (get_group grouped topic_nr) as [rows|e0] eqn:Hg.
  - rewrite !(get_wordlewords_of_group _ _ _ _ Hg).
    unfold py_slice_to. destruct (Z.leb_spec 0 K); [|lia]. destruct (Z.leb_spec 0 K'); [|lia].
    assert (take (Z.to_nat K') rows
            = take (Z.to_nat K) rows ++ drop (Z.to_nat K) (take (Z.to_nat K') rows)) as Hsplit.
    { rewrite <- (take_drop (Z.to_nat K) (take (Z.to_nat K') rows)) at 1.
      f_equal. rewrite take_take. f_equal. lia. }
    rewrite Hsplit, map_app. split; [|split].
    + intros s' Hs'. apply wordle_loop_app_ok in Hs' as (s & Hs & Hmore).
      apply wordle_loop_grows in Hmore as [more ->]. exists s, more. split; [exact Hs|reflexivity].
    + intros e. apply wordle_loop_app_raises.
    + intros rows' s words [= <-] Hs Hwords.
      rewrite (wordle_loop_app _ _ _ _ Hs), Hwords. apply wordle_loop.
  - unfold get_wordlewords. rewrite Hg. cbn [mbind result_bind].
    split; [discriminate|]. split; [intros e H; exact H|discriminate].
Qed.

Lemma get_wordlewords_prefix_witness :
  exists s more,
    get_wordlewords (read_mallet_word_weights mallet_example) 1 0 = Ok s /\
    "cat dog " = s +:+ more.
Proof.
  destruct (get_wordlewords_prefix (read_mallet_word_weights mallet_example) 1 2 0) as [H _];
    [lia|].
  apply (H "cat dog "). vm_compute. reflexivity.
Defined.

Section SortThenFilter.
Context {A : Type} (le : A -> A -> bool) (p : A -> bool).
Hypothesis le_total : forall x y, le x y = true \/ le y x = true.
Hypothesis le_trans : forall x y z, le x y = true -> le y z = true -> le x z = true.

Lemma insert_sorted_first (x : A) (l : list A) :
  Forall (fun z => le x z = true) l -> insert_sorted le x l = x :: l.
Proof. destruct 1 as [|z l Hz _]; simpl; [reflexivity|]. rewrite Hz. reflexivity. Qed.

Lemma filter_insert_sorted (x : A) (l : list A) :
  StronglySorted (holds le) l ->
  List.filter p (insert_sorted le x l)
  = if p x then insert_sorted le x (List.filter p l) else List.filter p l.
Proof.
  induction 1 as [|y l Hl IH Hy]; [simpl; destruct (p x); reflexivity|].
  cbn [insert_sorted]. destruct (le x y) eqn:E.
  - cbn [List.filter]. destruct (p x); [|reflexivity].
    destruct (p y); cbn [insert_sorted]; [rewrite E; reflexivity|].
    symmetry. apply insert_sorted_first.
    apply List.Forall_forall. intros z Hz. apply List.filter_In in Hz as [Hz _].
    rewrite List.Forall_forall in Hy. exact (le_trans _ _ _ E (Hy z Hz)).
  - cbn [List.filter]. rewrite IH. destruct (p y), (p x); cbn [insert_sorted]; try reflexivity.
    rewrite E. reflexivity.
Qed.

Lemma filter_stable_sort (l : list A) :
  List.filter p (stable_sort le l) = stable_sort le (List.filter p l).
Proof.
  induction l as [|x l IH]; [reflexivity|].
  change (stable_sort le (x :: l)) with (insert_sorted le x (stable_sort le l)).
  rewrite filter_insert_sorted by (apply stable_sort_strongly; assumption).
  cbn [List.filter]. destruct (p x); [|exact IH].
  change (stable_sort le (x :: List.filter p l))
    with (insert_sorted le x (stable_sort le (List.filter p l))).
  rewrite IH. reflexivity.
Qed.
End SortThenFilter.

(** X15. The words returned for a topic depend only on the rows of that
    topic: two tables with the same rows for [topic_nr], in the same order,
    give the same answer, whatever their other rows are and wherever they
    stand. *)
Theorem get_wordlewords_other_topics (ws1 ws2 : list WordScore) (K topic_nr : Z) :
  List.filter (has_topic topic_nr) ws1 = List.filter (has_topic topic_nr) ws2 ->
  get_wordlewords (read_mallet_word_weights ws1) K topic_nr
  = get_wordlewords (read_mallet_word_weights ws2) K topic_nr.
Proof.
  intros Hsame. unfold get_wordlewords, get_group, read_mallet_word_weights. cbn [obj].
  rewrite !(filter_stable_sort _ _ by_topic_then_weight_total by_topic_then_weight_trans).
  rewrite Hsame. reflexivity.
Qed.

Lemma get_wordlewords_other_topics_witness :
  get_wordlewords (read_mallet_word_weights mallet_example) 2 0
  = get_wordlewords
      (read_mallet_word_weights
         [mkWordScore 7 (PyStr "bird") 0.5; mkWordScore 0 (PyStr "cat") 0.9;
          mkWordScore 0 (PyStr "dog") 0.4]) 2 0.
Proof. apply get_wordlewords_other_topics. reflexivity. Defined.

(** ** The names of the word-cloud files *)

Lemma of_uint_leading_zeros (k : nat) (d : uint) :
  Z.of_uint (Nat.iter k D0 d) = Z.of_uint d.
Proof. induction k as [|k IH]; [reflexivity|]. cbn [Nat.iter]. exact IH. Qed.

Lemma zero_pad_not_Nil (width : nat) (d : uint) : 0 < width -> zero_pad width d <> Nil.
Proof.
  unfold zero_pad. intros Hw. destruct d; cbn [nb_digits];
    try (destruct (width - _) as [|k]; cbn [Nat.iter]; discriminate).
  rewrite Nat.sub_0_r. destruct width as [|k]; [lia|]. cbn [Nat.iter]. discriminate.
Qed.

Lemma string_of_uint_head (d : uint) :
  d <> Nil ->
  exists c rest, NilEmpty.string_of_uint d = String c rest /\ Ascii.eqb c (Ascii.Ascii true false true true false true false false) = false.
Proof. destruct d; [congruence|..]; intros _; eexists _, _; split; reflexivity. Qed.

Lemma int_of_string_digits (d : uint) :
  d <> Nil -> NilZero.int_of_string (NilEmpty.string_of_uint d) = Some (Pos d).
Proof.
  intros Hd. destruct (string_of_uint_head d Hd) as (c & rest & Hs & Hc).
  unfold NilZero.int_of_string, NilZero.uint_of_string. rewrite Hs, Hc, <- Hs.
  rewrite NilEmpty.usu. reflexivity.
Qed.

Lemma int_of_string_minus_digits (d : uint) :
  d <> Nil -> NilZero.int_of_string ("-" +:+ NilEmpty.string_of_uint d) = Some (Neg d).
Proof.
  intros Hd. destruct (string_of_uint_head d Hd) as (c & rest & Hs & _).
  change ("-" +:+ NilEmpty.string_of_uint d)
    with (String (Ascii.Ascii true false true true false true false false)
                 (NilEmpty.string_of_uint d)).
  unfold NilZero.int_of_string. rewrite Ascii.eqb_refl.
  unfold NilZero.uint_of_string. rewrite Hs, <- Hs, NilEmpty.usu. reflexivity.
Qed.

Lemma format_03d_read_back (n : Z) : int_of_str (format_03d n) = Some n.
Proof.
  unfold int_of_str, format_03d. pose proof (DecimalZ.of_to n) as Hn.
  destruct (Z.to_int n) as [d|d].
  - rewrite int_of_string_digits by (apply zero_pad_not_Nil; lia). cbn.
    unfold zero_pad. rewrite of_uint_leading_zeros. exact (f_equal Some Hn).
  - rewrite int_of_string_minus_digits by (apply zero_pad_not_Nil; lia). cbn.
    unfold zero_pad. rewrite of_uint_leading_zeros. exact (f_equal Some Hn).
Qed.

Lemma length_append (s t : string) :
  String.length (s +:+ t) = String.length s + String.length t.
Proof.
  induction s as [|c s IH]; [reflexivity|].
  change (S (String.length (s +:+ t)) = S (String.length s + String.length t)).
  rewrite IH. reflexivity.
Qed.

Lemma append_cancel_r (s1 s2 t : string) : s1 +:+ t = s2 +:+ t -> s1 = s2.
Proof.
  revert s2. induction s1 as [|c s1 IH]; intros [|c' s2] H.
  - reflexivity.
  - apply (f_equal String.length) in H. rewrite !length_append in H. cbn in H. lia.
  - apply (f_equal String.length) in H. rewrite !length_append in H. cbn in H. lia.
  - change (String c (s1 +:+ t) = String c' (s2 +:+ t)) in H.
    injection H as -> H. f_equal. apply IH, H.
Qed.

(** X16. The digits in the name of a word-cloud file read back as the topic
    number, for every integer; so within one output folder two different
    topics never get the same file. *)
Theorem wordle_file_identifies_topic (outfolder : string) (n m : Z) :
  int_of_str (format_03d n) = Some n /\
  (n <> m -> outfolder +:+ figure_filename n <> outfolder +:+ figure_filename m).
Proof.
  split; [apply format_03d_read_back|].
  intros Hne H. apply Hne. apply String.app_inj in H. unfold figure_filename in H.
  apply String.app_inj in H. apply append_cancel_r in H.
  pose proof (format_03d_read_back n) as Hn. rewrite H, format_03d_read_back in Hn.
  congruence.
Qed.

Lemma wordle_file_identifies_topic_witness :
  int_of_str (format_03d (-7)) = Some (-7)%Z /\
  "out/" +:+ figure_filename 7 <> "out/" +:+ figure_filename 1007.
Proof.
  split.
  - apply (wordle_file_identifies_topic "out/" (-7) 0).
  - apply (wordle_file_identifies_topic "out/" 7 1007). lia.
Defined.

Lemma format_03d_three_digits (n : nat) :
  n < 1000 -> format_03d (Z.of_nat n) = three_digits n.
Proof.
  intros Hn. apply String.eqb_eq.
  assert (forallb formats_as_three_digits (seq 0 1000) = true) as Hall
    by (vm_compute; reflexivity).
  rewrite forallb_forall in Hall. apply (Hall n). apply in_seq. lia.
Qed.

Lemma compare_digits (i j : nat) :
  i < 10 -> j < 10 -> Ascii.compare (digit i) (digit j) = Nat.compare i j.
Proof.
  intros Hi Hj.
  do 10 (destruct i as [|i];
         [do 10 (destruct j as [|j]; [reflexivity|]); lia|]).
  lia.
Qed.

Lemma ascii_compare_refl (c : Ascii.ascii) : Ascii.compare c c = Eq.
Proof. unfold Ascii.compare. apply N.compare_refl. Qed.

Lemma string_compare_refl (s : string) : String.compare s s = Eq.
Proof.
  induction s as [|c s IH]; [reflexivity|]. cbn [String.compare].
  rewrite ascii_compare_refl. exact IH.
Qed.

Lemma compare_common_prefix (p a b : string) :
  String.compare (p +:+ a) (p +:+ b) = String.compare a b.
Proof.
  induction p as [|c p IH]; [reflexivity|].
  change (String.compare (String c (p +:+ a)) (String c (p +:+ b)) = String.compare a b).
  cbn [String.compare]. rewrite ascii_compare_refl. exact IH.
Qed.

Lemma compare_common_suffix (a b t : string) :
  String.length a = String.length b ->
  String.compare (a +:+ t) (b +:+ t) = String.compare a b.
Proof.
  revert b. induction a as [|c a IH]; intros [|c' b] Hlen; try discriminate.
  - apply string_compare_refl.
  - change (String.compare (String c (a +:+ t)) (String c' (b +:+ t))
            = String.compare (String c a) (String c' b)).
    cbn [String.compare]. destruct (Ascii.compare c c'); try reflexivity.
    apply IH. injection Hlen as Hlen. exact Hlen.
Qed.

Lemma three_digits_value (n : nat) :
  n = 100 * (n / 100) + 10 * (n / 10 mod 10) + n mod 10.
Proof.
  pose proof (Nat.div_mod_eq n 10) as H1.
  pose proof (Nat.div_mod_eq (n / 10) 10) as H2.
  rewrite Nat.Div0.div_div in H2. change (10 * 10) with 100 in H2. lia.
Qed.

Lemma compare_three_digits (n m : nat) :
  n < 1000 -> m < 1000 ->
  String.compare (three_digits n) (three_digits m) = Nat.compare n m.
Proof.
  intros Hn Hm. unfold three_digits. cbn [String.compare].
  rewrite !compare_digits by
    (try apply Nat.mod_upper_bound; try (apply Nat.Div0.div_lt_upper_bound); lia).
  pose proof (three_digits_value n) as En. pose proof (three_digits_value m) as Em.
  assert (n / 10 mod 10 < 10 /\ m / 10 mod 10 < 10 /\ n mod 10 < 10 /\ m mod 10 < 10)
    as (B1 & B2 & B3 & B4) by (repeat split; apply Nat.mod_upper_bound; lia).
  revert En Em B1 B2 B3 B4.
  generalize (n / 100) (m / 100) (n / 10 mod 10) (m / 10 mod 10) (n mod 10) (m mod 10).
  intros a a' b b' c c' En Em B1 B2 B3 B4.
  destruct (Nat.compare_spec a a') as [H1|H1|H1];
    [destruct (Nat.compare_spec b b') as [H2|H2|H2];
     [destruct (Nat.compare_spec c c') as [H3|H3|H3]|..]|..];
    symmetry; first [apply Nat.compare_eq_iff | apply Nat.compare_lt_iff | apply Nat.compare_gt_iff];
    lia.
Qed.

(** X17. For topic numbers from 0 to 999 the number takes exactly three
    characters in the file name, and the file names of an output folder
    are ordered, as strings, like the topic numbers. *)
Theorem wordle_files_sort_by_topic (outfolder : string) (n m : Z) :
  (0 <= n < 1000)%Z -> (0 <= m < 1000)%Z ->
  String.length (format_03d n) = 3 /\
  String.ltb (outfolder +:+ figure_filename n) (outfolder +:+ figure_filename m)
  = (n <? m)%Z.
Proof.
  intros Hn Hm.
  rewrite <- (Z2Nat.id n), <- (Z2Nat.id m) by lia.
  assert (Z.to_nat n < 1000) as Hn' by lia. assert (Z.to_nat m < 1000) as Hm' by lia.
  unfold String.ltb, figure_filename.
  rewrite !compare_common_prefix.
  rewrite !format_03d_three_digits by assumption.
  split; [reflexivity|].
  rewrite compare_common_suffix by reflexivity.
  rewrite compare_three_digits by assumption.
  destruct (Nat.compare_spec (Z.to_nat n) (Z.to_nat m));
    destruct (Z.ltb_spec (Z.of_nat (Z.to_nat n)) (Z.of_nat (Z.to_nat m))); try reflexivity; lia.
Qed.

Lemma wordle_files_sort_by_topic_witness :
  String.ltb ("out/" +:+ figure_filename 9) ("out/" +:+ figure_filename 10) = true.
Proof. apply (wordle_files_sort_by_topic "out/" 9 10); lia. Defined.

(** Beyond 999 the order of the names is no longer that of the numbers. *)
Lemma wordle_files_order_breaks_at_1000 :
  String.ltb (figure_filename 1000) (figure_filename 999) = true.
Proof. vm_compute. reflexivity. Qed.

(** ** Word clouds from Mallet output *)

Lemma plt_gcf_spec (w : world) : plt_gcf w = (Ok (current_figure w), ensure_figure w).
Proof.
  unfold plt_gcf, current_figure, ensure_figure, plt_figure.
  destruct (figures w); reflexivity.
Qed.

Lemma ensure_figure_twice (w : world) :
  ensure_figure (ensure_figure w) = ensure_figure w /\
  current_figure (ensure_figure w) = current_figure w /\
  os (ensure_figure w) = os w /\
  written (ensure_figure w) = written w /\
  stderr (ensure_figure w) = stderr w.
Proof. unfold ensure_figure, current_figure. destruct (figures w) eqn:E; cbn; rewrite ?E; auto. Qed.

Lemma plt_show_spec (a : cloud_artist) (c : canvas) :
  plt_show a c
  = (Ok tt, mkCanvas (ensure_figure (pyplot c)) (shown c ++ [(current_figure (pyplot c), a)])).
Proof.
  unfold plt_show, mbind, CM_bind, in_world, show_on. rewrite plt_gcf_spec. reflexivity.
Qed.

Lemma plot_wordle_from_mallet_unfold (rejects : string -> option exn)
    (word_weights_file : list WordScore) (topic_nr number_of_top_words : Z)
    (outfolder : string) (dpi : Z) (c : canvas) (text : string) :
  get_wordlewords (read_mallet_word_weights word_weights_file) number_of_top_words topic_nr
  = Ok text ->
  rejects text = None ->
  let cloud := mkWordCloud (Some 600%Z) (Some 400%Z) (Some "white") (Some 4%Z) text in
  let fig := current_figure (pyplot c) in
  let drawn_on :=
    mkCanvas (ensure_figure (pyplot c))
      (shown c ++ [(fig, ImshowArray cloud); (fig, ImshowCloud cloud);
                   (fig, TitleSized (figure_title topic_nr) 30); (fig, AxisOff)]) in
  plot_wordle_from_mallet rejects word_weights_file topic_nr number_of_top_words outfolder dpi c
  = match path_exists (os (pyplot c)) outfolder, makedirs (os (pyplot c)) outfolder with
    | false, Some e => (Raise e, drawn_on)
    | _, _ =>
        match write_file (os (pyplot c)) (outfolder +:+ figure_filename topic_nr) with
        | Some e => (Raise e, drawn_on)
        | None =>
            (Ok tt,
             mkCanvas
               {| os := os (pyplot c); pyLDAvis := pyLDAvis (ensure_figure (pyplot c));
                  figures := figures (ensure_figure (pyplot c));
                  stderr := stderr (pyplot c);
                  written := written (pyplot c)
                             ++ [(outfolder +:+ figure_filename topic_nr, fig, dpi)] |}
               (shown drawn_on))
        end
    end.
Proof.
  intros Htext Haccept cloud fig drawn_on.
  destruct (ensure_figure_twice (pyplot c)) as (E1 & E2 & E3 & E4 & E5).
  unfold plot_wordle_from_mallet, mbind, CM_bind, generate.
  unfold in_world at 1. unfold lift. rewrite Htext. cbn [wc_text]. rewrite Haccept.
  unfold mret, CM_ret. rewrite !plt_show_spec. cbn [pyplot shown].
  rewrite ?E1, ?E2, ?E1, <- !app_assoc. cbn [app].
  unfold in_world, os_path_exists, os_makedirs, plt_savefig, mbind, CM_bind, in_world, savefig.
  cbn [pyplot shown]. rewrite ?E3.
  destruct (path_exists (os (pyplot c)) outfolder); cbn [negb];
    repeat (cbn [pyplot shown]; rewrite ?plt_gcf_spec, ?E1, ?E2, ?E3, ?E4, ?E5);
    [|destruct (makedirs (os (pyplot c)) outfolder)];
    repeat (cbn [pyplot shown]; rewrite ?plt_gcf_spec, ?E1, ?E2, ?E3, ?E4, ?E5);
    try reflexivity;
    destruct (write_file (os (pyplot c)) (outfolder +:+ figure_filename topic_nr));
    reflexivity.
Qed.

Lemma canvas_eta (c : canvas) : mkCanvas (pyplot c) (shown c) = c.
Proof. destruct c. reflexivity. Qed.

(** X18. [plot_wordle_from_mallet] fails before it draws when the words
    cannot be had: a topic that no row of the file carries gives the
    KeyError of [get_wordlewords], and an exception with which the
    word-cloud package rejects the text is passed on; in both cases pyplot,
    the images and the files are as they were. *)
Theorem plot_wordle_from_mallet_no_words (rejects : string -> option exn)
    (word_weights_file : list WordScore) (topic_nr number_of_top_words : Z)
    (outfolder : string) (dpi : Z) (c : canvas) :
  ((forall r, In r word_weights_file -> col0 r <> topic_nr) ->
   plot_wordle_from_mallet rejects word_weights_file topic_nr number_of_top_words outfolder dpi c
   = (Raise (KeyError topic_nr), c)) /\
  (forall text e,
   get_wordlewords (read_mallet_word_weights word_weights_file) number_of_top_words topic_nr
   = Ok text ->
   rejects text = Some e ->
   plot_wordle_from_mallet rejects word_weights_file topic_nr number_of_top_words outfolder dpi c
   = (Raise e, c)).
Proof.
  split.
  - intros Habsent.
    unfold plot_wordle_from_mallet, mbind, CM_bind, in_world, lift, get_wordlewords.
    rewrite get_group_absent by (apply read_mallet_word_weights_topics; exact Habsent).
    cbn [result_bind]. rewrite canvas_eta. reflexivity.
  - intros text e Htext Hreject.
    unfold plot_wordle_from_mallet, mbind, CM_bind, generate.
    unfold in_world at 1. unfold lift. rewrite Htext. cbn [wc_text]. rewrite Hreject.
    unfold in_world, raise. cbn [pyplot shown]. rewrite canvas_eta. reflexivity.
Qed.

Lemma plot_wordle_from_mallet_no_words_witness :
  plot_wordle_from_mallet (fun _ => None) mallet_example 5 2 "out/" 300
                          (import_canvas friendly_os)
  = (Raise (KeyError 5), import_canvas friendly_os).
Proof.
  destruct (plot_wordle_from_mallet_no_words (fun _ => None) mallet_example 5 2 "out/" 300
              (import_canvas friendly_os)) as [H _].
  apply H. intros r [<-|[<-|[<-|[]]]]; simpl; lia.
Defined.

(** X19. When the topic is in the file, the package accepts the text, the
    output folder exists or is created and the write succeeds,
    [plot_wordle_from_mallet] shows the cloud of the topic's top words
    twice, a title "topic n" and no axes on the current figure, opening a
    figure only if there is none, and writes that figure once, under the
    name [outfolder + "wordle_tp" + "{:03d}".format(n) + ".png"]. *)
Theorem plot_wordle_from_mallet_writes (rejects : string -> option exn)
    (word_weights_file : list WordScore) (topic_nr number_of_top_words : Z)
    (outfolder : string) (dpi : Z) (c : canvas) (text : string) :
  get_wordlewords (read_mallet_word_weights word_weights_file) number_of_top_words topic_nr
  = Ok text ->
  rejects text = None ->
  directory_ready (os (pyplot c)) outfolder ->
  write_file (os (pyplot c)) (outfolder +:+ figure_filename topic_nr) = None ->
  let cloud := mkWordCloud (Some 600%Z) (Some 400%Z) (Some "white") (Some 4%Z) text in
  let fig := current_figure (pyplot c) in
  exists c',
    plot_wordle_from_mallet rejects word_weights_file topic_nr number_of_top_words outfolder dpi c
    = (Ok tt, c') /\
    shown c' = shown c ++ [(fig, ImshowArray cloud); (fig, ImshowCloud cloud);
                           (fig, TitleSized ("topic " +:+ str topic_nr) 30); (fig, AxisOff)] /\
    written (pyplot c')
    = written (pyplot c)
      ++ [(outfolder +:+ "wordle_tp" +:+ format_03d topic_nr +:+ ".png", fig, dpi)] /\
    figures (pyplot c')
    = match figures (pyplot c) with [] => [mkFigure None []] | figs => figs end /\
    stderr (pyplot c') = stderr (pyplot c).
Proof.
  intros Htext Haccept Hdir Hwrite cloud fig.
  rewrite (plot_wordle_from_mallet_unfold _ _ _ _ _ _ _ text Htext Haccept). cbv zeta.
  rewrite Hwrite.
  assert (figures (ensure_figure (pyplot c))
          = match figures (pyplot c) with [] => [mkFigure None []] | figs => figs end) as Hfigs.
  { unfold ensure_figure. destruct (figures (pyplot c)) eqn:E; [reflexivity|exact E]. }
  destruct (path_exists (os (pyplot c)) outfolder) eqn:E;
    [|destruct Hdir as [?|Hdir]; [congruence|rewrite Hdir]];
    (eexists; split; [reflexivity|]; cbn [pyplot shown written figures stderr];
     split; [reflexivity|]; split; [reflexivity|]; split; [exact Hfigs|reflexivity]).
Qed.

Lemma plot_wordle_from_mallet_writes_witness :
  exists c',
    plot_wordle_from_mallet (fun _ => None) mallet_example 0 1 "out/" 300
                            (import_canvas friendly_os) = (Ok tt, c') /\
    written (pyplot c') = [("out/wordle_tp000.png", 0, 300%Z)].
Proof.
  destruct (plot_wordle_from_mallet_writes (fun _ => None) mallet_example 0 1 "out/" 300
              (import_canvas friendly_os) "cat ")
    as (c' & Hrun & _ & Hwritten & _).
  - vm_compute. reflexivity.
  - reflexivity.
  - left. reflexivity.
  - reflexivity.
  - exists c'. split; [exact Hrun|exact Hwritten].
Defined.

(** X20. The name of the file is the folder name and the file name put end
    to end.  Unless the folder name is empty or ends with the separator,
    the file that is written is therefore not [os.path.join(outfolder,
    name)], the file of that name inside the folder which the function has
    just made sure exists. *)
Theorem wordle_file_not_joined (outfolder : string) (topic_nr : Z) :
  outfolder <> "" ->
  String.substring (String.length outfolder - 1) 1 outfolder <> "/" ->
  outfolder +:+ figure_filename topic_nr
  <> os_path_join outfolder (figure_filename topic_nr).
Proof.
  intros Hne Hsep. unfold os_path_join.
  rewrite bool_decide_eq_false_2 by exact Hne.
  destruct (String.eqb_spec (String.substring (String.length outfolder - 1) 1 outfolder) "/")
    as [?|_]; [congruence|].
  intros H. apply String.app_inj in H.
  apply (f_equal String.length) in H. rewrite length_append in H. cbn in H. lia.
Qed.

Lemma wordle_file_not_joined_witness :
  "out" +:+ figure_filename 0 <> os_path_join "out" (figure_filename 0).
Proof. apply (wordle_file_not_joined "out" 0); [discriminate|vm_compute; discriminate]. Defined.

(** X21. Nothing is caught once the cloud is drawn: whatever exception
    [os.makedirs] or the write raises, FileNotFoundError included, reaches
    the caller of [plot_wordle_from_mallet]; the images stay on the figure
    and no file is recorded. *)
Theorem plot_wordle_from_mallet_save_fails (rejects : string -> option exn)
    (word_weights_file : list WordScore) (topic_nr number_of_top_words : Z)
    (outfolder : string) (dpi : Z) (c : canvas) (text : string) (e : exn) :
  get_wordlewords (read_mallet_word_weights word_weights_file) number_of_top_words topic_nr
  = Ok text ->
  rejects text = None ->
  (path_exists (os (pyplot c)) outfolder = false /\ makedirs (os (pyplot c)) outfolder = Some e) \/
  (directory_ready (os (pyplot c)) outfolder /\
   write_file (os (pyplot c)) (outfolder +:+ figure_filename topic_nr) = Some e) ->
  exists c',
    plot_wordle_from_mallet rejects word_weights_file topic_nr number_of_top_words outfolder dpi c
    = (Raise e, c') /\
    length (shown c') = length (shown c) + 4 /\
    written (pyplot c') = written (pyplot c).
Proof.
  intros Htext Haccept Hfail.
  rewrite (plot_wordle_from_mallet_unfold _ _ _ _ _ _ _ text Htext Haccept). cbv zeta.
  destruct (ensure_figure_twice (pyplot c)) as (_ & _ & _ & E4 & _).
  destruct Hfail as [[He Hm]|[Hdir Hw]].
  - rewrite He, Hm. eexists. split; [reflexivity|]. cbn [pyplot shown].
    rewrite length_app. split; [reflexivity|exact E4].
  - rewrite Hw.
    destruct (path_exists (os (pyplot c)) outfolder) eqn:E;
      [|destruct Hdir as [?|Hdir]; [congruence|rewrite Hdir]];
      (eexists; split; [reflexivity|]; cbn [pyplot shown];
       rewrite length_app; split; [reflexivity|exact E4]).
Qed.

Lemma plot_wordle_from_mallet_save_fails_witness :
  exists c',
    plot_wordle_from_mallet (fun _ => None) mallet_example 0 1 "out/" 300
                            (import_canvas no_such_directory)
    = (Raise (FileNotFoundError "out/"), c') /\
    length (shown c') = 4.
Proof.
  destruct (plot_wordle_from_mallet_save_fails (fun _ => None) mallet_example 0 1 "out/" 300
              (import_canvas no_such_directory) "cat " (FileNotFoundError "out/"))
    as (c' & Hrun & Hshown & _).
  - vm_compute. reflexivity.
  - reflexivity.
  - left. split; reflexivity.
  - exists c'. split; [exact Hrun|exact Hshown].
Defined.

(** ** Word clouds from an lda model *)

Lemma py_slice_rev_to_length {A : Type} (words : Z) (l : list A) :
  length (py_slice_rev_to (- words) l) = selected_count (length l) words.
Proof.
  unfold py_slice_rev_to, selected_count. rewrite length_reverse, length_drop.
  destruct (Z.ltb_spec (- words) 0); destruct (Z.leb_spec 1 words); lia.
Qed.

Lemma py_slice_rev_to_top {A : Type} (words : Z) (l : list A) :
  (1 <= words)%Z ->
  py_slice_rev_to (- words) l = take (Z.to_nat (words - 1)) (reverse l).
Proof.
  intros Hw. unfold py_slice_rev_to. destruct (Z.ltb_spec (- words) 0); [|lia].
  rewrite take_reverse. do 2 f_equal. lia.
Qed.

Lemma by_weight_total (p q : nat * float) : by_weight p q = true \/ by_weight q p = true.
Proof. apply asc_leb_total. Qed.

Lemma by_weight_trans (p q r : nat * float) :
  by_weight p q = true -> by_weight q r = true -> by_weight p r = true.
Proof. apply asc_leb_trans. Qed.

Lemma argsort_perm (a : list float) : Permutation (argsort a) (seq 0 (length a)).
Proof.
  unfold argsort.
  rewrite (stable_sort_perm by_weight (zip (seq 0 (length a)) a)).
  change (map fst (zip (seq 0 (length a)) a)) with (fst <$> zip (seq 0 (length a)) a).
  rewrite fst_zip; [reflexivity|]. rewrite length_seq. lia.
Qed.

Lemma zip_seq_weight (a : list float) (p : nat * float) :
  In p (zip (seq 0 (length a)) a) -> p.2 = weight_at a p.1.
Proof.
  intros Hin. apply list_elem_of_In, list_elem_of_lookup in Hin as [k Hk].
  apply lookup_zip_with_Some in Hk as (i & x & -> & Hi & Hx).
  apply lookup_seq in Hi as [-> _]. cbn. unfold weight_at. rewrite Hx. reflexivity.
Qed.

Lemma StronglySorted_map {A B : Type} (R : A -> A -> Prop) (S : B -> B -> Prop)
    (f : A -> B) (l : list A) :
  (forall x y, In x l -> In y l -> R x y -> S (f x) (f y)) ->
  StronglySorted R l -> StronglySorted S (map f l).
Proof.
  intros HRS H. induction H as [|x l Hl IH Hx]; [constructor|]. cbn [map].
  constructor.
  - apply IH. intros y z Hy Hz. apply HRS; right; assumption.
  - apply List.Forall_forall. intros y Hy. apply in_map_iff in Hy as (z & <- & Hz).
    rewrite List.Forall_forall in Hx. apply HRS; [left; reflexivity|right; exact Hz|].
    apply Hx, Hz.
Qed.

Lemma argsort_sorted (a : list float) :
  StronglySorted (fun i j => asc_leb (weight_at a i) (weight_at a j) = true) (argsort a).
Proof.
  unfold argsort. eapply StronglySorted_map;
    [|apply (stable_sort_strongly by_weight by_weight_total by_weight_trans)].
  intros p q Hp Hq Hpq.
  assert (forall r, In r (stable_sort by_weight (zip (seq 0 (length a)) a)) ->
                    r.2 = weight_at a r.1) as Hw.
  { intros r Hr. apply zip_seq_weight.
    eapply Permutation_in; [apply stable_sort_perm|exact Hr]. }
  rewrite <- (Hw p Hp), <- (Hw q Hq). exact Hpq.
Qed.

Lemma StronglySorted_snoc {A : Type} (R : A -> A -> Prop) (l : list A) (x : A) :
  StronglySorted R l -> Forall (fun y => R y x) l -> StronglySorted R (l ++ [x]).
Proof.
  induction 1 as [|y l Hl IH Hy]; intros Hx; cbn [app].
  - constructor; constructor.
  - apply Forall_cons in Hx as [Hyx Hx]. constructor; [apply IH, Hx|].
    apply Forall_app. split; [exact Hy|]. constructor; [exact Hyx|constructor].
Qed.

Lemma StronglySorted_reverse {A : Type} (R : A -> A -> Prop) (l : list A) :
  StronglySorted R l -> StronglySorted (fun x y => R y x) (reverse l).
Proof.
  induction 1 as [|x l Hl IH Hx]; [constructor|].
  rewrite reverse_cons. apply StronglySorted_snoc; [exact IH|].
  apply Forall_reverse. exact Hx.
Qed.

Lemma descending_positions_spec (a : list float) :
  Permutation (descending_positions a) (seq 0 (length a)) /\
  StronglySorted (fun i j => asc_leb (weight_at a j) (weight_at a i) = true)
                 (descending_positions a).
Proof.
  unfold descending_positions. split.
  - rewrite reverse_Permutation. apply argsort_perm.
  - apply (StronglySorted_reverse _ _ (argsort_sorted a)).
Qed.

Lemma take_positions_ok (vocab : list string) (positions : list nat) :
  Forall (fun i => i < length vocab) positions ->
  take_positions vocab positions = Ok (map (fun i => default "" (vocab !! i)) positions).
Proof.
  induction 1 as [|i rest Hi _ IH]; [reflexivity|]. cbn [take_positions map].
  destruct (lookup_lt_is_Some_2 vocab i Hi) as [token ->]. rewrite IH. reflexivity.
Qed.

Lemma take_positions_raises (vocab : list string) (positions : list nat) :
  Exists (fun i => length vocab <= i) positions ->
  exists i, In i positions /\ length vocab <= i /\
    take_positions vocab positions = Raise (IndexError (Z.of_nat i) (length vocab)).
Proof.
  induction positions as [|i rest IH]; intros Hex; [inversion Hex|].
  cbn [take_positions]. destruct (vocab !! i) as [token|] eqn:Hi.
  - apply Exists_cons in Hex as [Hbad|Hex].
    + apply lookup_lt_Some in Hi. lia.
    + destruct (IH Hex) as (j & Hin & Hj & ->). exists j.
      split; [right; exact Hin|]. split; [exact Hj|reflexivity].
  - exists i. split; [left; reflexivity|]. split; [apply lookup_ge_None, Hi|reflexivity].
Qed.

Lemma foldl_insert_reverse (pairs : list (string * float)) (m : gmap string float) :
  foldl (fun token_value '(token, value) => <[token := value]> token_value) m pairs
  = foldr (fun p acc => <[p.1 := p.2]> acc) m (reverse pairs).
Proof.
  revert m. induction pairs as [|[k v] pairs IH]; intros m; [reflexivity|].
  cbn [foldl]. rewrite IH, reverse_cons, foldr_app. reflexivity.
Qed.

Lemma token_value_loop_list_to_map (pairs : list (string * float)) :
  token_value_loop pairs = list_to_map (reverse pairs).
Proof. unfold token_value_loop. apply foldl_insert_reverse. Qed.

Lemma token_value_lookup (keys : list string) (vals : list float) (k : nat)
    (token : string) (value : float) :
  NoDup keys -> length keys = length vals ->
  keys !! k = Some token -> vals !! k = Some value ->
  token_value_loop (zip keys vals) !! token = Some value.
Proof.
  intros Hnd Hlen Hk Hv. rewrite token_value_loop_list_to_map.
  apply elem_of_list_to_map_1.
  - rewrite fmap_reverse, fst_zip by lia. rewrite reverse_Permutation; exact Hnd.
  - apply elem_of_reverse, list_elem_of_lookup. exists k.
    apply lookup_zip_with_Some. eauto.
Qed.

Lemma token_value_domain (keys : list string) (vals : list float) (token : string) :
  length keys = length vals ->
  is_Some (token_value_loop (zip keys vals) !! token) <-> token ∈ keys.
Proof.
  intros Hlen. rewrite token_value_loop_list_to_map.
  rewrite <- not_eq_None_Some, <- not_elem_of_list_to_map.
  rewrite fmap_reverse, fst_zip by lia. rewrite elem_of_reverse.
  split; [apply dec_stable|auto].
Qed.

Lemma token_value_size (keys : list string) (vals : list float) :
  NoDup keys -> length keys = length vals ->
  size (token_value_loop (zip keys vals)) = length keys.
Proof.
  intros Hnd Hlen. rewrite token_value_loop_list_to_map.
  rewrite map_size_list_to_map.
  - rewrite length_reverse, length_zip. lia.
  - rewrite fmap_reverse, fst_zip by lia. rewrite reverse_Permutation; exact Hnd.
Qed.

Lemma py_slice_rev_to_take {A : Type} (words : Z) (l : list A) :
  py_slice_rev_to (- words) l = take (selected_count (length l) words) (reverse l).
Proof.
  unfold py_slice_rev_to, selected_count. rewrite take_reverse. do 2 f_equal.
  destruct (Z.ltb_spec (- words) 0); destruct (Z.leb_spec 1 words); lia.
Qed.

Lemma argsort_in_range (a : list float) (vocab : list string) :
  length a <= length vocab -> Forall (fun i => i < length vocab) (argsort a).
Proof.
  intros Hlen. apply List.Forall_forall. intros i Hi.
  apply (Permutation_in _ (argsort_perm a)), in_seq in Hi. lia.
Qed.

Lemma length_argsort (a : list float) : length (argsort a) = length a.
Proof. rewrite (Permutation_length (argsort_perm a)). apply length_seq. Qed.

(** The words of the slice: the vocabulary at the first descending
    positions. *)
Lemma topic_words_ok (vocab : list string) (topic_dist : list float) (words : Z) :
  length topic_dist <= length vocab ->
  (ranked ← take_positions vocab (argsort topic_dist);
   Ok (py_slice_rev_to (- words) ranked))
  = Ok (take (selected_count (length topic_dist) words)
             (map (fun i => default "" (vocab !! i)) (descending_positions topic_dist))).
Proof.
  intros Hlen. rewrite (take_positions_ok _ _ (argsort_in_range _ _ Hlen)).
  cbn [mbind result_bind]. rewrite py_slice_rev_to_take, length_map, length_argsort.
  unfold descending_positions.
  change (map ?f (reverse ?l)) with (f <$> reverse l). rewrite fmap_reverse. reflexivity.
Qed.

Lemma plot_wordle_from_lda_unfold (rejects : gmap string float -> option exn)
    (model : LdaFit) (vocab : list string) (topic_nr words height width : Z)
    (topic_dist : list float) :
  topic_row model topic_nr = Ok topic_dist ->
  length topic_dist <= length vocab ->
  plot_wordle_from_lda rejects model vocab topic_nr words height width
  = fit_words rejects (mkFittedWordCloud "white" height width
      (token_value_loop
         (zip (take (selected_count (length topic_dist) words)
                    (map (fun i => default "" (vocab !! i)) (descending_positions topic_dist)))
              (take (selected_count (length topic_dist) words) (reverse topic_dist))))).
Proof.
  intros Hrow Hlen. unfold plot_wordle_from_lda. rewrite Hrow. cbn [mbind result_bind].
  rewrite (topic_words_ok _ _ _ Hlen), py_slice_rev_to_take. reflexivity.
Qed.

Lemma selected_count_le (n : nat) (words : Z) : selected_count n words <= n.
Proof. unfold selected_count. destruct (Z.leb_spec 1 words); lia. Qed.

Lemma length_descending_positions (a : list float) :
  length (descending_positions a) = length a.
Proof. unfold descending_positions. rewrite length_reverse. apply length_argsort. Qed.

Lemma NoDup_descending_words (vocab : list string) (topic_dist : list float) :
  NoDup vocab -> length topic_dist <= length vocab ->
  NoDup (map (fun i => default "" (vocab !! i)) (descending_positions topic_dist)).
Proof.
  intros Hnd Hlen.
  change (map ?f ?l) with (f <$> l).
  apply NoDup_fmap_2_strong.
  - intros i j Hi Hj Hij.
    assert (forall x, x ∈ descending_positions topic_dist -> x < length vocab) as Hr.
    { intros x Hx. apply list_elem_of_In in Hx.
      apply (Permutation_in _ (proj1 (descending_positions_spec topic_dist))), in_seq in Hx.
      lia. }
    destruct (lookup_lt_is_Some_2 vocab i (Hr i Hi)) as [a Ha].
    destruct (lookup_lt_is_Some_2 vocab j (Hr j Hj)) as [b Hb].
    rewrite Ha, Hb in Hij. cbn in Hij. subst b.
    eapply NoDup_lookup; eauto.
  - rewrite (proj1 (descending_positions_spec topic_dist)). apply NoDup_seq.
Qed.

(** X22. For a vocabulary without repeated words that covers the topic's
    row, [plot_wordle_from_lda] hands [fit_words] a dictionary of
    [selected_count n words] tokens, where [n] is the length of the row:
    [words - 1] of them (at most [n]) when [words] is at least 1, and
    [n - 1 + words] (at least none) otherwise.  A request for one word gives
    an empty dictionary, and a request for no word gives all but one. *)
Theorem plot_wordle_from_lda_count (rejects : gmap string float -> option exn)
    (model : LdaFit) (vocab : list string) (topic_nr words height width : Z)
    (topic_dist : list float) :
  topic_row model topic_nr = Ok topic_dist ->
  NoDup vocab ->
  length topic_dist <= length vocab ->
  exists token_value : gmap string float,
    plot_wordle_from_lda rejects model vocab topic_nr words height width
    = fit_words rejects (mkFittedWordCloud "white" height width token_value) /\
    size token_value = selected_count (length topic_dist) words /\
    (words = 1%Z -> token_value = ∅) /\
    (words = 0%Z -> size token_value = length topic_dist - 1).
Proof.
  intros Hrow Hnd Hlen. eexists. split; [apply (plot_wordle_from_lda_unfold _ _ _ _ _ _ _ _ Hrow Hlen)|].
  pose proof (selected_count_le (length topic_dist) words) as Hle.
  assert (size (token_value_loop
         (zip (take (selected_count (length topic_dist) words)
                    (map (fun i => default "" (vocab !! i)) (descending_positions topic_dist)))
              (take (selected_count (length topic_dist) words) (reverse topic_dist))))
          = selected_count (length topic_dist) words) as Hsize.
  { rewrite token_value_size.
    - rewrite length_take, length_map, length_descending_positions. lia.
    - eapply sublist_NoDup; [apply (NoDup_descending_words _ _ Hnd Hlen)|apply sublist_take].
    - rewrite !length_take, length_map, length_descending_positions, length_reverse. lia. }
  split; [exact Hsize|]. split.
  - intros ->. apply map_size_empty_inv. rewrite Hsize. unfold selected_count. cbn. lia.
  - intros ->. rewrite Hsize. unfold selected_count. cbn. lia.
Qed.

Lemma plot_wordle_from_lda_count_witness :
  exists token_value : gmap string float,
    plot_wordle_from_lda (fun _ => None) lda_example ["a"; "b"; "c"] 0 3 400 600
    = fit_words (fun _ => None) (mkFittedWordCloud "white" 400 600 token_value) /\
    size token_value = selected_count 3 3 /\
    (3%Z = 1%Z -> token_value = ∅) /\
    (3%Z = 0%Z -> size token_value = 3 - 1).
Proof.
  apply (plot_wordle_from_lda_count (fun _ => None) lda_example ["a"; "b"; "c"]
           0 3 400 600 [0.5; 0.1; 0.4]%float).
  - reflexivity.
  - apply (bool_decide_unpack _). vm_compute. reflexivity.
  - cbn. lia.
Defined.

(** X23. The value stored for a token is taken by position, not by rank:
    the token of the [k]-th largest weight is stored with the weight at
    position [n - 1 - k] of the row as the model has it, since line 466
    slices the row itself and not the sorted row. *)
Theorem plot_wordle_from_lda_values (rejects : gmap string float -> option exn)
    (model : LdaFit) (vocab : list string) (topic_nr words height width : Z)
    (topic_dist : list float) (k : nat) :
  topic_row model topic_nr = Ok topic_dist ->
  NoDup vocab ->
  length topic_dist <= length vocab ->
  k < selected_count (length topic_dist) words ->
  exists (token_value : gmap string float) (i : nat) (token : string),
    plot_wordle_from_lda rejects model vocab topic_nr words height width
    = fit_words rejects (mkFittedWordCloud "white" height width token_value) /\
    descending_positions topic_dist !! k = Some i /\
    vocab !! i = Some token /\
    token_value !! token = Some (weight_at topic_dist (length topic_dist - 1 - k)).
Proof.
  intros Hrow Hnd Hlen Hk.
  pose proof (selected_count_le (length topic_dist) words) as Hle.
  destruct (lookup_lt_is_Some_2 (descending_positions topic_dist) k) as [i Hi].
  { rewrite length_descending_positions. lia. }
  assert (i < length topic_dist) as Hin.
  { apply list_elem_of_lookup_2, list_elem_of_In in Hi.
    apply (Permutation_in _ (proj1 (descending_positions_spec topic_dist))), in_seq in Hi.
    lia. }
  destruct (lookup_lt_is_Some_2 vocab i) as [token Htoken]; [lia|].
  destruct (lookup_lt_is_Some_2 topic_dist (length topic_dist - 1 - k)) as [value Hvalue];
    [lia|].
  eexists _, i, token.
  split; [apply (plot_wordle_from_lda_unfold _ _ _ _ _ _ _ _ Hrow Hlen)|].
  split; [exact Hi|]. split; [exact Htoken|].
  unfold weight_at. rewrite Hvalue. change (default fzero (Some value)) with value.
  apply (token_value_lookup _ _ k).
  - eapply sublist_NoDup; [apply (NoDup_descending_words _ _ Hnd Hlen)|apply sublist_take].
  - rewrite !length_take, length_map, length_descending_positions, length_reverse. lia.
  - rewrite lookup_take_lt by exact Hk.
    change (map ?f ?l) with (f <$> l). rewrite list_lookup_fmap, Hi. cbn.
    rewrite Htoken. reflexivity.
  - rewrite lookup_take_lt by exact Hk. rewrite reverse_lookup by lia.
    rewrite <- Hvalue. f_equal. lia.
Qed.

Lemma plot_wordle_from_lda_values_witness :
  exists (token_value : gmap string float) (i : nat) (token : string),
    plot_wordle_from_lda (fun _ => None) lda_example ["a"; "b"; "c"] 0 3 400 600
    = fit_words (fun _ => None) (mkFittedWordCloud "white" 400 600 token_value) /\
    descending_positions [0.5; 0.1; 0.4]%float !! 0 = Some i /\
    ["a"; "b"; "c"] !! i = Some token /\
    token_value !! token = Some (weight_at [0.5; 0.1; 0.4]%float (3 - 1 - 0)).
Proof.
  apply (plot_wordle_from_lda_values (fun _ => None) lda_example ["a"; "b"; "c"]
           0 3 400 600 [0.5; 0.1; 0.4]%float 0).
  - reflexivity.
  - apply (bool_decide_unpack _). vm_compute. reflexivity.
  - cbn. lia.
  - vm_compute. lia.
Defined.

(** X24. The tokens handed to [fit_words] are the vocabulary words at the
    first [selected_count n words] positions of the row taken from the
    largest weight down (NaN first), these positions being a rearrangement
    of all the positions of the row. *)
Theorem plot_wordle_from_lda_tokens (rejects : gmap string float -> option exn)
    (model : LdaFit) (vocab : list string) (topic_nr words height width : Z)
    (topic_dist : list float) :
  topic_row model topic_nr = Ok topic_dist ->
  length topic_dist <= length vocab ->
  exists token_value : gmap string float,
    plot_wordle_from_lda rejects model vocab topic_nr words height width
    = fit_words rejects (mkFittedWordCloud "white" height width token_value) /\
    (forall token : string,
       is_Some (token_value !! token) <->
       exists k i, k < selected_count (length topic_dist) words /\
                   descending_positions topic_dist !! k = Some i /\
                   vocab !! i = Some token) /\
    Permutation (descending_positions topic_dist) (seq 0 (length topic_dist)) /\
    StronglySorted (fun i j => asc_leb (weight_at topic_dist j) (weight_at topic_dist i) = true)
                   (descending_positions topic_dist).
Proof.
  intros Hrow Hlen.
  pose proof (selected_count_le (length topic_dist) words) as Hle.
  eexists. split; [apply (plot_wordle_from_lda_unfold _ _ _ _ _ _ _ _ Hrow Hlen)|].
  split; [|apply descending_positions_spec].
  intros token. rewrite token_value_domain.
  2:{ rewrite !length_take, length_map, length_descending_positions, length_reverse. lia. }
  rewrite list_elem_of_lookup. split.
  - intros [k Hk]. apply lookup_take_Some in Hk as [Hk Hlt].
    change (map ?f ?l) with (f <$> l) in Hk. rewrite list_lookup_fmap in Hk.
    destruct (descending_positions topic_dist !! k) as [i|] eqn:Hi; [|discriminate].
    cbn in Hk. exists k, i. split; [exact Hlt|]. split; [exact Hi|].
    assert (i < length vocab) as Hin.
    { apply list_elem_of_lookup_2, list_elem_of_In in Hi.
      apply (Permutation_in _ (proj1 (descending_positions_spec topic_dist))), in_seq in Hi.
      lia. }
    destruct (lookup_lt_is_Some_2 vocab i Hin) as [t Ht]. rewrite Ht in Hk |- *.
    cbn in Hk. congruence.
  - intros (k & i & Hk & Hi & Htoken). exists k.
    rewrite lookup_take_lt by exact Hk.
    change (map ?f ?l) with (f <$> l). rewrite list_lookup_fmap, Hi. cbn.
    rewrite Htoken. reflexivity.
Qed.

Lemma plot_wordle_from_lda_tokens_witness :
  exists token_value : gmap string float,
    plot_wordle_from_lda (fun _ => None) lda_example ["a"; "b"; "c"] 0 3 400 600
    = fit_words (fun _ => None) (mkFittedWordCloud "white" 400 600 token_value) /\
    (forall token : string,
       is_Some (token_value !! token) <->
       exists k i, k < selected_count 3 3 /\
                   descending_positions [0.5; 0.1; 0.4]%float !! k = Some i /\
                   ["a"; "b"; "c"] !! i = Some token) /\
    Permutation (descending_positions [0.5; 0.1; 0.4]%float) (seq 0 3) /\
    StronglySorted (fun i j => asc_leb (weight_at [0.5; 0.1; 0.4]%float j)
                                       (weight_at [0.5; 0.1; 0.4]%float i) = true)
                   (descending_positions [0.5; 0.1; 0.4]%float).
Proof.
  apply (plot_wordle_from_lda_tokens (fun _ => None) lda_example ["a"; "b"; "c"]
           0 3 400 600 [0.5; 0.1; 0.4]%float).
  - reflexivity.
  - cbn. lia.
Defined.

(** X25. A vocabulary shorter than the topic's row is an [IndexError] of
    numpy's, for a position of the row that the vocabulary does not have,
    however few words are asked for: the whole row is looked up in the
    vocabulary before the slice is taken. *)
Theorem plot_wordle_from_lda_short_vocabulary (rejects : gmap string float -> option exn)
    (model : LdaFit) (vocab : list string) (topic_nr words height width : Z)
    (topic_dist : list float) :
  topic_row model topic_nr = Ok topic_dist ->
  length vocab < length topic_dist ->
  exists i : nat,
    length vocab <= i < length topic_dist /\
    plot_wordle_from_lda rejects model vocab topic_nr words height width
    = Raise (IndexError (Z.of_nat i) (length vocab)).
Proof.
  intros Hrow Hlen. unfold plot_wordle_from_lda. rewrite Hrow. cbn [mbind result_bind].
  destruct (take_positions_raises vocab (argsort topic_dist)) as (i & Hin & Hi & ->).
  - apply List.Exists_exists. exists (length vocab). split; [|lia].
    apply (Permutation_in _ (Permutation_sym (argsort_perm topic_dist))), in_seq. lia.
  - exists i. split; [|reflexivity].
    apply (Permutation_in _ (argsort_perm topic_dist)), in_seq in Hin. lia.
Qed.

Lemma plot_wordle_from_lda_short_vocabulary_witness :
  exists i : nat,
    length ["a"] <= i < length [0.5; 0.1; 0.4]%float /\
    plot_wordle_from_lda (fun _ => None) lda_example ["a"] 0 1 400 600
    = Raise (IndexError (Z.of_nat i) (length ["a"])).
Proof.
  apply (plot_wordle_from_lda_short_vocabulary (fun _ => None) lda_example ["a"]
           0 1 400 600 [0.5; 0.1; 0.4]%float).
  - reflexivity.
  - cbn. lia.
Defined.

(** On the example row [0.5; 0.1; 0.4] over the words a, b, c, a request for
    three words stores a with 0.4 and c with 0.1, while their weights in the
    row are 0.5 and 0.4. *)
Remark lda_example_values :
  exists token_value : gmap string float,
    plot_wordle_from_lda (fun _ => None) lda_example ["a"; "b"; "c"] 0 3 400 600
    = Ok (mkFittedWordCloud "white" 400 600 token_value) /\
    token_value !! "a" = Some 0.4%float /\
    token_value !! "c" = Some 0.1%float /\
    token_value !! "b" = None.
Proof. eexists. split; [reflexivity|]. split; [|split]; vm_compute; reflexivity. Qed.
